(** * Bulk import of books and library users, and the copy counter of a book

    A shallow embedding of [books/utils/file_processors.py],
    [users/utils/file_processors.py] and of [Book.reserve_copy] /
    [Book.return_copy] from [books/models.py].

    - Text is modelled on the code points below 256, one [ascii] each.
    - The persisted collection of a model class is the list of its records
      in insertion order; [objects.filter(...).exists()] searches it and
      [objects.create] appends to it, unless the database refuses the
      insert.  Which inserts a database refuses is left open ([Backend]).
    - A processor either returns its dict, or lets an exception through
      that it does not catch; [transaction.atomic()] then undoes what the
      call had inserted ([Result], [persisted]).
    - A spreadsheet is taken as the frame that [pd.read_excel] builds from
      it ([DataFrame], [Cell]).

    Around the import: the lookups of [BookRepository] and
    [UserRepository], [BookSerializer.validate] and the [bulk_upload]
    views.  And the loans: [Loan] with its methods ([loans/models.py]),
    [LoanSerializer.validate] and [create], [LoanViewSet.return_loan] and
    the listings of [LoanRepository].

    - A date is the ordinal of its day, and the clock is a parameter of
      whatever reads it.
    - A method of a loan that reaches its book is given the row of that
      book and returns it as saved. *)

From Stdlib Require Import String Ascii List Bool Arith ZArith NArith Lia.
From Stdlib Require Import DecimalString Permutation.
Import ListNotations.

Local Open Scope string_scope.
Local Open Scope list_scope.

(* ===================================================================== *)
(** ** The Python string operations the processors use *)
(* ===================================================================== *)

Module Py.

(** [str.isspace] on one code point below 256: TAB..CR, FS..US, SPACE,
    NEL and NBSP.  This is the set that [str.strip()] removes. *)
Definition is_space (c : ascii) : bool :=
  let n := N_of_ascii c in
  (((9 <=? n) && (n <=? 13)) || ((28 <=? n) && (n <=? 32))
   || (n =? 133) || (n =? 160))%N.

Fixpoint lstrip (s : string) : string :=
  match s with
  | EmptyString => EmptyString
  | String c s' => if is_space c then lstrip s' else s
  end.

Fixpoint rstrip (s : string) : string :=
  match s with
  | EmptyString => EmptyString
  | String c s' =>
      match rstrip s' with
      | EmptyString => if is_space c then EmptyString else String c EmptyString
      | r => String c r
      end
  end.

(** [s.strip()] *)
Definition strip (s : string) : string := rstrip (lstrip s).

(** [s.split(sep)] for a one-character separator: never the empty list. *)
Fixpoint split (sep : ascii) (s : string) : list string :=
  match s with
  | EmptyString => [EmptyString]
  | String c s' =>
      if Ascii.eqb c sep then EmptyString :: split sep s'
      else match split sep s' with
           | [] => [String c EmptyString]
           | h :: t => String c h :: t
           end
  end.

(** [sep.join(parts)] *)
Fixpoint join (sep : string) (parts : list string) : string :=
  match parts with
  | [] => EmptyString
  | [p] => p
  | p :: ps => p ++ sep ++ join sep ps
  end.

(** [str.lower] on one code point below 256: A..Z and the Latin-1
    capitals (all of 0xC0..0xDE but the multiplication sign). *)
Definition lower_char (c : ascii) : ascii :=
  let n := N_of_ascii c in
  if (((65 <=? n) && (n <=? 90))
      || ((192 <=? n) && (n <=? 222) && negb (n =? 215)))%N
  then ascii_of_N (n + 32) else c.

Fixpoint lower (s : string) : string :=
  match s with
  | EmptyString => EmptyString
  | String c s' => String (lower_char c) (lower s')
  end.

(** [x in xs] for a list of strings *)
Definition mem (x : string) (xs : list string) : bool :=
  existsb (String.eqb x) xs.

(** [xs == ys] for lists of strings *)
Fixpoint list_eqb (xs ys : list string) : bool :=
  match xs, ys with
  | [], [] => true
  | x :: xs', y :: ys' => String.eqb x y && list_eqb xs' ys'
  | _, _ => false
  end.

(** [str(n)] for a natural number and for an integer *)
Definition str_of_nat (n : nat) : string :=
  NilEmpty.string_of_uint (Nat.to_uint n).

Definition str_of_Z (z : Z) : string :=
  NilEmpty.string_of_int (Z.to_int z).

(** *** [repr] of a string, as [%R] and [!r] print it *)

Definition hex_digit (n : N) : ascii :=
  if (n <? 10)%N then ascii_of_N (48 + n) else ascii_of_N (87 + n).

Definition hex_escape (c : ascii) : string :=
  let n := N_of_ascii c in
  String "\" (String "x" (String (hex_digit (n / 16))
                            (String (hex_digit (n mod 16)) EmptyString))).

(** Code points below 256 that [repr] prints as they are. *)
Definition is_printable (c : ascii) : bool :=
  let n := N_of_ascii c in
  (((32 <=? n) && (n <? 127)) || ((161 <=? n) && negb (n =? 173)))%N.

Definition contains_char (c : ascii) (s : string) : bool :=
  existsb (Ascii.eqb c) (list_ascii_of_string s).

Definition repr_char (quote c : ascii) : string :=
  if Ascii.eqb c quote || Ascii.eqb c "\" then String "\" (String c EmptyString)
  else if Ascii.eqb c "009" then "\t"
  else if Ascii.eqb c "010" then "\n"
  else if Ascii.eqb c "013" then "\r"
  else if is_printable c then String c EmptyString
  else hex_escape c.

Fixpoint repr_body (quote : ascii) (s : string) : string :=
  match s with
  | EmptyString => EmptyString
  | String c s' => repr_char quote c ++ repr_body quote s'
  end.

Definition repr (s : string) : string :=
  let quote : ascii :=
    if contains_char "'" s && negb (contains_char "034" s) then "034"%char
    else "'"%char in
  String quote (repr_body quote s ++ String quote EmptyString).

Fixpoint take (n : nat) (s : string) : string :=
  match n, s with
  | S n', String c s' => String c (take n' s')
  | _, _ => EmptyString
  end.

End Py.

(* ===================================================================== *)
(** ** Exceptions *)
(* ===================================================================== *)

(** The exceptions that the statements of the processors can raise.  The
    [try] of a text row catches [ValueError] and [IndexError], that of a
    spreadsheet row [ValueError] and [KeyError]; whatever is not caught
    propagates to the caller. *)
Inductive Raised : Type :=
| ValueError (msg : string)
| IndexError (msg : string)
| KeyError (msg : string)
| TypeError (msg : string)
| UnicodeDecodeError
| DatabaseError
| AttributeError.

Inductive Exc (A : Type) : Type :=
| Ok (a : A)
| Raise (e : Raised).

Arguments Ok {A} a.
Arguments Raise {A} e.

Definition bind {A B : Type} (m : Exc A) (k : A -> Exc B) : Exc B :=
  match m with
  | Ok a => k a
  | Raise e => Raise e
  end.

Notation "x <- m ;; k" := (bind m (fun x => k))
  (at level 61, m at next level, right associativity).

(* ===================================================================== *)
(** ** [int(...)] of a string *)
(* ===================================================================== *)

Module PyInt.

Definition digit_value (c : ascii) : option Z :=
  let n := N_of_ascii c in
  if ((48 <=? n) && (n <=? 57))%N then Some (Z.of_N (n - 48)) else None.

(** The white space that [int] skips around a literal: TAB..CR and SPACE,
    and NEL and NBSP, which the conversion turns into a space first.  It
    is narrower than what [str.strip] removes: FS..US are not skipped. *)
Definition is_space (c : ascii) : bool :=
  let n := N_of_ascii c in
  (((9 <=? n) && (n <=? 13)) || (n =? 32) || (n =? 133) || (n =? 160))%N.

Fixpoint skip (s : string) : string :=
  match s with
  | EmptyString => EmptyString
  | String c s' => if is_space c then skip s' else s
  end.

Fixpoint only_space (s : string) : bool :=
  match s with
  | EmptyString => true
  | String c s' => is_space c && only_space s'
  end.

(** The sign of a literal, and what follows it. *)
Definition signed (t : string) : bool * string :=
  match t with
  | String "-" r => (true, r)
  | String "+" r => (false, r)
  | _ => (false, t)
  end.

Definition starts_with_underscore (s : string) : bool :=
  match s with
  | String c _ => Ascii.eqb c "_"
  | EmptyString => false
  end.

(** The run of decimal digits and underscores that a literal body starts
    with: its digits, whether it ends in an underscore, and what follows
    it; nothing when two underscores meet.  [after_underscore] tells
    whether the previous character was an underscore. *)
Fixpoint run (after_underscore : bool) (s : string)
  : option (list Z * bool * string) :=
  match s with
  | EmptyString => Some ([], after_underscore, EmptyString)
  | String c s' =>
      match digit_value c with
      | Some d =>
          match run false s' with
          | Some (ds, u, rest) => Some (d :: ds, u, rest)
          | None => None
          end
      | None =>
          if Ascii.eqb c "_" then
            if after_underscore then None else run true s'
          else Some ([], after_underscore, s)
      end
  end.

Definition value (ds : list Z) : Z :=
  fold_left (fun acc d => 10 * acc + d)%Z ds 0%Z.

(** The default of [sys.get_int_max_str_digits()] *)
Definition max_str_digits : nat := 4300.

Definition invalid_literal (s : string) : Raised :=
  ValueError ("invalid literal for int() with base 10: "
              ++ Py.take 200 (Py.repr s)).

Definition exceeds_limit (n : nat) : Raised :=
  ValueError ("Exceeds the limit (" ++ Py.str_of_nat max_str_digits
              ++ " digits) for integer string conversion: value has "
              ++ Py.str_of_nat n
              ++ " digits; use sys.set_int_max_str_digits() to increase the limit").

(** [int(s)] for a [str], in the order of the checks of the conversion:
    the white space before the literal is skipped and the sign read; the
    body may not start with an underscore; its run of digits is scanned,
    which fails on two underscores in a row and on an underscore at its
    end; then comes the limit on the number of digits; and only then it is
    an error that there is no digit, or that something other than white
    space follows the digits. *)
Definition of_str (s : string) : Exc Z :=
  let '(negative, body) := signed (skip s) in
  if starts_with_underscore body then Raise (invalid_literal s)
  else
    match run false body with
    | None => Raise (invalid_literal s)
    | Some (ds, ends_in_underscore, rest) =>
        if ends_in_underscore : bool then Raise (invalid_literal s)
        else if (max_str_digits <? List.length ds)%nat
        then Raise (exceeds_limit (List.length ds))
        else if (List.length ds =? 0)%nat || negb (only_space rest)
        then Raise (invalid_literal s)
        else Ok (if negative then (- value ds)%Z else value ds)
    end.

End PyInt.

(* ===================================================================== *)
(** ** The models ([books/models.py], [users/models.py]) *)
(* ===================================================================== *)

Record Book : Type := mkBook {
  title : string;
  author : string;
  isbn : string;
  publisher : string;
  publication_year : option Z;
  category : string;
  quantity : Z;
  available_quantity : Z
}.

Record LibraryUser : Type := mkLibraryUser {
  full_name : string;
  email : string;
  phone : string;
  address : string;
  registration_number : string;
  is_active : bool
}.

(** [Book.reserve_copy]: the flag it returns and the book as saved. *)
Definition reserve_copy (self : Book) : bool * Book :=
  if (0 <? available_quantity self)%Z then
    (true,
     mkBook (title self) (author self) (isbn self) (publisher self)
            (publication_year self) (category self) (quantity self)
            (available_quantity self - 1)%Z)
  else (false, self).

(** [Book.return_copy] *)
Definition return_copy (self : Book) : bool * Book :=
  if (available_quantity self <? quantity self)%Z then
    (true,
     mkBook (title self) (author self) (isbn self) (publisher self)
            (publication_year self) (category self) (quantity self)
            (available_quantity self + 1)%Z)
  else (false, self).

(** *** The manager queries the processors use *)

(** [Book.objects.filter(isbn=x).exists()] *)
Definition isbn_exists (objects : list Book) (x : string) : bool :=
  existsb (fun b => String.eqb (isbn b) x) objects.

(** [LibraryUser.objects.filter(registration_number=x).exists()] *)
Definition registration_exists (objects : list LibraryUser) (x : string) : bool :=
  existsb (fun u => String.eqb (registration_number u) x) objects.

(** [LibraryUser.objects.filter(email=x).exists()] *)
Definition email_exists (objects : list LibraryUser) (x : string) : bool :=
  existsb (fun u => String.eqb (email u) x) objects.

(** What the database does with an INSERT is the backend's business (the
    checks behind [PositiveIntegerField], [unique=True], [max_length]): a
    backend says which inserts it refuses.  A refused insert raises inside
    [objects.create], and the processors do not catch that.

    The other thing that a run decides and the code does not is the order
    in which a set of names is iterated, which changes with the hash seed
    of the interpreter: [set_order] puts the names of a set in that order. *)
Class Backend : Type := {
  refuses_book : list Book -> Book -> bool;
  refuses_user : list LibraryUser -> LibraryUser -> bool;
  set_order : list string -> list string;
  set_order_permutes : forall names, Permutation (set_order names) names
}.

Section Managers.
Context {backend : Backend}.

(** [Book.objects.create] with the fields of [data] *)
Definition create_book (objects : list Book) (data : Book) : Exc (list Book) :=
  if refuses_book objects data then Raise DatabaseError
  else Ok (objects ++ [data]).

(** [LibraryUser.objects.create] with the fields of [data] *)
Definition create_user (objects : list LibraryUser) (data : LibraryUser)
  : Exc (list LibraryUser) :=
  if refuses_user objects data then Raise DatabaseError
  else Ok (objects ++ [data]).

End Managers.

(* ===================================================================== *)
(** ** Import sessions *)
(* ===================================================================== *)

(** The dict every processor returns. *)
Record ImportOutcome : Type := mkOutcome {
  success : bool;
  created : nat;
  errors : list string
}.

(** What a call of a processor comes to: the dict it returns together with
    the persisted collection as committed, or an exception that leaves the
    [transaction.atomic()] block, which then rolls the collection back. *)
Inductive Result (T : Type) : Type :=
| Returned (outcome : ImportOutcome) (objects : list T)
| Propagated (e : Raised).

Arguments Returned {T} outcome objects.
Arguments Propagated {T} e.

(** The persisted collection after a call that started from [before]. *)
Definition persisted {T : Type} (before : list T) (r : Result T) : list T :=
  match r with
  | Returned _ after => after
  | Propagated _ => before
  end.

(** The variables of the row loop: the collection inside the transaction,
    [created_count] and [errors]. *)
Record Session (T : Type) : Type := mkSession {
  objects : list T;
  created_count : nat;
  errors_acc : list string
}.

Arguments mkSession {T} objects created_count errors_acc.
Arguments objects {T} s.
Arguments created_count {T} s.
Arguments errors_acc {T} s.

(** [errors.append(msg)] *)
Definition append_error {T : Type} (st : Session T) (msg : string) : Session T :=
  mkSession (objects st) (created_count st) (errors_acc st ++ [msg]).

(** The state after [objects.create] returned and [created_count += 1]. *)
Definition count_created {T : Type} (st : Session T) (after : list T) : Session T :=
  mkSession after (S (created_count st)) (errors_acc st).

Definition start {T : Type} (before : list T) : Session T :=
  mkSession before 0 [].

(** The dict built after the loop. *)
Definition outcome_of {T : Type} (st : Session T) : ImportOutcome :=
  mkOutcome (0 <? created_count st)%nat (created_count st) (errors_acc st).

Definition finish {T : Type} (r : Exc (Session T)) : Result T :=
  match r with
  | Ok st => Returned (outcome_of st) (objects st)
  | Raise e => Propagated e
  end.

(** An early [return] of a failure dict with one message. *)
Definition rejected {T : Type} (before : list T) (msg : string) : Result T :=
  Returned (mkOutcome false 0 [msg]) before.

(** [for idx, row in enumerate(rows, start=idx)], one iteration being
    [body idx row]; an exception that leaves an iteration leaves the loop. *)
Fixpoint for_each {Row T : Type}
    (body : nat -> Row -> Session T -> Exc (Session T))
    (idx : nat) (rows : list Row) (st : Session T) : Exc (Session T) :=
  match rows with
  | [] => Ok st
  | row :: rest =>
      st' <- body idx row st ;;
      for_each body (S idx) rest st'
  end.

(** [fields[i]] *)
Definition item (fields : list string) (i : nat) : Exc string :=
  match nth_error fields i with
  | Some x => Ok x
  | None => Raise (IndexError "list index out of range")
  end.

Definition newline : ascii := "010"%char.
Definition pipe : ascii := "|"%char.

Definition too_short : string :=
  "File must contain at least a header and one data row".

(** A cell of the frame that [pd.read_excel] builds.  An empty cell is the
    float NaN.  A finite float is given by what the processors can see of
    it: its [str], its [int] and its [bool]; any other object (a timestamp,
    a time of day) by the name of its type and its [str]. *)
Inductive Cell : Type :=
| NaN
| CStr (s : string)
| CInt (z : Z)
| CBool (b : bool)
| CFloat (shown : string) (whole : Z) (nonzero : bool)
| CObject (type_name : string) (shown : string).

(** The frame: its column labels and its rows as [df.iterrows()] gives
    them, each row holding the cells under the labels in order (a row that
    is shorter has empty cells at its end).

    - The labels are text, as they are when every header cell of the sheet
      is text; the frame of an empty sheet has no label.
    - A row is a Series of one dtype: its cells are the cells of the sheet
      cast to the dtype common to the columns (an integer is a float there
      when the other columns are numbers and one of them holds floats;
      nothing is cast when a column holds text, the dtype being [object]).
    - [row[name]] is one cell only when no other label is [name]; where two
      labels are equal once normalised it is a Series.  The frame does not
      model that: what is proved of the cells of a sheet is proved of
      frames whose normalised labels are distinct ([NoDup]). *)
Record DataFrame : Type := mkFrame {
  columns : list string;
  rows : list (list Cell)
}.

(** An upload, by what the two readers make of it:
    [file.read().decode('utf-8')], which is nothing when the bytes are not
    UTF-8, and [pd.read_excel(file)], which is the frame or the text of the
    exception the reader raised. *)
Record UploadedFile : Type := mkFile {
  decoded : option string;
  read_excel : string + DataFrame
}.

(** *** What the processors ask of a cell *)

Module Cells.

(** [pd.isna(x)] and [pd.notna(x)] *)
Definition isna (x : Cell) : bool :=
  match x with NaN => true | _ => false end.

Definition notna (x : Cell) : bool := negb (isna x).

(** [str(x)] *)
Definition str (x : Cell) : string :=
  match x with
  | NaN => "nan"
  | CStr s => s
  | CInt z => Py.str_of_Z z
  | CBool b => if b then "True" else "False"
  | CFloat shown _ _ => shown
  | CObject _ shown => shown
  end.

(** [int(x)] *)
Definition int (x : Cell) : Exc Z :=
  match x with
  | NaN => Raise (ValueError "cannot convert float NaN to integer")
  | CStr s => PyInt.of_str s
  | CInt z => Ok z
  | CBool b => Ok (if b then 1 else 0)%Z
  | CFloat _ whole _ => Ok whole
  | CObject type_name _ =>
      Raise (TypeError
               ("int() argument must be a string, a bytes-like object or a real number, not '"
                ++ type_name ++ "'"))
  end.

(** [bool(x)] *)
Definition truth (x : Cell) : bool :=
  match x with
  | NaN => true
  | CStr s => negb (String.eqb s "")
  | CInt z => negb (z =? 0)%Z
  | CBool b => b
  | CFloat _ _ nonzero => nonzero
  | CObject _ _ => true
  end.

(** [df.columns.str.lower().str.strip()] *)
Definition normalize (cols : list string) : list string :=
  map (fun c => Py.strip (Py.lower c)) cols.

(** The names of [set(expected) - set(df.columns)], here in the order of
    [expected]; the order in which the code meets them when it joins the
    set is [set_order] of these. *)
Definition missing (expected cols : list string) : list string :=
  filter (fun c => negb (Py.mem c cols)) expected.

(** [row[name]] where [name] labels at most one column: the cell under
    that column, [KeyError] when there is none.  A row shorter than the
    header has empty cells at its end.  (With [name] on two columns the
    code gets a Series, not the first of the two cells: the theorems that
    read cells take the labels to be distinct.) *)
Fixpoint get (cols : list string) (row : list Cell) (name : string) : Exc Cell :=
  match cols with
  | [] => Raise (KeyError (Py.repr name))
  | c :: cs =>
      if String.eqb c name then Ok (hd NaN row)
      else get cs (tl row) name
  end.


(** Whether no two of the labels are equal. *)
Fixpoint distinct (cols : list string) : bool :=
  match cols with
  | [] => true
  | c :: cs => negb (Py.mem c cs) && distinct cs
  end.

End Cells.

(* ===================================================================== *)
(** ** [BookFileProcessor] *)
(* ===================================================================== *)

Module BookFileProcessor.
Section WithBackend.
Context {backend : Backend}.

Definition expected_fields : list string :=
  ["title"; "author"; "isbn"; "publisher"; "publication_year"; "category";
   "quantity"].

Definition invalid_header : string :=
  "Invalid header. Expected: " ++ Py.join "|" expected_fields.

Definition already_exists (where_ : string) (x : string) : string :=
  where_ ++ ": Book with ISBN " ++ x ++ " already exists".

(** The [data] dict of a text row, its entries evaluated in order. *)
Definition txt_data (fields : list string) : Exc Book :=
  f0 <- item fields 0 ;;
  f1 <- item fields 1 ;;
  f2 <- item fields 2 ;;
  f3 <- item fields 3 ;;
  f4 <- item fields 4 ;;
  year <- (if String.eqb (Py.strip f4) "" then Ok None
           else y <- PyInt.of_str (Py.strip f4) ;; Ok (Some y)) ;;
  f5 <- item fields 5 ;;
  f6 <- item fields 6 ;;
  q <- PyInt.of_str (Py.strip f6) ;;
  q' <- PyInt.of_str (Py.strip f6) ;;
  Ok (mkBook (Py.strip f0) (Py.strip f1) (Py.strip f2) (Py.strip f3) year
             (Py.strip f5) q q').

(** The check and the insert that follow the [data] dict, in both formats. *)
Definition check_and_create (where_ : string) (data : Book)
    (st : Session Book) : Exc (Session Book) :=
  if isbn_exists (objects st) (isbn data) then
    Ok (append_error st (already_exists where_ (isbn data)))
  else
    after <- create_book (objects st) data ;;
    Ok (count_created st after).

(** The body of the [try] of a text row. *)
Definition txt_try (idx : nat) (line : string) (st : Session Book)
  : Exc (Session Book) :=
  let fields := Py.split pipe (Py.strip line) in
  if negb (List.length fields =? List.length expected_fields)%nat then
    Ok (append_error st
          ("Line " ++ Py.str_of_nat idx ++ ": Expected "
           ++ Py.str_of_nat (List.length expected_fields) ++ " fields, got "
           ++ Py.str_of_nat (List.length fields)))
  else
    data <- txt_data fields ;;
    check_and_create ("Line " ++ Py.str_of_nat idx) data st.

(** One iteration of the loop over the data lines. *)
Definition txt_row (idx : nat) (line : string) (st : Session Book)
  : Exc (Session Book) :=
  if String.eqb (Py.strip line) "" then Ok st
  else
    match txt_try idx line st with
    | Raise (ValueError msg) | Raise (IndexError msg) =>
        Ok (append_error st ("Line " ++ Py.str_of_nat idx ++ ": " ++ msg))
    | r => r
    end.

Definition process_txt_file (file : UploadedFile) (before : list Book)
  : Result Book :=
  match decoded file with
  | None => Propagated UnicodeDecodeError
  | Some content =>
      let lines := Py.split newline (Py.strip content) in
      if (List.length lines <? 2)%nat then rejected before too_short
      else
        let header := Py.split pipe (Py.strip (hd "" lines)) in
        if negb (Py.list_eqb header expected_fields) then
          rejected before invalid_header
        else finish (for_each txt_row 2 (tl lines) (start before))
  end.

Definition expected_columns : list string := expected_fields.

(** The [data] dict of a spreadsheet row.  A cell that the source reads
    twice ([row['publisher']] in the test and in the value) is looked up
    once: the lookup has no effect and gives the same cell. *)
Definition excel_data (cols : list string) (row : list Cell) : Exc Book :=
  t <- Cells.get cols row "title" ;;
  a <- Cells.get cols row "author" ;;
  i <- Cells.get cols row "isbn" ;;
  p <- Cells.get cols row "publisher" ;;
  y <- Cells.get cols row "publication_year" ;;
  year <- (if Cells.notna y then n <- Cells.int y ;; Ok (Some n)
           else Ok None) ;;
  c <- Cells.get cols row "category" ;;
  q <- Cells.get cols row "quantity" ;;
  n <- Cells.int q ;;
  n' <- Cells.int q ;;
  Ok (mkBook (Py.strip (Cells.str t)) (Py.strip (Cells.str a))
             (Py.strip (Cells.str i))
             (if Cells.notna p then Py.strip (Cells.str p) else "")
             year
             (if Cells.notna c then Py.strip (Cells.str c) else "")
             n n').

(** The body of the [try] of a spreadsheet row; a skipped row leaves the
    variables of the loop as they are. *)
Definition excel_try (cols : list string) (idx : nat) (row : list Cell)
    (st : Session Book) : Exc (Session Book) :=
  t <- Cells.get cols row "title" ;;
  skip <- (if Cells.isna t then Ok true
           else i <- Cells.get cols row "isbn" ;; Ok (Cells.isna i)) ;;
  if skip : bool then Ok st
  else
    data <- excel_data cols row ;;
    check_and_create ("Row " ++ Py.str_of_nat (idx + 2)) data st.

Definition excel_row (cols : list string) (idx : nat) (row : list Cell)
    (st : Session Book) : Exc (Session Book) :=
  match excel_try cols idx row st with
  | Raise (ValueError msg) | Raise (KeyError msg) =>
      Ok (append_error st ("Row " ++ Py.str_of_nat (idx + 2) ++ ": " ++ msg))
  | r => r
  end.

(** [df.columns.str] is outside every [try]: on a frame without labels,
    whose columns are a range of numbers, it raises [AttributeError]. *)
Definition process_excel_file (file : UploadedFile) (before : list Book)
  : Result Book :=
  match read_excel file with
  | inl e => rejected before ("Error reading Excel file: " ++ e)
  | inr df =>
      match columns df with
      | [] => Propagated AttributeError
      | _ =>
          let cols := Cells.normalize (columns df) in
          match Cells.missing expected_columns cols with
          | [] => finish (for_each (excel_row cols) 0 (rows df) (start before))
          | missing_columns =>
              rejected before
                ("Missing required columns: "
                 ++ Py.join ", " (set_order missing_columns))
          end
      end
  end.

Definition process_file (file : UploadedFile) (file_type : string)
    (before : list Book) : Result Book :=
  if String.eqb file_type "txt" then process_txt_file file before
  else if String.eqb file_type "excel" then process_excel_file file before
  else rejected before ("Unsupported file type: " ++ file_type).

End WithBackend.
End BookFileProcessor.

(* ===================================================================== *)
(** ** [UserFileProcessor] *)
(* ===================================================================== *)

Module UserFileProcessor.
Section WithBackend.
Context {backend : Backend}.

Definition expected_fields : list string :=
  ["full_name"; "email"; "phone"; "address"; "registration_number";
   "is_active"].

Definition invalid_header : string :=
  "Invalid header. Expected: " ++ Py.join "|" expected_fields.

Definition registration_taken (where_ : string) (x : string) : string :=
  where_ ++ ": User with registration " ++ x ++ " already exists".

Definition email_taken (where_ : string) (x : string) : string :=
  where_ ++ ": User with email " ++ x ++ " already exists".

(** The [data] dict of a text row. *)
Definition txt_data (fields : list string) : Exc LibraryUser :=
  f0 <- item fields 0 ;;
  f1 <- item fields 1 ;;
  f2 <- item fields 2 ;;
  f3 <- item fields 3 ;;
  f4 <- item fields 4 ;;
  f5 <- item fields 5 ;;
  Ok (mkLibraryUser (Py.strip f0) (Py.strip f1) (Py.strip f2) (Py.strip f3)
                    (Py.strip f4)
                    (Py.mem (Py.lower (Py.strip f5)) ["true"; "1"; "yes"])).

(** The two checks and the insert that follow the [data] dict. *)
Definition check_and_create (where_ : string) (data : LibraryUser)
    (st : Session LibraryUser) : Exc (Session LibraryUser) :=
  if registration_exists (objects st) (registration_number data) then
    Ok (append_error st (registration_taken where_ (registration_number data)))
  else if email_exists (objects st) (email data) then
    Ok (append_error st (email_taken where_ (email data)))
  else
    after <- create_user (objects st) data ;;
    Ok (count_created st after).

Definition txt_try (idx : nat) (line : string) (st : Session LibraryUser)
  : Exc (Session LibraryUser) :=
  let fields := Py.split pipe (Py.strip line) in
  if negb (List.length fields =? List.length expected_fields)%nat then
    Ok (append_error st
          ("Line " ++ Py.str_of_nat idx ++ ": Expected "
           ++ Py.str_of_nat (List.length expected_fields) ++ " fields, got "
           ++ Py.str_of_nat (List.length fields)))
  else
    data <- txt_data fields ;;
    check_and_create ("Line " ++ Py.str_of_nat idx) data st.

Definition txt_row (idx : nat) (line : string) (st : Session LibraryUser)
  : Exc (Session LibraryUser) :=
  if String.eqb (Py.strip line) "" then Ok st
  else
    match txt_try idx line st with
    | Raise (ValueError msg) | Raise (IndexError msg) =>
        Ok (append_error st ("Line " ++ Py.str_of_nat idx ++ ": " ++ msg))
    | r => r
    end.

Definition process_txt_file (file : UploadedFile) (before : list LibraryUser)
  : Result LibraryUser :=
  match decoded file with
  | None => Propagated UnicodeDecodeError
  | Some content =>
      let lines := Py.split newline (Py.strip content) in
      if (List.length lines <? 2)%nat then rejected before too_short
      else
        let header := Py.split pipe (Py.strip (hd "" lines)) in
        if negb (Py.list_eqb header expected_fields) then
          rejected before invalid_header
        else finish (for_each txt_row 2 (tl lines) (start before))
  end.

Definition expected_columns : list string := expected_fields.

(** The [data] dict of a spreadsheet row (each cell looked up once). *)
Definition excel_data (cols : list string) (row : list Cell)
  : Exc LibraryUser :=
  n <- Cells.get cols row "full_name" ;;
  e <- Cells.get cols row "email" ;;
  p <- Cells.get cols row "phone" ;;
  a <- Cells.get cols row "address" ;;
  r <- Cells.get cols row "registration_number" ;;
  act <- Cells.get cols row "is_active" ;;
  Ok (mkLibraryUser (Py.strip (Cells.str n)) (Py.strip (Cells.str e))
                    (if Cells.notna p then Py.strip (Cells.str p) else "")
                    (if Cells.notna a then Py.strip (Cells.str a) else "")
                    (Py.strip (Cells.str r))
                    (if Cells.notna act then Cells.truth act else true)).

Definition excel_try (cols : list string) (idx : nat) (row : list Cell)
    (st : Session LibraryUser) : Exc (Session LibraryUser) :=
  n <- Cells.get cols row "full_name" ;;
  skip <- (if Cells.isna n then Ok true
           else r <- Cells.get cols row "registration_number" ;;
                Ok (Cells.isna r)) ;;
  if skip : bool then Ok st
  else
    data <- excel_data cols row ;;
    check_and_create ("Row " ++ Py.str_of_nat (idx + 2)) data st.

Definition excel_row (cols : list string) (idx : nat) (row : list Cell)
    (st : Session LibraryUser) : Exc (Session LibraryUser) :=
  match excel_try cols idx row st with
  | Raise (ValueError msg) | Raise (KeyError msg) =>
      Ok (append_error st ("Row " ++ Py.str_of_nat (idx + 2) ++ ": " ++ msg))
  | r => r
  end.

(** As for books, [AttributeError] on a frame without labels. *)
Definition process_excel_file (file : UploadedFile)
    (before : list LibraryUser) : Result LibraryUser :=
  match read_excel file with
  | inl e => rejected before ("Error reading Excel file: " ++ e)
  | inr df =>
      match columns df with
      | [] => Propagated AttributeError
      | _ =>
          let cols := Cells.normalize (columns df) in
          match Cells.missing expected_columns cols with
          | [] => finish (for_each (excel_row cols) 0 (rows df) (start before))
          | missing_columns =>
              rejected before
                ("Missing required columns: "
                 ++ Py.join ", " (set_order missing_columns))
          end
      end
  end.

Definition process_file (file : UploadedFile) (file_type : string)
    (before : list LibraryUser) : Result LibraryUser :=
  if String.eqb file_type "txt" then process_txt_file file before
  else if String.eqb file_type "excel" then process_excel_file file before
  else rejected before ("Unsupported file type: " ++ file_type).

End WithBackend.
End UserFileProcessor.

(* ===================================================================== *)
(** ** A normal form for the row handlers *)
(* ===================================================================== *)

(** Every row handler first looks at the row alone, and only then at the
    collection: what the first part comes to is a [Decoded]. *)
Inductive Decoded (T : Type) : Type :=
| Skip                      (* [continue] with nothing recorded *)
| Bad (msg : string)        (* one message appended to [errors] *)
| Crash (e : Raised)        (* an exception the handler does not catch *)
| Data (r : T).             (* the [data] dict *)

Arguments Skip {T}.
Arguments Bad {T} msg.
Arguments Crash {T} e.
Arguments Data {T} r.

Section Shaped.
Context {Row T : Type}.
Variable decode : nat -> Row -> Decoded T.
Variable conflict : nat -> list T -> T -> option string.
Variable refuses : list T -> T -> bool.

Definition shaped (idx : nat) (row : Row) (st : Session T) : Exc (Session T) :=
  match decode idx row with
  | Skip => Ok st
  | Bad msg => Ok (append_error st msg)
  | Crash e => Raise e
  | Data r =>
      match conflict idx (objects st) r with
      | Some msg => Ok (append_error st msg)
      | None =>
          if refuses (objects st) r then Raise DatabaseError
          else Ok (count_created st (objects st ++ [r]))
      end
  end.
End Shaped.

(** What a caught exception of a [data] dict turns into. *)
Definition decoded_of {T : Type} (caught : Raised -> option string)
    (where_ : string) (r : Exc T) : Decoded T :=
  match r with
  | Ok d => Data d
  | Raise e =>
      match caught e with
      | Some msg => Bad (where_ ++ ": " ++ msg)
      | None => Crash e
      end
  end.

(** [except (ValueError, IndexError)] and [except (ValueError, KeyError)] *)
Definition caught_txt (e : Raised) : option string :=
  match e with
  | ValueError msg | IndexError msg => Some msg
  | _ => None
  end.

Definition caught_excel (e : Raised) : option string :=
  match e with
  | ValueError msg | KeyError msg => Some msg
  | _ => None
  end.

Definition line_no (idx : nat) : string := "Line " ++ Py.str_of_nat idx.
Definition row_no (idx : nat) : string := "Row " ++ Py.str_of_nat (idx + 2).

Definition field_count_error (idx expected got : nat) : string :=
  "Line " ++ Py.str_of_nat idx ++ ": Expected " ++ Py.str_of_nat expected
  ++ " fields, got " ++ Py.str_of_nat got.

(** The fields of a data line, and the cell of a row under a column (an
    empty cell where the frame has no such column). *)
Definition fields_of (line : string) : list string :=
  Py.split pipe (Py.strip line).

Definition field (line : string) (i : nat) : string :=
  Py.strip (nth i (fields_of line) "").

Definition cell (cols : list string) (row : list Cell) (name : string) : Cell :=
  match Cells.get cols row name with
  | Ok c => c
  | Raise _ => NaN
  end.

Definition is_blank (line : string) : bool := String.eqb (Py.strip line) "".

(** The lines of an upload as the text processors cut them, and the names
    on the first of them. *)
Definition lines_of (content : string) : list string :=
  Py.split newline (Py.strip content).

Definition header_of (content : string) : list string :=
  fields_of (hd "" (lines_of content)).

(** The dict a call returned, if it returned. *)
Definition returned {T : Type} (r : Result T) : option ImportOutcome :=
  match r with
  | Returned o _ => Some o
  | Propagated _ => None
  end.

Definition parses (s : string) : bool :=
  match PyInt.of_str s with Ok _ => true | Raise _ => false end.

Definition converts (c : Cell) : bool :=
  match Cells.int c with Ok _ => true | Raise _ => false end.

Module BookRows.

Definition txt_decode (idx : nat) (line : string) : Decoded Book :=
  if is_blank line then Skip
  else if negb (List.length (fields_of line)
                =? List.length BookFileProcessor.expected_fields)%nat
  then Bad (field_count_error idx (List.length BookFileProcessor.expected_fields)
                              (List.length (fields_of line)))
  else decoded_of caught_txt (line_no idx)
                  (BookFileProcessor.txt_data (fields_of line)).

Definition excel_decode (cols : list string) (idx : nat) (row : list Cell)
  : Decoded Book :=
  match Cells.get cols row "title" with
  | Raise e => decoded_of caught_excel (row_no idx) (Raise e)
  | Ok t =>
      if Cells.isna t then Skip
      else match Cells.get cols row "isbn" with
           | Raise e => decoded_of caught_excel (row_no idx) (Raise e)
           | Ok i =>
               if Cells.isna i then Skip
               else decoded_of caught_excel (row_no idx)
                               (BookFileProcessor.excel_data cols row)
           end
  end.

Definition conflict (where_ : nat -> string) (idx : nat)
    (objects : list Book) (data : Book) : option string :=
  if isbn_exists objects (isbn data)
  then Some (BookFileProcessor.already_exists (where_ idx) (isbn data))
  else None.

(** *** The words of the specification *)

(** A candidate row of a text file is a line that is not blank; it passes
    decoding when it has the expected number of fields, and coercion when
    its year is blank or an integer and its quantity is an integer. *)
Definition txt_candidate (line : string) : bool := negb (is_blank line).

Definition txt_decodes (line : string) : bool :=
  (List.length (fields_of line) =? 7)%nat.

Definition txt_coerces (line : string) : bool :=
  (String.eqb (field line 4) "" || parses (field line 4))
  && parses (field line 6).

Definition txt_key (line : string) : string := field line 2.

(** Two books collide on the ISBN. *)
Definition clash (k k' : string) : bool := String.eqb k' k.

(** A candidate row of a sheet has a title and an ISBN. *)
Definition excel_candidate (cols : list string) (row : list Cell) : bool :=
  Cells.notna (cell cols row "title") && Cells.notna (cell cols row "isbn").

Definition excel_coerces (cols : list string) (row : list Cell) : bool :=
  (Cells.isna (cell cols row "publication_year")
   || converts (cell cols row "publication_year"))
  && converts (cell cols row "quantity").

Definition excel_key (cols : list string) (row : list Cell) : string :=
  Py.strip (Cells.str (cell cols row "isbn")).

End BookRows.

Module UserRows.

Definition txt_decode (idx : nat) (line : string) : Decoded LibraryUser :=
  if is_blank line then Skip
  else if negb (List.length (fields_of line)
                =? List.length UserFileProcessor.expected_fields)%nat
  then Bad (field_count_error idx (List.length UserFileProcessor.expected_fields)
                              (List.length (fields_of line)))
  else decoded_of caught_txt (line_no idx)
                  (UserFileProcessor.txt_data (fields_of line)).

Definition excel_decode (cols : list string) (idx : nat) (row : list Cell)
  : Decoded LibraryUser :=
  match Cells.get cols row "full_name" with
  | Raise e => decoded_of caught_excel (row_no idx) (Raise e)
  | Ok n =>
      if Cells.isna n then Skip
      else match Cells.get cols row "registration_number" with
           | Raise e => decoded_of caught_excel (row_no idx) (Raise e)
           | Ok r =>
               if Cells.isna r then Skip
               else decoded_of caught_excel (row_no idx)
                               (UserFileProcessor.excel_data cols row)
           end
  end.

Definition conflict (where_ : nat -> string) (idx : nat)
    (objects : list LibraryUser) (data : LibraryUser) : option string :=
  if registration_exists objects (registration_number data)
  then Some (UserFileProcessor.registration_taken (where_ idx)
               (registration_number data))
  else if email_exists objects (email data)
  then Some (UserFileProcessor.email_taken (where_ idx) (email data))
  else None.

(** *** The words of the specification *)

Definition txt_candidate (line : string) : bool := negb (is_blank line).

Definition txt_decodes (line : string) : bool :=
  (List.length (fields_of line) =? 6)%nat.

(** The natural key of a user: registration number and e-mail. *)
Definition txt_key (line : string) : string * string :=
  (field line 4, field line 1).

Definition excel_candidate (cols : list string) (row : list Cell) : bool :=
  Cells.notna (cell cols row "full_name")
  && Cells.notna (cell cols row "registration_number").

Definition excel_key (cols : list string) (row : list Cell) : string * string :=
  (Py.strip (Cells.str (cell cols row "registration_number")),
   Py.strip (Cells.str (cell cols row "email"))).

Definition key_of (u : LibraryUser) : string * string :=
  (registration_number u, email u).

(** Two users collide on the registration number or on the e-mail. *)
Definition clash (k k' : string * string) : bool :=
  String.eqb (fst k') (fst k) || String.eqb (snd k') (snd k).

End UserRows.

(** *** Counting rows as the specification does *)

Section Tally.
Context {Row K : Type}.
Variable candidate : Row -> bool.   (* neither blank nor skipped *)
Variable sound : Row -> bool.       (* passes decoding and coercion *)
Variable key : Row -> K.            (* its natural key *)
Variable clash : K -> K -> bool.    (* a uniqueness conflict of two keys *)

(** A candidate row passes when it is sound and its key clashes with no
    key persisted so far. *)
Definition passes (seen : list K) (row : Row) : bool :=
  sound row && negb (existsb (clash (key row)) seen).

(** The candidate rows that pass and those that fail, [seen] being the
    keys of the persisted records when the first row is read. *)
Fixpoint tally (seen : list K) (rows : list Row) : nat * nat :=
  match rows with
  | [] => (0, 0)
  | row :: rest =>
      if candidate row then
        if passes seen row then
          let '(p, f) := tally (seen ++ [key row]) rest in (S p, f)
        else
          let '(p, f) := tally seen rest in (p, S f)
      else tally seen rest
  end.
End Tally.

(** *** The lines of an upload *)

(** White space only. *)
Fixpoint all_space (s : string) : bool :=
  match s with
  | EmptyString => true
  | String c s' => Py.is_space c && all_space s'
  end.

(** Lines without the blank lines at their end, the last line that is left
    stripped at its right end: what stripping the right end of a text does
    to its lines. *)
Fixpoint trim_end (ls : list string) : list string :=
  match ls with
  | [] => []
  | l :: rest =>
      match trim_end rest with
      | [] => if is_blank l then [] else [Py.rstrip l]
      | r => l :: r
      end
  end.

(** The two counts for the four kinds of upload, the keys seen at the start
    being those of the collection [before] the import. *)
Definition book_txt_tally (before : list Book) (data : list string) : nat * nat :=
  tally BookRows.txt_candidate
        (fun line => BookRows.txt_decodes line && BookRows.txt_coerces line)
        BookRows.txt_key BookRows.clash (map isbn before) data.




(** [row] was committed by an earlier iteration of the same loop, which has
    since run over the rows [between] and reached [now]. *)
Definition committed_earlier {Row T : Type}
    (body : nat -> Row -> Session T -> Exc (Session T))
    (row : Row) (between : list Row) (now : Session T) : Prop :=
  exists idx s1 s2 idx',
    body idx row s1 = Ok s2
    /\ created_count s2 = S (created_count s1)
    /\ for_each body idx' between s2 = Ok now.

(** *** Sequences of calls on one book *)

Inductive Call : Type := ReserveCopy | ReturnCopy.

Definition call (c : Call) (b : Book) : bool * Book :=
  match c with
  | ReserveCopy => reserve_copy b
  | ReturnCopy => return_copy b
  end.

Fixpoint calls (cs : list Call) (b : Book) : Book :=
  match cs with
  | [] => b
  | c :: rest => calls rest (snd (call c b))
  end.

Definition in_range (b : Book) : Prop :=
  (0 <= available_quantity b <= quantity b)%Z.

(* ===================================================================== *)
(** ** Loans ([loans/models.py]) *)
(* ===================================================================== *)

Module Loans.

(** [Loan.LoanStatus] *)
Inductive LoanStatus : Type := ACTIVE | RETURNED | OVERDUE | RENEWED.

Definition is_returned (s : LoanStatus) : bool :=
  match s with RETURNED => true | _ => false end.

Definition is_active_status (s : LoanStatus) : bool :=
  match s with ACTIVE => true | _ => false end.

(** A loan whose date fields hold dates, as they do in a row read back
    from the table and in an instance made from dates.  A date is the
    ordinal of its day; [book] and [user] are references to other rows and
    are not part of the record: the one method that follows [self.book] is
    given the row it leads to.

    An instance made without [loan_date] is not such a loan until it is
    read back: the default [timezone.now] leaves a datetime in the field,
    [save] derives a datetime [due_date] from it, and comparing that with
    a date raises [TypeError] in [is_overdue] and [days_overdue]. *)
Record Loan : Type := mkLoan {
  loan_date : Z;
  due_date : option Z;
  return_date : option Z;
  status : LoanStatus;
  notes : string
}.

(** What a method comes to: its result, or one of the two exceptions that
    date arithmetic can raise, [OverflowError] when a date leaves the
    calendar and [TypeError] when a date is compared with [None]. *)
Inductive Try (A : Type) : Type :=
| Fine (a : A)
| DateOverflow
| NoDueDate.

Arguments Fine {A} a.
Arguments DateOverflow {A}.
Arguments NoDueDate {A}.

(** [date.max.toordinal()], the ordinal of 9999-12-31 *)
Definition max_ordinal : Z := 3652059.

(** [d + timedelta(days=n)] *)
Definition plus_days (d n : Z) : Try Z :=
  if ((1 <=? d + n) && (d + n <=? max_ordinal))%Z then Fine (d + n)%Z
  else DateOverflow.

(** [Loan.save] (the write of the row is taken to succeed) *)
Definition save (self : Loan) : Try Loan :=
  match due_date self with
  | Some _ => Fine self
  | None =>
      match plus_days (loan_date self) 14 with
      | Fine d =>
          Fine (mkLoan (loan_date self) (Some d) (return_date self)
                       (status self) (notes self))
      | DateOverflow => DateOverflow
      | NoDueDate => NoDueDate
      end
  end.

(** [Loan.is_overdue], [today] being [timezone.now().date()] *)
Definition is_overdue (today : Z) (self : Loan) : Try bool :=
  if is_returned (status self) then Fine false
  else match due_date self with
       | Some due => Fine (due <? today)%Z
       | None => NoDueDate
       end.

(** [Loan.days_overdue]: the clock is read once in [is_overdue] and once
    more for the difference. *)
Definition days_overdue (today later : Z) (self : Loan) : Try Z :=
  match is_overdue today self with
  | Fine false => Fine 0%Z
  | Fine true =>
      match due_date self with
      | Some due => Fine (later - due)%Z
      | None => NoDueDate
      end
  | DateOverflow => DateOverflow
  | NoDueDate => NoDueDate
  end.

(** [Loan.mark_as_returned]: the loan as saved and the book row of
    [self.book] after [return_copy]. *)
Definition mark_as_returned (today : Z) (self : Loan) (book : Book)
  : Try (Loan * Book) :=
  match save (mkLoan (loan_date self) (due_date self) (Some today) RETURNED
                     (notes self)) with
  | Fine saved => Fine (saved, snd (return_copy book))
  | DateOverflow => DateOverflow
  | NoDueDate => NoDueDate
  end.

(** *** [LoanSerializer] ([loans/serializers.py]) *)

(** [Book.is_available] and [LibraryUser.can_borrow] *)
Definition is_available (self : Book) : bool := (0 <? available_quantity self)%Z.

Definition can_borrow (self : LibraryUser) : bool := is_active self.

(** [LoanSerializer.validate]: the [ValidationError] it raises, as the
    field and the message, or nothing when it returns [data].  [instance]
    is the loan being updated, [book] and [user] are [data.get('book')] and
    [data.get('user')]. *)
Definition validate (instance : option Loan) (book : option Book)
    (user : option LibraryUser) : option (string * string) :=
  match book, instance with
  | Some b, None =>
      if negb (is_available b)
      then Some ("book", "This book is not available for loan")
      else match user with
           | Some u =>
               if negb (can_borrow u)
               then Some ("user", "This user is not active and cannot borrow books")
               else None
           | None => None
           end
  | _, _ =>
      match user with
      | Some u =>
          if negb (can_borrow u)
          then Some ("user", "This user is not active and cannot borrow books")
          else None
      | None => None
      end
  end.

(** The entries of [validated_data] other than [book] and [user].  The
    serializer requires [due_date], the model field having no default; an
    entry that is absent takes the default of its model field. *)
Record LoanFields : Type := mkLoanFields {
  given_loan_date : option Z;
  given_due_date : Z;
  given_return_date : option Z;
  given_status : option LoanStatus;
  given_notes : option string
}.

(** [Loan.objects.create] with the entries of [validated_data]: the row it
    inserts, [today] being the date that the default of [loan_date] leaves
    in the row. *)
Definition objects_create (today : Z) (fields : LoanFields) : Try Loan :=
  save (mkLoan (match given_loan_date fields with Some d => d | None => today end)
               (Some (given_due_date fields))
               (given_return_date fields)
               (match given_status fields with Some s => s | None => ACTIVE end)
               (match given_notes fields with Some n => n | None => "" end)).

(** [LoanSerializer.create]: the loan as inserted, and the row of
    [validated_data['book']] after [reserve_copy]. *)
Definition create (today : Z) (book : Book) (fields : LoanFields)
  : Try (Loan * Book) :=
  match objects_create today fields with
  | Fine loan => Fine (loan, snd (reserve_copy book))
  | DateOverflow => DateOverflow
  | NoDueDate => NoDueDate
  end.

(** *** [LoanViewSet.return_loan] ([loans/views.py]) *)

Record Response : Type := mkResponse {
  status_code : nat;
  message : string
}.

(** What the view comes to for the client: a response, or the
    [AssertionError] that leaves it. *)
Inductive Reply : Type :=
| Answers (response : Response)
| AssertionError.

(** [return_loan], given the loan that [get_object] found and its book:
    what it comes to, and the loan and the book as it leaves them.

    Past the guard the view calls [mark_as_returned] and then builds its
    200 answer from [LoanDetailSerializer(loan).data].  That serializer
    declares [book_id], [user_id], [is_overdue] and [days_overdue], none of
    which is in the [Meta.fields] it inherits, and [rest_framework] refuses
    this with an [AssertionError] when the fields are built: the 200 answer
    is never made.  The view opens no transaction, so what
    [mark_as_returned] has saved stays saved. *)
Definition return_loan (today : Z) (loan : Loan) (book : Book)
  : Try (Reply * Loan * Book) :=
  if is_returned (status loan) then
    Fine (Answers (mkResponse 400 "This loan has already been returned"),
          loan, book)
  else
    match mark_as_returned today loan book with
    | Fine (loan', book') => Fine (AssertionError, loan', book')
    | DateOverflow => DateOverflow
    | NoDueDate => NoDueDate
    end.

(** *** [LoanRepository] ([loans/repositories/loan_repository.py]) *)

(** [get_active_loans] *)
Definition get_active_loans (objects : list Loan) : list Loan :=
  filter (fun l => is_active_status (status l)) objects.

(** [get_overdue_loans]: a row without due date does not pass [due_date__lt]. *)
Definition get_overdue_loans (today : Z) (objects : list Loan) : list Loan :=
  filter (fun l => is_active_status (status l)
                   && match due_date l with
                      | Some due => (due <? today)%Z
                      | None => false
                      end)
         objects.

(** *** One book and its loans *)

(** The row [i] of a collection replaced. *)
Fixpoint replace_row {A : Type} (i : nat) (x : A) (rows : list A) : list A :=
  match rows, i with
  | [], _ => []
  | _ :: rest, 0 => x :: rest
  | r :: rest, S i' => r :: replace_row i' x rest
  end.

(** The loans that hold a copy: those not returned. *)
Definition open_loans (loans : list Loan) : Z :=
  Z.of_nat (List.length (filter (fun l => negb (is_returned (status l))) loans)).

(** What the two endpoints that move copies do to a book row and the loans
    of that book: a loan is created through the serializer ([validate], then
    [create]) with a status other than returned, or a loan is handed to
    [return_loan], which leaves the loan and the book as saved whether it
    answers or raises. *)
Inductive step : Book * list Loan -> Book * list Loan -> Prop :=
| step_create today user fields book loans loan book' :
    validate None (Some book) (Some user) = None ->
    given_status fields <> Some RETURNED ->
    create today book fields = Fine (loan, book') ->
    step (book, loans) (book', loans ++ [loan])
| step_return today pk loan book loans reply loan' book' :
    nth_error loans pk = Some loan ->
    return_loan today loan book = Fine (reply, loan', book') ->
    step (book, loans) (book', replace_row pk loan' loans).

Inductive steps : Book * list Loan -> Book * list Loan -> Prop :=
| steps_none s : steps s s
| steps_more s1 s2 s3 : steps s1 s2 -> step s2 s3 -> steps s1 s3.

(** Every copy is on the shelf or out on an open loan. *)
Definition accounted (s : Book * list Loan) : Prop :=
  (0 <= available_quantity (fst s))%Z
  /\ (available_quantity (fst s) + open_loans (snd s) = quantity (fst s))%Z.

End Loans.

(* ===================================================================== *)
(** ** Repositories, the book serializer and the upload views *)
(* ===================================================================== *)

(** What [objects.get(...)] comes to: the one row that matches, or one of
    its two exceptions. *)
Inductive Got (A : Type) : Type :=
| TheRow (a : A)
| DoesNotExist
| MultipleObjectsReturned.

Arguments TheRow {A} a.
Arguments DoesNotExist {A}.
Arguments MultipleObjectsReturned {A}.

Definition objects_get {A : Type} (matches : A -> bool) (objects : list A) : Got A :=
  match filter matches objects with
  | [] => DoesNotExist
  | [a] => TheRow a
  | _ => MultipleObjectsReturned
  end.

(** What a [get_by_...] of a repository comes to: [None] or the row, or the
    exception that it does not catch. *)
Inductive Fetched (A : Type) : Type :=
| Gave (r : option A)
| Ambiguous.

Arguments Gave {A} r.
Arguments Ambiguous {A}.

Definition or_none {A : Type} (g : Got A) : Fetched A :=
  match g with
  | TheRow a => Gave (Some a)
  | DoesNotExist => Gave None
  | MultipleObjectsReturned => Ambiguous
  end.

Module BookRepository.

(** [get_by_isbn] *)
Definition get_by_isbn (objects : list Book) (x : string) : Fetched Book :=
  or_none (objects_get (fun b => String.eqb (isbn b) x) objects).

(** [get_available_books] *)
Definition get_available_books (objects : list Book) : list Book :=
  filter (fun b => (0 <? available_quantity b)%Z) objects.

End BookRepository.

Module UserRepository.

(** [get_by_registration_number] *)
Definition get_by_registration_number (objects : list LibraryUser) (x : string)
  : Fetched LibraryUser :=
  or_none (objects_get (fun u => String.eqb (registration_number u) x) objects).

(** [get_by_email] *)
Definition get_by_email (objects : list LibraryUser) (x : string)
  : Fetched LibraryUser :=
  or_none (objects_get (fun u => String.eqb (email u) x) objects).

(** [get_active_users] *)
Definition get_active_users (objects : list LibraryUser) : list LibraryUser :=
  filter is_active objects.

End UserRepository.

Module BookSerializer.

(** The truth value of an integer that may be absent *)
Definition truthy (x : option Z) : bool :=
  match x with
  | Some z => negb (z =? 0)%Z
  | None => false
  end.

(** [data.get(key, getattr(self.instance, key, None))] *)
Definition entry (given : option Z) (instance : option Book) (attr : Book -> Z)
  : option Z :=
  match given with
  | Some z => Some z
  | None => option_map attr instance
  end.

(** [BookSerializer.validate]: whether it raises its [ValidationError],
    [given_quantity] and [given_available] being the two entries of [data]. *)
Definition validate (instance : option Book)
    (given_quantity given_available : option Z) : bool :=
  let quantity_ := entry given_quantity instance quantity in
  let available := entry given_available instance available_quantity in
  truthy available && truthy quantity_
  && match available, quantity_ with
     | Some a, Some q => (q <? a)%Z
     | _, _ => false
     end.

End BookSerializer.

(** The response of a bulk upload. *)
Record UploadResponse : Type := mkUploadResponse {
  http_status : nat;
  upload_message : string;
  upload_created : nat;
  upload_errors : list string
}.

(** The two branches that end [bulk_upload], [noun] being 'books' or
    'users'. *)
Definition upload_response (noun : string) (result : ImportOutcome)
  : UploadResponse :=
  if success result then
    mkUploadResponse 201
      ("Successfully imported " ++ Py.str_of_nat (created result) ++ " " ++ noun)
      (created result) (errors result)
  else
    mkUploadResponse 400 ("Failed to import " ++ noun)
      (created result) (errors result).

(** What a view comes to: its response and the persisted collection, or an
    exception that it lets through. *)
Inductive Served (T : Type) : Type :=
| Responded (response : UploadResponse) (objects : list T)
| Unhandled (e : Raised).

Arguments Responded {T} response objects.
Arguments Unhandled {T} e.

Definition serve {T : Type} (noun : string) (r : Result T) : Served T :=
  match r with
  | Returned result after => Responded (upload_response noun result) after
  | Propagated e => Unhandled e
  end.

Section Views.
Context {backend : Backend}.

(** [BookViewSet.bulk_upload], from the validated [file] and [file_type] on *)
Definition book_bulk_upload (file : UploadedFile) (file_type : string)
    (before : list Book) : Served Book :=
  serve "books" (BookFileProcessor.process_file file file_type before).

(** [LibraryUserViewSet.bulk_upload], from the validated data on *)
Definition user_bulk_upload (file : UploadedFile) (file_type : string)
    (before : list LibraryUser) : Served LibraryUser :=
  serve "users" (UserFileProcessor.process_file file file_type before).

End Views.

(** *** Changes to an upload *)

(** The text with every line feed preceded by a carriage return. *)
Fixpoint crlf (s : string) : string :=
  match s with
  | EmptyString => EmptyString
  | String c s' =>
      if Ascii.eqb c newline then String "013" (String newline (crlf s'))
      else String c (crlf s')
  end.






(** A frame with every label changed by [f]: the frame of the sheet whose
    header cells are changed by [f], when the changed labels are distinct
    and none is empty ([read_excel] renames a label that is repeated, and
    names an empty header cell itself). *)
Definition relabel (f : string -> string) (df : DataFrame) : DataFrame :=
  mkFrame (map f (columns df)) (rows df).

(** Lines with a carriage return at the end of each but the last: the
    lines of a text whose line ends are CR LF. *)
Fixpoint add_cr (ls : list string) : list string :=
  match ls with
  | [] => []
  | [l] => [l]
  | l :: rest => (l ++ String "013" EmptyString)%string :: add_cr rest
  end.

(** The same upload with another frame read from it. *)
Definition with_frame (file : UploadedFile) (df : DataFrame) : UploadedFile :=
  mkFile (decoded file) (inr df).

(** The same upload with another text decoded from it. *)
Definition with_text (file : UploadedFile) (content : string) : UploadedFile :=
  mkFile (Some content) (read_excel file).

(* ===================================================================== *)
(** ** Uploads and records used in the examples *)
(* ===================================================================== *)

(** A backend with the checks of a schema made from the two models: the
    positive-integer columns are not negative and the [unique] columns stay
    unique. *)
Definition schema_backend : Backend := {|
  refuses_book objects b :=
    (quantity b <? 0)%Z || (available_quantity b <? 0)%Z
    || match publication_year b with Some y => (y <? 0)%Z | None => false end
    || isbn_exists objects (isbn b);
  refuses_user objects u :=
    registration_exists objects (registration_number u)
    || email_exists objects (email u);
  set_order names := names;
  set_order_permutes names := Permutation_refl names
|}.

Definition nl : string := String newline EmptyString.

Definition txt (content : string) : UploadedFile :=
  mkFile (Some content) (inl "File is not a zip file").

Definition sheet (df : DataFrame) : UploadedFile :=
  mkFile None (inr df).

Definition book_header : string :=
  "title|author|isbn|publisher|publication_year|category|quantity".

Definition clean_code : Book :=
  mkBook "Clean Code" "Robert C. Martin" "978-0132350884" "Prentice Hall"
         (Some 2008%Z) "Software Engineering" 5 5.

Definition clean_code_line : string :=
  "Clean Code|Robert Martin|9780132350884|Prentice Hall|2008|Software Engineering|5".

Definition clean_coder_line : string :=
  "Clean Coder|Robert Martin|9780132350884|Prentice Hall|2011|Software Engineering|2".

(** A text upload: a good row, a row with the same ISBN, a short row. *)
Definition mixed_content : string :=
  book_header ++ nl ++ clean_code_line ++ nl ++ clean_coder_line ++ nl
  ++ "Refactoring|Martin Fowler".

Definition mixed_books : UploadedFile := txt mixed_content.

Definition mixed_books_outcome : ImportOutcome :=
  mkOutcome true 1
    ["Line 3: Book with ISBN 9780132350884 already exists";
     "Line 4: Expected 7 fields, got 2"].

Definition on_the_shelf : Book :=
  mkBook "Clean Code" "Robert Martin" "9780132350884" "Prentice Hall"
         (Some 2008%Z) "Software Engineering" 5 5.

Definition wrong_header : string :=
  "wrong|header|format" ++ nl ++ "Clean Code|Robert Martin|9780132350884".

Definition book_sheet_columns : list string :=
  Cells.normalize [" Title"; "AUTHOR"; "isbn"; "Publisher"; "publication_year";
                   "category"; "QUANTITY"; "shelf"].


Definition joao : LibraryUser :=
  mkLibraryUser "Joao Silva" "joao@test.com" "11999999999" "Rua A, 123"
                "REG001" true.


(** The messages of the uniqueness check. *)
Definition book_exists_message (where_ : nat -> string) (msg : string) : Prop :=
  exists n x, msg = (where_ n ++ ": Book with ISBN " ++ x ++ " already exists")%string.

Definition user_exists_message (where_ : nat -> string) (msg : string) : Prop :=
  exists n x,
    msg = (where_ n ++ ": User with registration " ++ x ++ " already exists")%string
    \/ msg = (where_ n ++ ": User with email " ++ x ++ " already exists")%string.

Definition refactoring_line : string :=
  "Refactoring|Martin Fowler|9780201485677|Addison-Wesley|1999|Software Engineering|3".

Definition two_books : UploadedFile :=
  txt (book_header ++ nl ++ clean_code_line ++ nl ++ nl ++ refactoring_line ++ nl).

Definition refactoring : Book :=
  mkBook "Refactoring" "Martin Fowler" "9780201485677" "Addison-Wesley"
         (Some 1999%Z) "Software Engineering" 3 3.

Definition clean_coder_bad_line : string :=
  "Clean Coder|Robert Martin|9780132350884|Prentice Hall|2011|Software Engineering|two".

Definition anonymous_row : list Cell :=
  [CStr "Clean Code"; NaN; CStr "9780132350884"; NaN;
   CFloat "2008.0" 2008 true; NaN; CInt 5; CStr "A3"].

Definition two_without_email : DataFrame :=
  mkFrame ["full_name"; "email"; "phone"; "address"; "registration_number";
           "is_active"]
          [[CStr "Ana Lima"; NaN; NaN; NaN; CStr "REG001"; NaN];
           [CStr "Bia Reis"; NaN; NaN; NaN; CStr "REG002"; NaN]].

(** A loan of 10 January 2025 as it is made and as it is saved, the same
    loan renewed, and returned on the 19th. *)
Definition lent_in_january : Loans.Loan :=
  Loans.mkLoan 739261%Z None None Loans.ACTIVE "".

Definition due_in_january : Loans.Loan :=
  Loans.mkLoan 739261%Z (Some 739275%Z) None Loans.ACTIVE "".

Definition renewed_in_january : Loans.Loan :=
  Loans.mkLoan 739261%Z (Some 739275%Z) None Loans.RENEWED "".

Definition returned_in_january : Loans.Loan :=
  Loans.mkLoan 739261%Z (Some 739275%Z) (Some 739270%Z) Loans.RETURNED "".

Definition for_two_weeks : Loans.LoanFields :=
  Loans.mkLoanFields (Some 739261%Z) 739275%Z None None None.

(** A book with its last copy on the shelf, and with none. *)
Definition last_copy : Book :=
  mkBook "Clean Code" "Robert Martin" "9780132350884" "Prentice Hall"
         (Some 2008%Z) "Software Engineering" 5 1.

Definition all_lent : Book :=
  mkBook "Clean Code" "Robert Martin" "9780132350884" "Prentice Hall"
         (Some 2008%Z) "Software Engineering" 5 0.

Definition one_lent : Book :=
  mkBook "Refactoring" "Martin Fowler" "9780201485677" "Addison-Wesley"
         (Some 1999%Z) "Software Engineering" 3 2.

(** A user whose [is_active] is the word no, as a text row and as a row of
    a sheet. *)
Definition ana_fields : list string :=
  ["Ana Lima"; "ana@test.com"; ""; ""; "REG001"; "no"].

Definition ana_row : list Cell :=
  [CStr "Ana Lima"; CStr "ana@test.com"; NaN; NaN; CStr "REG001"; CStr "no"].

Definition two_books_content : string :=
  book_header ++ nl ++ clean_code_line ++ nl ++ nl ++ refactoring_line ++ nl.

(** A text upload that begins with two blank lines: the header is its
    third line, and the processor's line 1. *)
Definition late_header_content : string :=
  nl ++ "  " ++ nl ++ book_header ++ nl ++ clean_code_line ++ nl
  ++ "Refactoring|Martin Fowler" ++ nl.

(* ===================================================================== *)
(** * Properties *)
(* ===================================================================== *)

(** ** The row loop *)

(** The two cases of a frame: without labels, and with some. *)
Ltac frame_labels df :=
  let E := fresh "Elabels" in
  let c := fresh "label" in
  let cs := fresh "labels" in
  destruct (columns df) as [|c cs] eqn:E; [|cbv iota; rewrite <- ?E in *].

Lemma distinct_NoDup cols : Cells.distinct cols = true -> NoDup cols.
Proof.
  induction cols as [|c cs IH]; cbn [Cells.distinct]; [constructor|].
  intros H. apply andb_true_iff in H. destruct H as [Hc Hcs].
  constructor; [|auto].
  intros Hin. unfold Py.mem in Hc.
  assert (existsb (String.eqb c) cs = true) as E
    by (apply existsb_exists; exists c; split; [assumption|apply String.eqb_refl]).
  rewrite E in Hc. discriminate.
Qed.

Lemma for_each_ext {Row T : Type}
    (f g : nat -> Row -> Session T -> Exc (Session T)) :
  (forall idx row st, f idx row st = g idx row st) ->
  forall rows idx st, for_each f idx rows st = for_each g idx rows st.
Proof.
  intros Hfg rows; induction rows as [|row rest IH]; intros idx st; simpl.
  - reflexivity.
  - rewrite Hfg. destruct (g idx row st); simpl; auto.
Qed.

Lemma for_each_app {Row T : Type}
    (body : nat -> Row -> Session T -> Exc (Session T)) :
  forall pre post idx st,
    for_each body idx (pre ++ post) st =
    (st1 <- for_each body idx pre st ;;
     for_each body (idx + List.length pre) post st1).
Proof.
  induction pre as [|row pre IH]; intros post idx st; simpl.
  - now rewrite Nat.add_0_r.
  - destruct (body idx row st) as [st1|e]; simpl; [|reflexivity].
    rewrite IH. now rewrite Nat.add_succ_comm.
Qed.

(** ** The handlers in normal form *)

Section Shapes.
Context {backend : Backend}.

Lemma book_check_shaped where_ idx data st :
  BookFileProcessor.check_and_create (where_ idx) data st =
  match BookRows.conflict where_ idx (objects st) data with
  | Some msg => Ok (append_error st msg)
  | None =>
      if refuses_book (objects st) data then Raise DatabaseError
      else Ok (count_created st (objects st ++ [data]))
  end.
Proof.
  unfold BookFileProcessor.check_and_create, BookRows.conflict, create_book.
  destruct (isbn_exists _ _); [reflexivity|].
  destruct (refuses_book _ _); reflexivity.
Qed.

Lemma user_check_shaped where_ idx data st :
  UserFileProcessor.check_and_create (where_ idx) data st =
  match UserRows.conflict where_ idx (objects st) data with
  | Some msg => Ok (append_error st msg)
  | None =>
      if refuses_user (objects st) data then Raise DatabaseError
      else Ok (count_created st (objects st ++ [data]))
  end.
Proof.
  unfold UserFileProcessor.check_and_create, UserRows.conflict, create_user.
  destruct (registration_exists _ _); [reflexivity|].
  destruct (email_exists _ _); [reflexivity|].
  destruct (refuses_user _ _); reflexivity.
Qed.

Lemma book_txt_row_shaped idx line st :
  BookFileProcessor.txt_row idx line st =
  shaped BookRows.txt_decode (BookRows.conflict line_no) refuses_book
         idx line st.
Proof.
  unfold BookFileProcessor.txt_row, BookFileProcessor.txt_try, shaped,
    BookRows.txt_decode, is_blank, fields_of.
  destruct (String.eqb (Py.strip line) ""); [reflexivity|].
  destruct (negb _); [reflexivity|].
  fold (line_no idx).
  destruct (BookFileProcessor.txt_data _) as [d|e]; cbn [bind decoded_of].
  - rewrite book_check_shaped.
    destruct (BookRows.conflict _ _ _ _); [reflexivity|].
    destruct (refuses_book _ _); reflexivity.
  - destruct e; reflexivity.
Qed.

Lemma user_txt_row_shaped idx line st :
  UserFileProcessor.txt_row idx line st =
  shaped UserRows.txt_decode (UserRows.conflict line_no) refuses_user
         idx line st.
Proof.
  unfold UserFileProcessor.txt_row, UserFileProcessor.txt_try, shaped,
    UserRows.txt_decode, is_blank, fields_of.
  destruct (String.eqb (Py.strip line) ""); [reflexivity|].
  destruct (negb _); [reflexivity|].
  fold (line_no idx).
  destruct (UserFileProcessor.txt_data _) as [d|e]; cbn [bind decoded_of].
  - rewrite user_check_shaped.
    destruct (UserRows.conflict _ _ _ _); [reflexivity|].
    destruct (refuses_user _ _); reflexivity.
  - destruct e; reflexivity.
Qed.

Lemma book_excel_row_shaped cols idx row st :
  BookFileProcessor.excel_row cols idx row st =
  shaped (BookRows.excel_decode cols) (BookRows.conflict row_no) refuses_book
         idx row st.
Proof.
  unfold BookFileProcessor.excel_row, BookFileProcessor.excel_try, shaped,
    BookRows.excel_decode.
  fold (row_no idx).
  destruct (Cells.get cols row "title") as [t|e]; cbn [bind decoded_of];
    [|destruct e; reflexivity].
  destruct (Cells.isna t); cbn [bind]; [reflexivity|].
  destruct (Cells.get cols row "isbn") as [i|e]; cbn [bind decoded_of];
    [|destruct e; reflexivity].
  destruct (Cells.isna i); cbn [bind]; [reflexivity|].
  fold (row_no idx).
  destruct (BookFileProcessor.excel_data cols row) as [d|e]; cbn [bind decoded_of].
  - rewrite book_check_shaped.
    destruct (BookRows.conflict _ _ _ _); [reflexivity|].
    destruct (refuses_book _ _); reflexivity.
  - destruct e; reflexivity.
Qed.

Lemma user_excel_row_shaped cols idx row st :
  UserFileProcessor.excel_row cols idx row st =
  shaped (UserRows.excel_decode cols) (UserRows.conflict row_no) refuses_user
         idx row st.
Proof.
  unfold UserFileProcessor.excel_row, UserFileProcessor.excel_try, shaped,
    UserRows.excel_decode.
  fold (row_no idx).
  destruct (Cells.get cols row "full_name") as [t|e]; cbn [bind decoded_of];
    [|destruct e; reflexivity].
  destruct (Cells.isna t); cbn [bind]; [reflexivity|].
  destruct (Cells.get cols row "registration_number") as [i|e]; cbn [bind decoded_of];
    [|destruct e; reflexivity].
  destruct (Cells.isna i); cbn [bind]; [reflexivity|].
  fold (row_no idx).
  destruct (UserFileProcessor.excel_data cols row) as [d|e]; cbn [bind decoded_of].
  - rewrite user_check_shaped.
    destruct (UserRows.conflict _ _ _ _); [reflexivity|].
    destruct (refuses_user _ _); reflexivity.
  - destruct e; reflexivity.
Qed.

End Shapes.

(** ** Loops of handlers in normal form *)

Section Loops.
Context {Row T : Type}.
Variable decode : nat -> Row -> Decoded T.
Variable conflict : nat -> list T -> T -> option string.
Variable refuses : list T -> T -> bool.

Local Abbreviation body := (shaped decode conflict refuses).

(** What one iteration that does not raise has done. *)
Inductive Step (idx : nat) (row : Row) (st : Session T) : Session T -> Prop :=
| StepSkip :
    decode idx row = Skip -> Step idx row st st
| StepBad msg :
    decode idx row = Bad msg -> Step idx row st (append_error st msg)
| StepConflict r msg :
    decode idx row = Data r ->
    conflict idx (objects st) r = Some msg ->
    Step idx row st (append_error st msg)
| StepCommit r :
    decode idx row = Data r ->
    conflict idx (objects st) r = None ->
    refuses (objects st) r = false ->
    Step idx row st (count_created st (objects st ++ [r])).

Lemma step_inv idx row st st' :
  body idx row st = Ok st' -> Step idx row st st'.
Proof.
  unfold shaped. intros H.
  destruct (decode idx row) as [|msg|e|r] eqn:Hd.
  - inversion H; subst. now apply StepSkip.
  - inversion H; subst. now apply StepBad.
  - discriminate.
  - destruct (conflict idx (objects st) r) as [msg|] eqn:Hc.
    + inversion H; subst. now apply StepConflict with r.
    + destruct (refuses (objects st) r) eqn:Hr; [discriminate|].
      inversion H; subst. now apply StepCommit.
Qed.

(** A loop only appends: records to the collection, one per unit of
    [created_count], and messages to [errors]. *)
Lemma loop_trace rows :
  forall idx st st',
    for_each body idx rows st = Ok st' ->
    exists added msgs,
      objects st' = objects st ++ added /\
      created_count st' = created_count st + List.length added /\
      errors_acc st' = errors_acc st ++ msgs.
Proof.
  induction rows as [|row rest IH]; intros idx st st' H; simpl in H.
  - inversion H; subst. exists [], []. now rewrite !app_nil_r, Nat.add_0_r.
  - destruct (body idx row st) as [s1|e] eqn:Hb; [|discriminate].
    cbn [bind] in H. apply IH in H. destruct H as (added & msgs & Ho & Hc & He).
    apply step_inv in Hb. inversion Hb; subst; cbn in *.
    + now exists added, msgs.
    + exists added, (msg :: msgs). now rewrite <- app_assoc in He.
    + exists added, (msg :: msgs). now rewrite <- app_assoc in He.
    + exists (r :: added), msgs. rewrite <- app_assoc in Ho. cbn in *.
      repeat split; auto. lia.
Qed.

(** *** Counting *)

Section Counting.
Context {K : Type}.
Variable candidate : Row -> bool.
Variable sound : Row -> bool.
Variable key : Row -> K.
Variable key_of : T -> K.
Variable clash : K -> K -> bool.

Hypothesis decode_skip :
  forall idx row, candidate row = false -> decode idx row = Skip.
Hypothesis decode_data :
  forall idx row, candidate row = true -> sound row = true ->
    exists r, decode idx row = Data r /\ key_of r = key row.
Hypothesis decode_bad :
  forall idx row, candidate row = true -> sound row = false ->
    decode idx row <> Skip /\ forall r, decode idx row <> Data r.
Hypothesis conflict_clash :
  forall idx objs r,
    conflict idx objs r = None <->
    existsb (clash (key_of r)) (map key_of objs) = false.

End Counting.

End Loops.

(** ** The handlers and the words of the specification *)

Lemma of_str_raises s e :
  PyInt.of_str s = Raise e -> exists msg, e = ValueError msg.
Proof.
  unfold PyInt.of_str.
  destruct (PyInt.signed (PyInt.skip s)) as [negative body'].
  destruct (PyInt.starts_with_underscore body');
    [intros H; inversion H; unfold PyInt.invalid_literal; eauto|].
  destruct (PyInt.run false body') as [[[ds u] rest]|];
    [|intros H; inversion H; unfold PyInt.invalid_literal; eauto].
  destruct u; [intros H; inversion H; unfold PyInt.invalid_literal; eauto|].
  destruct (_ <? _)%nat;
    [intros H; inversion H; unfold PyInt.exceeds_limit; eauto|].
  destruct (_ || _); [|discriminate].
  intros H; inversion H; unfold PyInt.invalid_literal; eauto.
Qed.





(** *** Text rows *)

Lemma book_txt_skip idx line :
  BookRows.txt_candidate line = false -> BookRows.txt_decode idx line = Skip.
Proof.
  unfold BookRows.txt_candidate, BookRows.txt_decode.
  destruct (is_blank line); [reflexivity|discriminate].
Qed.

Lemma book_txt_decoded idx line :
  BookRows.txt_candidate line = true ->
  if BookRows.txt_decodes line && BookRows.txt_coerces line
  then exists r, BookRows.txt_decode idx line = Data r
                 /\ isbn r = BookRows.txt_key line
  else exists msg, BookRows.txt_decode idx line = Bad msg.
Proof.
  unfold BookRows.txt_candidate, BookRows.txt_decode, BookRows.txt_decodes,
    BookRows.txt_coerces, BookRows.txt_key, field.
  change (List.length BookFileProcessor.expected_fields) with 7.
  destruct (is_blank line); [discriminate|]. intros _.
  destruct (List.length (fields_of line) =? 7)%nat eqn:Hlen; cbn [negb andb];
    [|eauto].
  apply Nat.eqb_eq in Hlen.
  destruct (fields_of line)
    as [|f0 [|f1 [|f2 [|f3 [|f4 [|f5 [|f6 [|f7 fs]]]]]]]]; try discriminate.
  cbn [nth]. unfold BookFileProcessor.txt_data, parses.
  cbn [item nth_error bind].
  destruct (String.eqb (Py.strip f4) "") eqn:Hblank; cbn [orb bind].
  - destruct (PyInt.of_str (Py.strip f6)) as [q|e] eqn:Hq; cbn [andb bind decoded_of].
    + eauto.
    + destruct (of_str_raises _ _ Hq) as [msg ->]. cbn. eauto.
  - destruct (PyInt.of_str (Py.strip f4)) as [y|e] eqn:Hy; cbn [andb bind decoded_of].
    + destruct (PyInt.of_str (Py.strip f6)) as [q|e] eqn:Hq; cbn [andb bind decoded_of].
      * eauto.
      * destruct (of_str_raises _ _ Hq) as [msg ->]. cbn. eauto.
    + destruct (of_str_raises _ _ Hy) as [msg ->]. cbn. eauto.
Qed.

Lemma user_txt_skip idx line :
  UserRows.txt_candidate line = false -> UserRows.txt_decode idx line = Skip.
Proof.
  unfold UserRows.txt_candidate, UserRows.txt_decode.
  destruct (is_blank line); [reflexivity|discriminate].
Qed.

Lemma user_txt_decoded idx line :
  UserRows.txt_candidate line = true ->
  if UserRows.txt_decodes line
  then exists u, UserRows.txt_decode idx line = Data u
                 /\ UserRows.key_of u = UserRows.txt_key line
  else exists msg, UserRows.txt_decode idx line = Bad msg.
Proof.
  unfold UserRows.txt_candidate, UserRows.txt_decode, UserRows.txt_decodes,
    UserRows.txt_key, field.
  change (List.length UserFileProcessor.expected_fields) with 6.
  destruct (is_blank line); [discriminate|]. intros _.
  destruct (List.length (fields_of line) =? 6)%nat eqn:Hlen; cbn [negb];
    [|eauto].
  apply Nat.eqb_eq in Hlen.
  destruct (fields_of line)
    as [|f0 [|f1 [|f2 [|f3 [|f4 [|f5 [|f6 fs]]]]]]]; try discriminate.
  cbn [nth]. unfold UserFileProcessor.txt_data.
  cbn [item nth_error bind decoded_of]. eauto.
Qed.

(** *** Spreadsheet rows *)

Lemma get_mem cols name :
  Py.mem name cols = true ->
  forall row, Cells.get cols row name = Ok (cell cols row name).
Proof.
  unfold cell, Py.mem.
  induction cols as [|c cs IH]; cbn [existsb Cells.get]; [discriminate|].
  intros H row. rewrite String.eqb_sym in H.
  destruct (String.eqb c name); [reflexivity|].
  cbn [orb] in H. exact (IH H (tl row)).
Qed.

Lemma missing_nil expected cols :
  Cells.missing expected cols = [] ->
  forall name, In name expected -> Py.mem name cols = true.
Proof.
  unfold Cells.missing.
  induction expected as [|x xs IH]; cbn [filter In]; [tauto|].
  destruct (Py.mem x cols) eqn:Hx; cbn [negb]; [|discriminate].
  intros H name [<-|Hin]; auto.
Qed.

Lemma int_raises c e :
  Cells.int c = Raise e ->
  (exists msg, e = ValueError msg) \/ (exists msg, e = TypeError msg).
Proof.
  destruct c; cbn [Cells.int]; intros H; try discriminate.
  - inversion H; eauto.
  - left. eapply of_str_raises; eauto.
  - inversion H; eauto.
Qed.

Ltac known_columns Hcols :=
  repeat match goal with
  | |- context [Cells.get ?cols ?row ?name] =>
      rewrite (get_mem cols name
                 (missing_nil _ cols Hcols name
                    ltac:(cbn; repeat (first [left; reflexivity | right])))
                 row)
  end.

Lemma book_excel_skip cols idx row :
  Cells.missing BookFileProcessor.expected_columns cols = [] ->
  BookRows.excel_candidate cols row = false ->
  BookRows.excel_decode cols idx row = Skip.
Proof.
  intros Hcols. unfold BookRows.excel_candidate, BookRows.excel_decode, Cells.notna.
  known_columns Hcols.
  destruct (Cells.isna (cell cols row "title")); [reflexivity|].
  destruct (Cells.isna (cell cols row "isbn")); [reflexivity|discriminate].
Qed.

Lemma book_excel_data cols row :
  Cells.missing BookFileProcessor.expected_columns cols = [] ->
  BookFileProcessor.excel_data cols row =
  (year <- (if Cells.notna (cell cols row "publication_year")
            then n <- Cells.int (cell cols row "publication_year") ;; Ok (Some n)
            else Ok None) ;;
   n <- Cells.int (cell cols row "quantity") ;;
   n' <- Cells.int (cell cols row "quantity") ;;
   Ok (mkBook (Py.strip (Cells.str (cell cols row "title")))
              (Py.strip (Cells.str (cell cols row "author")))
              (Py.strip (Cells.str (cell cols row "isbn")))
              (if Cells.notna (cell cols row "publisher")
               then Py.strip (Cells.str (cell cols row "publisher")) else "")
              year
              (if Cells.notna (cell cols row "category")
               then Py.strip (Cells.str (cell cols row "category")) else "")
              n n')).
Proof.
  intros Hcols. unfold BookFileProcessor.excel_data.
  known_columns Hcols. reflexivity.
Qed.

Lemma book_excel_decoded cols idx row :
  Cells.missing BookFileProcessor.expected_columns cols = [] ->
  BookRows.excel_candidate cols row = true ->
  if BookRows.excel_coerces cols row
  then exists r, BookRows.excel_decode cols idx row = Data r
                 /\ isbn r = BookRows.excel_key cols row
  else (exists msg, BookRows.excel_decode cols idx row = Bad msg)
       \/ (exists e, BookRows.excel_decode cols idx row = Crash e).
Proof.
  intros Hcols. unfold BookRows.excel_candidate, BookRows.excel_decode,
    BookRows.excel_coerces, BookRows.excel_key, Cells.notna, converts.
  rewrite (book_excel_data cols row Hcols). unfold Cells.notna.
  known_columns Hcols.
  destruct (Cells.isna (cell cols row "title")); [discriminate|].
  destruct (Cells.isna (cell cols row "isbn")); [discriminate|]. intros _.
  destruct (Cells.isna (cell cols row "publication_year"));
    cbn [negb orb andb bind];
    [|destruct (Cells.int (cell cols row "publication_year")) as [y|e] eqn:Hy;
      cbn [andb bind decoded_of]];
    try (destruct (Cells.int (cell cols row "quantity")) as [q|e'] eqn:Hq;
         cbn [andb bind decoded_of]);
    eauto;
    repeat match goal with
           | H : Cells.int _ = Raise _ |- _ =>
               destruct (int_raises _ _ H) as [[? ->]|[? ->]]; clear H
           end;
    cbn; eauto.
Qed.

Lemma user_excel_skip cols idx row :
  Cells.missing UserFileProcessor.expected_columns cols = [] ->
  UserRows.excel_candidate cols row = false ->
  UserRows.excel_decode cols idx row = Skip.
Proof.
  intros Hcols. unfold UserRows.excel_candidate, UserRows.excel_decode, Cells.notna.
  known_columns Hcols.
  destruct (Cells.isna (cell cols row "full_name")); [reflexivity|].
  destruct (Cells.isna (cell cols row "registration_number"));
    [reflexivity|discriminate].
Qed.

Lemma user_excel_data cols row :
  Cells.missing UserFileProcessor.expected_columns cols = [] ->
  UserFileProcessor.excel_data cols row =
  Ok (mkLibraryUser
        (Py.strip (Cells.str (cell cols row "full_name")))
        (Py.strip (Cells.str (cell cols row "email")))
        (if Cells.notna (cell cols row "phone")
         then Py.strip (Cells.str (cell cols row "phone")) else "")
        (if Cells.notna (cell cols row "address")
         then Py.strip (Cells.str (cell cols row "address")) else "")
        (Py.strip (Cells.str (cell cols row "registration_number")))
        (if Cells.notna (cell cols row "is_active")
         then Cells.truth (cell cols row "is_active") else true)).
Proof.
  intros Hcols. unfold UserFileProcessor.excel_data.
  known_columns Hcols. reflexivity.
Qed.

Lemma user_excel_decoded cols idx row :
  Cells.missing UserFileProcessor.expected_columns cols = [] ->
  UserRows.excel_candidate cols row = true ->
  exists u, UserRows.excel_decode cols idx row = Data u
            /\ UserRows.key_of u = UserRows.excel_key cols row.
Proof.
  intros Hcols. unfold UserRows.excel_candidate, UserRows.excel_decode,
    UserRows.excel_key, Cells.notna.
  rewrite (user_excel_data cols row Hcols).
  known_columns Hcols.
  destruct (Cells.isna (cell cols row "full_name")); [discriminate|].
  destruct (Cells.isna (cell cols row "registration_number")); [discriminate|].
  intros _. cbn [decoded_of]. eauto.
Qed.

(** ** Running a file again, and keys that stay unique *)

Lemma NoDup_snoc {A : Type} (l : list A) (a : A) :
  NoDup l -> ~ In a l -> NoDup (l ++ [a]).
Proof.
  induction l as [|x l IH]; cbn; intros Hnd Hn.
  - constructor; [intros []|constructor].
  - inversion Hnd as [|? ? Hx Hl]; subst. constructor.
    + rewrite in_app_iff. intros [H|[H|[]]]; [auto|].
      subst. apply Hn. now left.
    + apply IH; auto.
Qed.

Section Again.
Context {Row T : Type}.
Variable decode : nat -> Row -> Decoded T.
Variable conflict : nat -> list T -> T -> option string.
Variable refuses : list T -> T -> bool.

Local Abbreviation body := (shaped decode conflict refuses).

(** A record of the collection is in conflict with itself. *)
Hypothesis conflict_self :
  forall idx objs r, In r objs -> conflict idx objs r <> None.

Lemma loop_again rows :
  forall idx st st',
    for_each body idx rows st = Ok st' ->
    errors_acc st' = errors_acc st ->
    forall st2,
      incl (objects st') (objects st2) ->
      exists msgs,
        for_each body idx rows st2 =
          Ok (mkSession (objects st2) (created_count st2)
                        (errors_acc st2 ++ msgs))
        /\ created_count st + List.length msgs = created_count st'
        /\ Forall (fun msg => exists i r,
                      conflict i (objects st2) r = Some msg) msgs.
Proof.
  induction rows as [|row rest IH]; intros idx st st' H Herr st2 Hincl;
    simpl in H.
  - inversion H; subst. exists []. cbn. rewrite app_nil_r, Nat.add_0_r.
    destruct st2; auto.
  - destruct (body idx row st) as [s1|e] eqn:Hb; [|discriminate].
    cbn [bind] in H.
    destruct (loop_trace _ _ _ _ _ _ _ H) as (added & msgs' & Ho & Hc & He).
    apply step_inv in Hb.
    inversion Hb as [Hd|msg Hd|r msg Hd Hcf|r Hd Hcf Hrf]; subst s1.
    + destruct (IH _ _ _ H Herr st2 Hincl) as (msgs & Hrun & Hn & Hall).
      exists msgs. cbn [for_each]. unfold shaped at 1. rewrite Hd. cbn [bind].
      auto.
    + exfalso. cbn in He. rewrite He, <- app_assoc in Herr.
      apply (f_equal (@List.length string)) in Herr.
      rewrite !length_app in Herr. cbn in Herr. lia.
    + exfalso. cbn in He. rewrite He, <- app_assoc in Herr.
      apply (f_equal (@List.length string)) in Herr.
      rewrite !length_app in Herr. cbn in Herr. lia.
    + assert (In r (objects st2)) as Hin.
      { apply Hincl. rewrite Ho. cbn. apply in_or_app. left.
        apply in_or_app. right. now left. }
      destruct (conflict idx (objects st2) r) as [msg|] eqn:Hc2;
        [|exfalso; eapply conflict_self; eauto].
      destruct (IH _ _ _ H Herr (append_error st2 msg) Hincl)
        as (msgs & Hrun & Hn & Hall).
      exists (msg :: msgs). cbn [for_each]. unfold shaped at 1.
      rewrite Hd, Hc2. cbn [bind]. rewrite Hrun. cbn in *.
      rewrite <- app_assoc. cbn. repeat split; auto; [lia|].
      constructor; eauto.
Qed.

(** The same for a whole call: a first call that returned without errors,
    then a second call on what the first one persisted. *)
Lemma finish_again idx rows before o after :
  finish (for_each body idx rows (start before)) = Returned o after ->
  errors o = [] ->
  exists msgs,
    finish (for_each body idx rows (start after))
    = Returned (mkOutcome false 0 msgs) after
    /\ List.length msgs = created o
    /\ Forall (fun msg => exists i r, conflict i after r = Some msg) msgs.
Proof.
  destruct (for_each body idx rows (start before)) as [st'|e] eqn:H;
    cbn [finish]; [|discriminate].
  intros Hr Herr. inversion Hr; subst o after. cbn in Herr.
  destruct (loop_again rows idx (start before) st' H Herr (start (objects st'))
              (incl_refl _)) as (msgs & Hrun & Hn & Hall).
  exists msgs. rewrite Hrun. cbn in *. auto.
Qed.

End Again.

Section Unique.
Context {Row T K : Type}.
Variable decode : nat -> Row -> Decoded T.
Variable conflict : nat -> list T -> T -> option string.
Variable refuses : list T -> T -> bool.
Variable key_of : T -> K.

Local Abbreviation body := (shaped decode conflict refuses).

(** A record passes the check only with a key that is not persisted. *)
Hypothesis conflict_fresh :
  forall idx objs r,
    conflict idx objs r = None -> ~ In (key_of r) (map key_of objs).

Lemma loop_unique rows :
  forall idx st st',
    for_each body idx rows st = Ok st' ->
    NoDup (map key_of (objects st)) ->
    NoDup (map key_of (objects st')).
Proof.
  induction rows as [|row rest IH]; intros idx st st' H Hnd; simpl in H.
  - now inversion H; subst.
  - destruct (body idx row st) as [s1|e] eqn:Hb; [|discriminate].
    cbn [bind] in H. apply (IH _ _ _ H). clear H.
    apply step_inv in Hb.
    inversion Hb as [Hd|msg Hd|r msg Hd Hcf|r Hd Hcf Hrf]; subst s1; cbn; auto.
    rewrite map_app. cbn. apply NoDup_snoc; auto.
    eapply conflict_fresh; eauto.
Qed.

(** A committed record is still in the collection when the loop ends. *)
Lemma loop_keeps rows :
  forall idx st st' r,
    for_each body idx rows st = Ok st' ->
    In r (objects st) -> In r (objects st').
Proof.
  intros idx st st' r H Hin.
  destruct (loop_trace _ _ _ _ _ _ _ H) as (added & msgs & Ho & _).
  rewrite Ho. apply in_or_app. now left.
Qed.

End Unique.

(* ===================================================================== *)
(** * The properties of the import and of the copy counter *)
(* ===================================================================== *)

(** ** Copies of a book *)

Lemma call_in_range c b :
  in_range b -> in_range (snd (call c b)) /\ quantity (snd (call c b)) = quantity b.
Proof.
  unfold in_range, call, reserve_copy, return_copy. intros H.
  destruct c.
  - destruct (0 <? available_quantity b)%Z eqn:E; cbn; [|auto].
    apply Z.ltb_lt in E. lia.
  - destruct (available_quantity b <? quantity b)%Z eqn:E; cbn; [|auto].
    apply Z.ltb_lt in E. lia.
Qed.

(** C8.  Starting from a book with [0 <= available_quantity <= quantity],
    after any sequence of [reserve_copy] and [return_copy] calls the
    available quantity is still within [0, quantity] (and the quantity is
    the same); on the book so reached [reserve_copy] returns [True] and
    takes one copy exactly when a copy is available, and otherwise returns
    [False] and changes nothing; [return_copy] adds one copy exactly when
    fewer than [quantity] are available, and otherwise changes nothing. *)
Theorem copies_stay_in_range (b : Book) (cs : list Call) :
  in_range b ->
  let b' := calls cs b in
  in_range b' /\ quantity b' = quantity b
  /\ (fst (reserve_copy b') = true <-> (0 < available_quantity b')%Z)
  /\ ((0 < available_quantity b')%Z ->
      available_quantity (snd (reserve_copy b')) = (available_quantity b' - 1)%Z)
  /\ (~ (0 < available_quantity b')%Z -> reserve_copy b' = (false, b'))
  /\ (fst (return_copy b') = true <-> (available_quantity b' < quantity b')%Z)
  /\ ((available_quantity b' < quantity b')%Z ->
      available_quantity (snd (return_copy b')) = (available_quantity b' + 1)%Z)
  /\ (~ (available_quantity b' < quantity b')%Z -> return_copy b' = (false, b')).
Proof.
  intros Hb b'. subst b'.
  assert (in_range (calls cs b) /\ quantity (calls cs b) = quantity b) as [Hr Hq].
  { revert b Hb. induction cs as [|c cs IH]; intros b Hb; cbn [calls]; [auto|].
    destruct (call_in_range c b Hb) as [H1 H2].
    destruct (IH _ H1) as [H3 H4]. split; [assumption|congruence]. }
  split; [exact Hr|]. split; [exact Hq|].
  generalize (calls cs b). intros x.
  unfold reserve_copy, return_copy.
  destruct (0 <? available_quantity x)%Z eqn:E1;
    destruct (available_quantity x <? quantity x)%Z eqn:E2; cbn;
    try apply Z.ltb_lt in E1; try apply Z.ltb_ge in E1;
    try apply Z.ltb_lt in E2; try apply Z.ltb_ge in E2;
    repeat split; intros; try reflexivity; try lia; try discriminate.
Qed.

Lemma copies_stay_in_range_witness :
  in_range clean_code
  /\ in_range (calls [ReserveCopy; ReturnCopy; ReturnCopy; ReserveCopy] clean_code).
Proof.
  assert (in_range clean_code) as H by (unfold in_range; cbn; lia).
  split; [exact H|].
  apply (copies_stay_in_range clean_code
           [ReserveCopy; ReturnCopy; ReturnCopy; ReserveCopy] H).
Defined.

(** ** The success flag *)

Lemma finish_success {T : Type} (r : Exc (Session T)) o :
  returned (finish r) = Some o -> success o = (0 <? created o)%nat.
Proof.
  destruct r as [st|e]; cbn; intros H; inversion H; reflexivity.
Qed.

Lemma rejected_success {T : Type} (before : list T) msg o :
  returned (rejected before msg) = Some o -> success o = (0 <? created o)%nat.
Proof.
  cbn; intros H; inversion H; reflexivity.
Qed.

Section Success.
Context {backend : Backend}.

Lemma book_process_file_success file file_type before o :
  returned (BookFileProcessor.process_file file file_type before) = Some o ->
  success o = (0 <? created o)%nat.
Proof.
  unfold BookFileProcessor.process_file, BookFileProcessor.process_txt_file,
    BookFileProcessor.process_excel_file.
  repeat match goal with
         | |- context [match ?x with _ => _ end] => destruct x
         end;
    first [apply finish_success | apply rejected_success | discriminate].
Qed.

Lemma user_process_file_success file file_type before o :
  returned (UserFileProcessor.process_file file file_type before) = Some o ->
  success o = (0 <? created o)%nat.
Proof.
  unfold UserFileProcessor.process_file, UserFileProcessor.process_txt_file,
    UserFileProcessor.process_excel_file.
  repeat match goal with
         | |- context [match ?x with _ => _ end] => destruct x
         end;
    first [apply finish_success | apply rejected_success | discriminate].
Qed.
End Success.

(** C2.  Whatever the backend, the upload and the declared type (text,
    spreadsheet, or a type that is not supported), the dict that a book
    import or a user import returns has [success] true if and only if
    [created > 0]: [success] is a function of [created] alone, and not of
    [errors]. *)
Theorem success_iff_created (backend : Backend) (file : UploadedFile)
    (file_type : string) (books : list Book) (users : list LibraryUser)
    (o : ImportOutcome) :
  returned (BookFileProcessor.process_file file file_type books) = Some o
  \/ returned (UserFileProcessor.process_file file file_type users) = Some o ->
  (success o = true <-> 0 < created o)
  /\ success o = (0 <? created o)%nat.
Proof.
  intros H.
  assert (success o = (0 <? created o)%nat) as E.
  { destruct H as [H|H];
      [eapply book_process_file_success | eapply user_process_file_success];
      eassumption. }
  split; [|exact E]. rewrite E. apply Nat.ltb_lt.
Qed.

Lemma success_iff_created_witness :
  (returned (@BookFileProcessor.process_file schema_backend mixed_books "txt" [])
     = Some mixed_books_outcome
   \/ returned (@UserFileProcessor.process_file schema_backend mixed_books "txt" [])
     = Some mixed_books_outcome)
  /\ (success mixed_books_outcome = true <-> 0 < created mixed_books_outcome).
Proof.
  assert (returned (@BookFileProcessor.process_file schema_backend mixed_books "txt" [])
          = Some mixed_books_outcome) as H by (vm_compute; reflexivity).
  split; [left; exact H|].
  apply (success_iff_created schema_backend mixed_books "txt" [] []
           mixed_books_outcome (or_introl H)).
Defined.

(** A well-formed upload whose every row is refused reports no success. *)
Example every_row_refused :
  @BookFileProcessor.process_file schema_backend mixed_books "txt" [on_the_shelf]
  = Returned
      (mkOutcome false 0
         ["Line 2: Book with ISBN 9780132350884 already exists";
          "Line 3: Book with ISBN 9780132350884 already exists";
          "Line 4: Expected 7 fields, got 2"])
      [on_the_shelf].
Proof.
  vm_compute. reflexivity.
Qed.

(** ** The header of a text upload *)

Section Header.
Context {backend : Backend}.

Lemma book_bad_header file content before :
  decoded file = Some content ->
  2 <= List.length (lines_of content) ->
  Py.list_eqb (header_of content) BookFileProcessor.expected_fields = false ->
  BookFileProcessor.process_txt_file file before =
  rejected before
    "Invalid header. Expected: title|author|isbn|publisher|publication_year|category|quantity".
Proof.
  intros Hd Hlen Hh. unfold BookFileProcessor.process_txt_file.
  rewrite Hd. fold (lines_of content).
  destruct (List.length (lines_of content) <? 2)%nat eqn:E.
  - apply Nat.ltb_lt in E. lia.
  - fold (fields_of (hd "" (lines_of content))). fold (header_of content).
    rewrite Hh. reflexivity.
Qed.

Lemma user_bad_header file content before :
  decoded file = Some content ->
  2 <= List.length (lines_of content) ->
  Py.list_eqb (header_of content) UserFileProcessor.expected_fields = false ->
  UserFileProcessor.process_txt_file file before =
  rejected before
    "Invalid header. Expected: full_name|email|phone|address|registration_number|is_active".
Proof.
  intros Hd Hlen Hh. unfold UserFileProcessor.process_txt_file.
  rewrite Hd. fold (lines_of content).
  destruct (List.length (lines_of content) <? 2)%nat eqn:E.
  - apply Nat.ltb_lt in E. lia.
  - fold (fields_of (hd "" (lines_of content))). fold (header_of content).
    rewrite Hh. reflexivity.
Qed.
End Header.

Lemma list_eqb_eq xs ys : Py.list_eqb xs ys = true <-> xs = ys.
Proof.
  revert ys. induction xs as [|x xs IH]; intros [|y ys]; cbn;
    try (split; [discriminate|intros H; discriminate H]); [tauto|].
  rewrite andb_true_iff, String.eqb_eq, IH.
  split; [intros [-> ->]; reflexivity|intros H; inversion H; auto].
Qed.

(** C3, as the code has it.  In the text variant, for an upload of at least
    two lines (once the white space around the content is stripped) whose
    first line does not split into the expected field names, in order, the
    import returns [success = False], [created = 0] and the single error
    'Invalid header. Expected: ' followed by the expected names joined by
    pipes, and the persisted collection is the one it started from.  An
    upload of fewer than two lines is turned down before its header is
    looked at, with the single error about the missing rows. *)
Theorem bad_header_aborts (backend : Backend) (file : UploadedFile)
    (content : string) :
  decoded file = Some content ->
  (2 <= List.length (lines_of content) ->
   (header_of content <> BookFileProcessor.expected_fields ->
    forall before,
      BookFileProcessor.process_txt_file file before =
      Returned
        (mkOutcome false 0
           ["Invalid header. Expected: title|author|isbn|publisher|publication_year|category|quantity"])
        before)
   /\ (header_of content <> UserFileProcessor.expected_fields ->
       forall before,
         UserFileProcessor.process_txt_file file before =
         Returned
           (mkOutcome false 0
              ["Invalid header. Expected: full_name|email|phone|address|registration_number|is_active"])
           before))
  /\ (List.length (lines_of content) < 2 ->
      (forall before,
         BookFileProcessor.process_txt_file file before =
         Returned
           (mkOutcome false 0
              ["File must contain at least a header and one data row"])
           before)
      /\ (forall before,
            UserFileProcessor.process_txt_file file before =
            Returned
              (mkOutcome false 0
                 ["File must contain at least a header and one data row"])
              before)).
Proof.
  intros Hd. split.
  - intros Hlen. split; intros Hh before.
    + apply book_bad_header with content; auto.
      destruct (Py.list_eqb _ _) eqn:E; [|reflexivity].
      apply list_eqb_eq in E. contradiction.
    + apply user_bad_header with content; auto.
      destruct (Py.list_eqb _ _) eqn:E; [|reflexivity].
      apply list_eqb_eq in E. contradiction.
  - intros Hlen. apply Nat.ltb_lt in Hlen. unfold lines_of in Hlen.
    split; intros before.
    + unfold BookFileProcessor.process_txt_file. now rewrite Hd, Hlen.
    + unfold UserFileProcessor.process_txt_file. now rewrite Hd, Hlen.
Qed.

Lemma bad_header_aborts_witness :
  decoded (txt wrong_header) = Some wrong_header
  /\ 2 <= List.length (lines_of wrong_header)
  /\ header_of wrong_header <> BookFileProcessor.expected_fields
  /\ @BookFileProcessor.process_txt_file schema_backend (txt wrong_header)
       [on_the_shelf]
     = Returned
         (mkOutcome false 0
            ["Invalid header. Expected: title|author|isbn|publisher|publication_year|category|quantity"])
         [on_the_shelf].
Proof.
  assert (2 <= List.length (lines_of wrong_header)) as Hlen
    by (vm_compute; repeat constructor).
  assert (header_of wrong_header <> BookFileProcessor.expected_fields) as Hh
    by (vm_compute; discriminate).
  split; [reflexivity|]. split; [exact Hlen|]. split; [exact Hh|].
  exact (proj1 (proj1 (bad_header_aborts schema_backend (txt wrong_header)
                         wrong_header eq_refl) Hlen) Hh [on_the_shelf]).
Defined.

(** C3 as stated fails on an upload of one line: its header is not the
    expected one, yet the only error is the one about the missing rows. *)
Lemma bad_header_one_line_counterexample :
  decoded (txt "wrong|header|format") = Some "wrong|header|format"
  /\ header_of "wrong|header|format" <> BookFileProcessor.expected_fields
  /\ @BookFileProcessor.process_txt_file schema_backend
       (txt "wrong|header|format") []
     = Returned
         (mkOutcome false 0
            ["File must contain at least a header and one data row"]) []
  /\ @BookFileProcessor.process_txt_file schema_backend
       (txt "wrong|header|format") []
     <> Returned
          (mkOutcome false 0
             ["Invalid header. Expected: title|author|isbn|publisher|publication_year|category|quantity"])
          [].
Proof.
  split; [reflexivity|]. split; [vm_compute; discriminate|].
  split; [vm_compute; reflexivity|vm_compute; discriminate].
Qed.

(** ** A data line with a wrong number of fields *)

Section FieldCount.
Context {backend : Backend}.

Lemma book_short_row idx line st :
  is_blank line = false ->
  List.length (fields_of line) <> 7 ->
  BookFileProcessor.txt_row idx line st =
  Ok (append_error st (field_count_error idx 7 (List.length (fields_of line)))).
Proof.
  intros Hb Hn. rewrite book_txt_row_shaped. unfold shaped, BookRows.txt_decode.
  rewrite Hb. change (List.length BookFileProcessor.expected_fields) with 7.
  apply Nat.eqb_neq in Hn. rewrite Hn. reflexivity.
Qed.

Lemma user_short_row idx line st :
  is_blank line = false ->
  List.length (fields_of line) <> 6 ->
  UserFileProcessor.txt_row idx line st =
  Ok (append_error st (field_count_error idx 6 (List.length (fields_of line)))).
Proof.
  intros Hb Hn. rewrite user_txt_row_shaped. unfold shaped, UserRows.txt_decode.
  rewrite Hb. change (List.length UserFileProcessor.expected_fields) with 6.
  apply Nat.eqb_neq in Hn. rewrite Hn. reflexivity.
Qed.

Lemma book_txt_loop file content header data before :
  decoded file = Some content ->
  lines_of content = header :: data ->
  data <> [] ->
  fields_of header = BookFileProcessor.expected_fields ->
  BookFileProcessor.process_txt_file file before =
  finish (for_each BookFileProcessor.txt_row 2 data (start before)).
Proof.
  intros Hd Hl Hne Hh. unfold BookFileProcessor.process_txt_file.
  rewrite Hd. fold (lines_of content). rewrite Hl.
  destruct data as [|l data]; [contradiction|].
  cbn [List.length Nat.ltb Nat.leb hd tl]. fold (fields_of header).
  rewrite Hh. reflexivity.
Qed.

Lemma user_txt_loop file content header data before :
  decoded file = Some content ->
  lines_of content = header :: data ->
  data <> [] ->
  fields_of header = UserFileProcessor.expected_fields ->
  UserFileProcessor.process_txt_file file before =
  finish (for_each UserFileProcessor.txt_row 2 data (start before)).
Proof.
  intros Hd Hl Hne Hh. unfold UserFileProcessor.process_txt_file.
  rewrite Hd. fold (lines_of content). rewrite Hl.
  destruct data as [|l data]; [contradiction|].
  cbn [List.length Nat.ltb Nat.leb hd tl]. fold (fields_of header).
  rewrite Hh. reflexivity.
Qed.

End FieldCount.

(** ** The lines of an upload *)

Lemma rstrip_empty s : Py.rstrip s = "" <-> all_space s = true.
Proof.
  induction s as [|c s IH]; cbn; [tauto|].
  destruct (Py.rstrip s) eqn:E.
  - destruct (Py.is_space c); cbn; [|split; discriminate].
    rewrite <- IH. tauto.
  - split; [discriminate|]. rewrite andb_true_iff. intros [_ H].
    apply IH in H. discriminate.
Qed.

Lemma all_space_lstrip s : all_space (Py.lstrip s) = all_space s.
Proof.
  induction s as [|c s IH]; cbn; [reflexivity|].
  destruct (Py.is_space c) eqn:E; cbn; [exact IH|now rewrite E].
Qed.

Lemma is_blank_all_space s : is_blank s = true <-> all_space s = true.
Proof.
  unfold is_blank, Py.strip. rewrite String.eqb_eq, rstrip_empty.
  now rewrite all_space_lstrip.
Qed.

Lemma lstrip_idem s : Py.lstrip (Py.lstrip s) = Py.lstrip s.
Proof.
  induction s as [|c s IH]; cbn; [reflexivity|].
  destruct (Py.is_space c) eqn:E; [exact IH|]. cbn. now rewrite E.
Qed.

Lemma rstrip_idem s : Py.rstrip (Py.rstrip s) = Py.rstrip s.
Proof.
  induction s as [|c s IH]; [reflexivity|].
  cbn [Py.rstrip]. destruct (Py.rstrip s) as [|d r] eqn:E.
  - destruct (Py.is_space c) eqn:Ec; cbn [Py.rstrip]; [reflexivity|now rewrite Ec].
  - set (x := String d r) in *. cbn [Py.rstrip]. rewrite IH. subst x. reflexivity.
Qed.

Lemma lstrip_rstrip s : Py.lstrip (Py.rstrip s) = Py.rstrip (Py.lstrip s).
Proof.
  induction s as [|c s IH]; cbn; [reflexivity|].
  destruct (Py.is_space c) eqn:Ec.
  - destruct (Py.rstrip s) as [|d r] eqn:E.
    + cbn. symmetry. apply rstrip_empty. rewrite all_space_lstrip.
      now apply rstrip_empty.
    + cbn [Py.lstrip]. rewrite Ec. exact IH.
  - cbn [Py.rstrip]. destruct (Py.rstrip s) as [|d r]; rewrite ?Ec; cbn;
      now rewrite Ec.
Qed.

Lemma strip_lstrip s : Py.strip (Py.lstrip s) = Py.strip s.
Proof. unfold Py.strip. now rewrite lstrip_idem. Qed.

Lemma strip_rstrip s : Py.strip (Py.rstrip s) = Py.strip s.
Proof. unfold Py.strip. now rewrite lstrip_rstrip, rstrip_idem. Qed.

Lemma split_nonempty sep s : Py.split sep s <> [].
Proof.
  destruct s as [|c s]; cbn; [discriminate|].
  destruct (Ascii.eqb c sep); [discriminate|].
  destruct (Py.split sep s); discriminate.
Qed.

Lemma split_cons sep c s :
  Py.split sep (String c s) =
  if Ascii.eqb c sep then "" :: Py.split sep s
  else String c (hd "" (Py.split sep s)) :: tl (Py.split sep s).
Proof.
  cbn. destruct (Ascii.eqb c sep); [reflexivity|].
  destruct (Py.split sep s) eqn:E; [now apply split_nonempty in E|reflexivity].
Qed.

(** Leading white space: when the first line of [s] is not blank, stripping
    the left end of [s] strips the left end of its first line. *)
Lemma split_lstrip s h t :
  Py.split newline s = h :: t ->
  is_blank h = false ->
  Py.split newline (Py.lstrip s) = Py.lstrip h :: t.
Proof.
  revert h t. induction s as [|c s IH]; intros h t Hs Hb.
  - cbn in Hs. inversion Hs; subst. discriminate.
  - rewrite split_cons in Hs. cbn [Py.lstrip].
    destruct (Ascii.eqb c newline) eqn:Ec.
    + inversion Hs; subst. discriminate.
    + inversion Hs; subst. clear Hs.
      destruct (Py.is_space c) eqn:Esp.
      * cbn [Py.lstrip]. rewrite Esp.
        apply IH.
        -- destruct (Py.split newline s) eqn:E;
             [now apply split_nonempty in E|reflexivity].
        -- destruct (is_blank (hd "" (Py.split newline s))) eqn:Eb;
             [|reflexivity].
           apply is_blank_all_space in Eb.
           assert (is_blank (String c (hd "" (Py.split newline s))) = true)
             as Hc; [|congruence].
           apply is_blank_all_space. cbn. now rewrite Esp.
      * cbn [Py.lstrip]. rewrite Esp. rewrite split_cons, Ec. reflexivity.
Qed.

Lemma split_single sep s : Py.split sep s = [""] -> s = "".
Proof.
  destruct s as [|c s]; [reflexivity|]. rewrite split_cons.
  destruct (Ascii.eqb c sep); intros H; inversion H.
  now apply split_nonempty in H1.
Qed.

Lemma trim_end_not_single ls : trim_end ls <> [""].
Proof.
  induction ls as [|l rest IH]; cbn; [discriminate|].
  destruct (trim_end rest) as [|r rs] eqn:E.
  - destruct (is_blank l) eqn:Eb; [discriminate|].
    intros H. inversion H as [H1].
    assert (is_blank l = true); [|congruence].
    apply is_blank_all_space. now apply rstrip_empty.
  - intros H. inversion H.
Qed.

(** Trailing white space: the lines of [rstrip s] are those of [s] without
    the blank lines at the end, the last one stripped at its right end. *)
Lemma split_rstrip s :
  Py.split newline (Py.rstrip s) =
  match trim_end (Py.split newline s) with
  | [] => [""]
  | ls => ls
  end.
Proof.
  induction s as [|c s IH]; [reflexivity|].
  rewrite split_cons. cbn [Py.rstrip].
  destruct (Ascii.eqb c newline) eqn:Ec.
  - apply Ascii.eqb_eq in Ec. subst c. cbn [trim_end].
    destruct (trim_end (Py.split newline s)) as [|r rs] eqn:Et.
    + apply split_single in IH. rewrite IH. reflexivity.
    + assert (Py.rstrip s <> "") as Hne.
      { intros E. rewrite E in IH. cbn in IH. inversion IH; subst.
        now apply (trim_end_not_single (Py.split newline s)). }
      destruct (Py.rstrip s) as [|d r'] eqn:Er; [contradiction|].
      rewrite split_cons, Ascii.eqb_refl. now rewrite IH.
  - destruct (Py.split newline s) as [|h t] eqn:Es;
      [now apply split_nonempty in Es|].
    cbn [hd tl trim_end] in *.
    destruct (trim_end t) as [|r rs] eqn:Et.
    + destruct (is_blank h) eqn:Eb.
      * apply split_single in IH. rewrite IH.
        destruct (Py.is_space c) eqn:Esp.
        -- assert (is_blank (String c h) = true) as ->; [|reflexivity].
           apply is_blank_all_space. cbn. rewrite Esp.
           now apply is_blank_all_space.
        -- assert (is_blank (String c h) = false) as ->.
           { destruct (is_blank (String c h)) eqn:E; [|reflexivity].
             apply is_blank_all_space in E. cbn in E. now rewrite Esp in E. }
           cbn [Py.rstrip]. apply is_blank_all_space, rstrip_empty in Eb.
           rewrite Eb, Esp. rewrite split_cons, Ec. reflexivity.
      * assert (Py.rstrip h <> "") as Hh.
        { intros E. apply rstrip_empty, is_blank_all_space in E. congruence. }
        assert (Py.rstrip s <> "") as Hne.
        { intros E. rewrite E in IH. cbn in IH. inversion IH. congruence. }
        destruct (Py.rstrip s) as [|d r'] eqn:Er; [contradiction|].
        rewrite split_cons, Ec, IH. cbn [hd tl].
        assert (is_blank (String c h) = false) as ->.
        { destruct (is_blank (String c h)) eqn:E; [|reflexivity].
          apply is_blank_all_space in E. cbn in E.
          apply andb_true_iff in E. destruct E as [_ E].
          apply is_blank_all_space in E. congruence. }
        cbn [Py.rstrip]. destruct (Py.rstrip h); [contradiction|reflexivity].
    + assert (Py.rstrip s <> "") as Hne.
      { intros E. rewrite E in IH. cbn in IH. inversion IH. }
      destruct (Py.rstrip s) as [|d r'] eqn:Er; [contradiction|].
      rewrite split_cons, Ec, IH. reflexivity.
Qed.

Lemma trim_end_keeps pre line post :
  is_blank line = false ->
  exists line' post',
    trim_end (pre ++ line :: post) = pre ++ line' :: post'.
Proof.
  intros Hb.
  assert (exists line' post', trim_end (line :: post) = line' :: post')
    as (line' & post' & Hl).
  { cbn [trim_end]. destruct (trim_end post); rewrite ?Hb; eauto. }
  induction pre as [|p pre IH]; cbn [app trim_end]; [eauto|].
  destruct IH as (l2 & p2 & ->).
  destruct pre; cbn [app]; eauto.
Qed.

Section Trimmed.
Context {T : Type}.
Variable body : nat -> string -> Session T -> Exc (Session T).

Hypothesis body_strip :
  forall idx l l' st, Py.strip l = Py.strip l' -> body idx l st = body idx l' st.
Hypothesis body_blank :
  forall idx l st, is_blank l = true -> body idx l st = Ok st.

Lemma for_each_trim_end ls :
  forall idx st,
    for_each body idx (trim_end ls) st = for_each body idx ls st.
Proof.
  induction ls as [|l rest IH]; intros idx st; cbn [trim_end]; [reflexivity|].
  destruct (trim_end rest) as [|r rs] eqn:E.
  - destruct (is_blank l) eqn:Eb; cbn [for_each].
    + rewrite (body_blank idx l st Eb). cbn [bind]. now rewrite <- IH.
    + rewrite (body_strip idx (Py.rstrip l) l st (strip_rstrip l)).
      destruct (body idx l st) as [st'|e]; cbn [bind]; [|reflexivity].
      now rewrite <- IH.
  - cbn [for_each]. destruct (body idx l st) as [st'|e]; cbn [bind];
      [|reflexivity].
    apply IH.
Qed.
End Trimmed.

(** The lines of an upload whose first line is not blank, as the text
    processors cut them. *)
Lemma lines_of_raw content h t :
  Py.split newline content = h :: t ->
  is_blank h = false ->
  lines_of content =
  match trim_end (Py.lstrip h :: t) with
  | [] => [""]
  | ls => ls
  end.
Proof.
  intros Hs Hb. unfold lines_of, Py.strip.
  rewrite split_rstrip. now rewrite (split_lstrip content h t Hs Hb).
Qed.

Lemma header_not_blank header expected :
  fields_of header = expected -> expected <> [""] -> is_blank header = false.
Proof.
  intros Hf Hne. destruct (is_blank header) eqn:Eb; [|reflexivity].
  unfold is_blank in Eb. apply String.eqb_eq in Eb.
  unfold fields_of in Hf. rewrite Eb in Hf. cbn in Hf. congruence.
Qed.

Section RawLines.
Context {backend : Backend}.

Lemma book_txt_row_strip idx l l' st :
  Py.strip l = Py.strip l' ->
  BookFileProcessor.txt_row idx l st = BookFileProcessor.txt_row idx l' st.
Proof.
  intros H. unfold BookFileProcessor.txt_row, BookFileProcessor.txt_try.
  now rewrite H.
Qed.

Lemma book_txt_row_blank idx l st :
  is_blank l = true -> BookFileProcessor.txt_row idx l st = Ok st.
Proof.
  unfold is_blank, BookFileProcessor.txt_row. now intros ->.
Qed.

Lemma user_txt_row_strip idx l l' st :
  Py.strip l = Py.strip l' ->
  UserFileProcessor.txt_row idx l st = UserFileProcessor.txt_row idx l' st.
Proof.
  intros H. unfold UserFileProcessor.txt_row, UserFileProcessor.txt_try.
  now rewrite H.
Qed.

Lemma user_txt_row_blank idx l st :
  is_blank l = true -> UserFileProcessor.txt_row idx l st = Ok st.
Proof.
  unfold is_blank, UserFileProcessor.txt_row. now intros ->.
Qed.

(** When the first line of the upload is the header and some later line is
    not blank, the import runs the row handler over the lines of the upload
    that follow the header, numbered from 2. *)
Lemma book_txt_upload file content header pre line post before :
  decoded file = Some content ->
  Py.split newline content = header :: pre ++ line :: post ->
  fields_of header = BookFileProcessor.expected_fields ->
  is_blank line = false ->
  BookFileProcessor.process_txt_file file before =
  finish (for_each BookFileProcessor.txt_row 2 (pre ++ line :: post)
                   (start before)).
Proof.
  intros Hd Hs Hh Hb.
  assert (is_blank header = false) as Hhb
    by (apply (header_not_blank _ _ Hh); discriminate).
  pose proof (lines_of_raw content header _ Hs Hhb) as Hl.
  destruct (trim_end_keeps (Py.lstrip header :: pre) line post Hb)
    as (line' & post' & Ht).
  assert (trim_end (pre ++ line :: post) <> []) as Hne.
  { destruct (trim_end_keeps pre line post Hb) as (l2 & p2 & ->).
    destruct pre; discriminate. }
  cbn [app trim_end] in Hl.
  destruct (trim_end (pre ++ line :: post)) as [|d ds] eqn:Et;
    [contradiction|].
  rewrite (book_txt_loop file content (Py.lstrip header) (d :: ds) before
             Hd Hl ltac:(discriminate)).
  - rewrite <- Et.
    now rewrite (for_each_trim_end _ book_txt_row_strip book_txt_row_blank).
  - unfold fields_of. rewrite strip_lstrip. exact Hh.
Qed.

Lemma user_txt_upload file content header pre line post before :
  decoded file = Some content ->
  Py.split newline content = header :: pre ++ line :: post ->
  fields_of header = UserFileProcessor.expected_fields ->
  is_blank line = false ->
  UserFileProcessor.process_txt_file file before =
  finish (for_each UserFileProcessor.txt_row 2 (pre ++ line :: post)
                   (start before)).
Proof.
  intros Hd Hs Hh Hb.
  assert (is_blank header = false) as Hhb
    by (apply (header_not_blank _ _ Hh); discriminate).
  pose proof (lines_of_raw content header _ Hs Hhb) as Hl.
  assert (trim_end (pre ++ line :: post) <> []) as Hne.
  { destruct (trim_end_keeps pre line post Hb) as (l2 & p2 & ->).
    destruct pre; discriminate. }
  cbn [app trim_end] in Hl.
  destruct (trim_end (pre ++ line :: post)) as [|d ds] eqn:Et;
    [contradiction|].
  rewrite (user_txt_loop file content (Py.lstrip header) (d :: ds) before
             Hd Hl ltac:(discriminate)).
  - rewrite <- Et.
    now rewrite (for_each_trim_end _ user_txt_row_strip user_txt_row_blank).
  - unfold fields_of. rewrite strip_lstrip. exact Hh.
Qed.

End RawLines.

(** C4.  In the text variant, take a data line of the upload that is not
    blank and whose number of pipe-separated fields is not the expected
    one; let it be line [n] of the upload, the header being line 1.  The
    lines are those that the processor cuts, [content.strip().split(NL)]:
    the header is line 1 also when blank lines come before it in the
    upload, and this holds of every upload.  The handler of that line
    appends the one error 'Line n: Expected k fields, got m' and changes
    neither the collection nor the count of created rows; the import does
    what it does on the lines before, records that error, and goes on with
    the lines after. *)
Theorem wrong_field_count_is_one_error (backend : Backend)
    (file : UploadedFile) (content header : string)
    (pre : list string) (line : string) (post : list string) :
  decoded file = Some content ->
  lines_of content = header :: pre ++ line :: post ->
  is_blank line = false ->
  let n := 2 + List.length pre in
  let m := List.length (fields_of line) in
  nth_error (lines_of content) (n - 1) = Some line
  /\ (fields_of header = BookFileProcessor.expected_fields -> m <> 7 ->
      let msg := ("Line " ++ Py.str_of_nat n ++ ": Expected 7 fields, got "
                  ++ Py.str_of_nat m)%string in
      (forall st, BookFileProcessor.txt_row n line st = Ok (append_error st msg))
      /\ forall before,
          BookFileProcessor.process_txt_file file before =
          finish (st1 <- for_each BookFileProcessor.txt_row 2 pre (start before) ;;
                  for_each BookFileProcessor.txt_row (S n) post
                           (append_error st1 msg)))
  /\ (fields_of header = UserFileProcessor.expected_fields -> m <> 6 ->
      let msg := ("Line " ++ Py.str_of_nat n ++ ": Expected 6 fields, got "
                  ++ Py.str_of_nat m)%string in
      (forall st, UserFileProcessor.txt_row n line st = Ok (append_error st msg))
      /\ forall before,
          UserFileProcessor.process_txt_file file before =
          finish (st1 <- for_each UserFileProcessor.txt_row 2 pre (start before) ;;
                  for_each UserFileProcessor.txt_row (S n) post
                           (append_error st1 msg))).
Proof.
  intros Hd Hl Hb n m. subst n m.
  assert (pre ++ line :: post <> []) as Hne by (destruct pre; discriminate).
  split; [|split].
  - rewrite Hl.
    replace (2 + List.length pre - 1) with (S (List.length pre)) by lia.
    cbn [nth_error]. rewrite nth_error_app2 by lia.
    rewrite Nat.sub_diag. reflexivity.
  - intros Hh Hm msg.
    assert (forall idx st, BookFileProcessor.txt_row idx line st =
              Ok (append_error st (field_count_error idx 7
                                     (List.length (fields_of line))))) as Hrow
      by (intros; apply book_short_row; assumption).
    split; [intros st; apply Hrow|]. intros before.
    rewrite (book_txt_loop file content header (pre ++ line :: post) before
               Hd Hl Hne Hh).
    rewrite for_each_app. f_equal.
    destruct (for_each _ 2 pre (start before)) as [st1|e]; cbn [bind for_each];
      [|reflexivity].
    rewrite Hrow. reflexivity.
  - intros Hh Hm msg.
    assert (forall idx st, UserFileProcessor.txt_row idx line st =
              Ok (append_error st (field_count_error idx 6
                                     (List.length (fields_of line))))) as Hrow
      by (intros; apply user_short_row; assumption).
    split; [intros st; apply Hrow|]. intros before.
    rewrite (user_txt_loop file content header (pre ++ line :: post) before
               Hd Hl Hne Hh).
    rewrite for_each_app. f_equal.
    destruct (for_each _ 2 pre (start before)) as [st1|e]; cbn [bind for_each];
      [|reflexivity].
    rewrite Hrow. reflexivity.
Qed.

Lemma wrong_field_count_is_one_error_witness :
  decoded (txt late_header_content) = Some late_header_content
  /\ lines_of late_header_content
     = book_header :: [clean_code_line] ++ "Refactoring|Martin Fowler" :: []
  /\ is_blank "Refactoring|Martin Fowler" = false
  /\ fields_of book_header = BookFileProcessor.expected_fields
  /\ List.length (fields_of "Refactoring|Martin Fowler") <> 7
  /\ @BookFileProcessor.process_txt_file schema_backend
       (txt late_header_content) []
     = Returned (mkOutcome true 1 ["Line 3: Expected 7 fields, got 2"])
                [on_the_shelf].
Proof.
  assert (lines_of late_header_content
          = book_header :: [clean_code_line]
                           ++ "Refactoring|Martin Fowler" :: []) as Hl
    by (vm_compute; reflexivity).
  assert (fields_of book_header = BookFileProcessor.expected_fields) as Hh
    by (vm_compute; reflexivity).
  assert (List.length (fields_of "Refactoring|Martin Fowler") <> 7) as Hm
    by (vm_compute; discriminate).
  split; [reflexivity|]. split; [exact Hl|]. split; [reflexivity|].
  split; [exact Hh|]. split; [exact Hm|].
  rewrite (proj2 (proj1 (proj2
             (wrong_field_count_is_one_error schema_backend
                (txt late_header_content) late_header_content book_header
                [clean_code_line] "Refactoring|Martin Fowler" []
                eq_refl Hl eq_refl))
             Hh Hm) []).
  vm_compute. reflexivity.
Defined.

(** ** Rows of a sheet that are skipped *)


Section Skipped.
Context {Row T : Type}.
Variable decode : nat -> Row -> Decoded T.
Variable conflict : nat -> list T -> T -> option string.
Variable refuses : list T -> T -> bool.

End Skipped.






(** ** The two checks of a user row *)

Section RowData.
Context {backend : Backend}.

Lemma user_txt_row_data idx line st u :
  UserRows.txt_decode idx line = Data u ->
  UserFileProcessor.txt_row idx line st =
  match UserRows.conflict line_no idx (objects st) u with
  | Some msg => Ok (append_error st msg)
  | None =>
      if refuses_user (objects st) u then Raise DatabaseError
      else Ok (count_created st (objects st ++ [u]))
  end.
Proof.
  intros Hd. rewrite user_txt_row_shaped. unfold shaped. now rewrite Hd.
Qed.

Lemma user_excel_row_data cols idx row st u :
  UserRows.excel_decode cols idx row = Data u ->
  UserFileProcessor.excel_row cols idx row st =
  match UserRows.conflict row_no idx (objects st) u with
  | Some msg => Ok (append_error st msg)
  | None =>
      if refuses_user (objects st) u then Raise DatabaseError
      else Ok (count_created st (objects st ++ [u]))
  end.
Proof.
  intros Hd. rewrite user_excel_row_shaped. unfold shaped. now rewrite Hd.
Qed.

Lemma book_txt_row_data idx line st b :
  BookRows.txt_decode idx line = Data b ->
  BookFileProcessor.txt_row idx line st =
  match BookRows.conflict line_no idx (objects st) b with
  | Some msg => Ok (append_error st msg)
  | None =>
      if refuses_book (objects st) b then Raise DatabaseError
      else Ok (count_created st (objects st ++ [b]))
  end.
Proof.
  intros Hd. rewrite book_txt_row_shaped. unfold shaped. now rewrite Hd.
Qed.

Lemma book_excel_row_data cols idx row st b :
  BookRows.excel_decode cols idx row = Data b ->
  BookFileProcessor.excel_row cols idx row st =
  match BookRows.conflict row_no idx (objects st) b with
  | Some msg => Ok (append_error st msg)
  | None =>
      if refuses_book (objects st) b then Raise DatabaseError
      else Ok (count_created st (objects st ++ [b]))
  end.
Proof.
  intros Hd. rewrite book_excel_row_shaped. unfold shaped. now rewrite Hd.
Qed.

End RowData.



(** ** Importing the same file twice *)

Lemma book_conflict_self where_ idx objs (r : Book) :
  In r objs -> BookRows.conflict where_ idx objs r <> None.
Proof.
  intros Hin. unfold BookRows.conflict.
  assert (isbn_exists objs (isbn r) = true) as ->; [|discriminate].
  apply existsb_exists. exists r. split; [assumption|apply String.eqb_refl].
Qed.

Lemma user_conflict_self where_ idx objs (r : LibraryUser) :
  In r objs -> UserRows.conflict where_ idx objs r <> None.
Proof.
  intros Hin. unfold UserRows.conflict.
  assert (registration_exists objs (registration_number r) = true) as ->;
    [|discriminate].
  apply existsb_exists. exists r. split; [assumption|apply String.eqb_refl].
Qed.

Lemma book_conflict_message where_ msgs objs :
  Forall (fun msg => exists i r, BookRows.conflict where_ i objs r = Some msg) msgs ->
  Forall (book_exists_message where_) msgs.
Proof.
  apply Forall_impl. intros msg (i & r & H). unfold BookRows.conflict in H.
  destruct (isbn_exists objs (isbn r)); inversion H.
  exists i, (isbn r). reflexivity.
Qed.

Lemma user_conflict_message where_ msgs objs :
  Forall (fun msg => exists i r, UserRows.conflict where_ i objs r = Some msg) msgs ->
  Forall (user_exists_message where_) msgs.
Proof.
  apply Forall_impl. intros msg (i & r & H). unfold UserRows.conflict in H.
  destruct (registration_exists objs (registration_number r)).
  - inversion H. exists i, (registration_number r). left. reflexivity.
  - destruct (email_exists objs (email r)); inversion H.
    exists i, (email r). right. reflexivity.
Qed.

Section Twice.
Context {backend : Backend}.

Lemma book_txt_twice file before o after :
  BookFileProcessor.process_txt_file file before = Returned o after ->
  errors o = [] ->
  exists msgs,
    BookFileProcessor.process_txt_file file after
    = Returned (mkOutcome false 0 msgs) after
    /\ List.length msgs = created o
    /\ Forall (book_exists_message line_no) msgs.
Proof.
  unfold BookFileProcessor.process_txt_file.
  destruct (decoded file) as [content|]; [|discriminate].
  destruct (_ <? 2)%nat; [intros H E; inversion H; subst; discriminate|].
  destruct (negb _); [intros H E; inversion H; subst; discriminate|].
  rewrite !(for_each_ext _ _ book_txt_row_shaped).
  intros H E.
  destruct (finish_again _ _ _ (book_conflict_self line_no) _ _ _ _ _ H E)
    as (msgs & Hrun & Hn & Hall).
  exists msgs. eauto using book_conflict_message.
Qed.

Lemma user_txt_twice file before o after :
  UserFileProcessor.process_txt_file file before = Returned o after ->
  errors o = [] ->
  exists msgs,
    UserFileProcessor.process_txt_file file after
    = Returned (mkOutcome false 0 msgs) after
    /\ List.length msgs = created o
    /\ Forall (user_exists_message line_no) msgs.
Proof.
  unfold UserFileProcessor.process_txt_file.
  destruct (decoded file) as [content|]; [|discriminate].
  destruct (_ <? 2)%nat; [intros H E; inversion H; subst; discriminate|].
  destruct (negb _); [intros H E; inversion H; subst; discriminate|].
  rewrite !(for_each_ext _ _ user_txt_row_shaped).
  intros H E.
  destruct (finish_again _ _ _ (user_conflict_self line_no) _ _ _ _ _ H E)
    as (msgs & Hrun & Hn & Hall).
  exists msgs. eauto using user_conflict_message.
Qed.

Lemma book_excel_twice file before o after :
  BookFileProcessor.process_excel_file file before = Returned o after ->
  errors o = [] ->
  exists msgs,
    BookFileProcessor.process_excel_file file after
    = Returned (mkOutcome false 0 msgs) after
    /\ List.length msgs = created o
    /\ Forall (book_exists_message row_no) msgs.
Proof.
  unfold BookFileProcessor.process_excel_file.
  destruct (read_excel file) as [e|df];
    [intros H E; inversion H; subst; discriminate|].
  frame_labels df; [discriminate|].
  destruct (Cells.missing _ _);
    [|intros H E; inversion H; subst; discriminate].
  rewrite !(for_each_ext _ _ (book_excel_row_shaped _)).
  intros H E.
  destruct (finish_again _ _ _ (book_conflict_self row_no) _ _ _ _ _ H E)
    as (msgs & Hrun & Hn & Hall).
  exists msgs. eauto using book_conflict_message.
Qed.

Lemma user_excel_twice file before o after :
  UserFileProcessor.process_excel_file file before = Returned o after ->
  errors o = [] ->
  exists msgs,
    UserFileProcessor.process_excel_file file after
    = Returned (mkOutcome false 0 msgs) after
    /\ List.length msgs = created o
    /\ Forall (user_exists_message row_no) msgs.
Proof.
  unfold UserFileProcessor.process_excel_file.
  destruct (read_excel file) as [e|df];
    [intros H E; inversion H; subst; discriminate|].
  frame_labels df; [discriminate|].
  destruct (Cells.missing _ _);
    [|intros H E; inversion H; subst; discriminate].
  rewrite !(for_each_ext _ _ (user_excel_row_shaped _)).
  intros H E.
  destruct (finish_again _ _ _ (user_conflict_self row_no) _ _ _ _ _ H E)
    as (msgs & Hrun & Hn & Hall).
  exists msgs. eauto using user_conflict_message.
Qed.

End Twice.

(** C7.  Take an upload whose import returned without any error, so that
    every candidate row was committed, and import it again on the collection
    the first import left.  The second import does not raise: it returns
    [success = False] and [created = 0], leaves the collection as it is, and
    reports one 'already exists' error of the uniqueness check (ISBN for
    books; registration number or e-mail for users) for each row the first
    import created.  This holds for both kinds and both formats. *)
Theorem second_import_creates_nothing (backend : Backend)
    (file : UploadedFile) (o : ImportOutcome) :
  errors o = [] ->
  (forall before after,
     BookFileProcessor.process_txt_file file before = Returned o after ->
     exists msgs,
       BookFileProcessor.process_txt_file file after
       = Returned (mkOutcome false 0 msgs) after
       /\ List.length msgs = created o
       /\ Forall (book_exists_message line_no) msgs)
  /\ (forall before after,
        UserFileProcessor.process_txt_file file before = Returned o after ->
        exists msgs,
          UserFileProcessor.process_txt_file file after
          = Returned (mkOutcome false 0 msgs) after
          /\ List.length msgs = created o
          /\ Forall (user_exists_message line_no) msgs)
  /\ (forall before after,
        BookFileProcessor.process_excel_file file before = Returned o after ->
        exists msgs,
          BookFileProcessor.process_excel_file file after
          = Returned (mkOutcome false 0 msgs) after
          /\ List.length msgs = created o
          /\ Forall (book_exists_message row_no) msgs)
  /\ (forall before after,
        UserFileProcessor.process_excel_file file before = Returned o after ->
        exists msgs,
          UserFileProcessor.process_excel_file file after
          = Returned (mkOutcome false 0 msgs) after
          /\ List.length msgs = created o
          /\ Forall (user_exists_message row_no) msgs).
Proof.
  intros E. repeat split; intros before after H.
  - exact (book_txt_twice file before o after H E).
  - exact (user_txt_twice file before o after H E).
  - exact (book_excel_twice file before o after H E).
  - exact (user_excel_twice file before o after H E).
Qed.

Lemma second_import_creates_nothing_witness :
  errors (mkOutcome true 2 []) = []
  /\ @BookFileProcessor.process_txt_file schema_backend two_books []
     = Returned (mkOutcome true 2 []) [on_the_shelf; refactoring]
  /\ exists msgs,
       @BookFileProcessor.process_txt_file schema_backend two_books
         [on_the_shelf; refactoring]
       = Returned (mkOutcome false 0 msgs) [on_the_shelf; refactoring]
       /\ List.length msgs = 2
       /\ Forall (book_exists_message line_no) msgs.
Proof.
  assert (@BookFileProcessor.process_txt_file schema_backend two_books []
          = Returned (mkOutcome true 2 []) [on_the_shelf; refactoring]) as H
    by (vm_compute; reflexivity).
  split; [reflexivity|]. split; [exact H|].
  exact (proj1 (second_import_creates_nothing schema_backend two_books
                  (mkOutcome true 2 []) eq_refl)
           [] [on_the_shelf; refactoring] H).
Defined.

(** The second import of that upload, computed. *)
Example two_books_again :
  @BookFileProcessor.process_txt_file schema_backend two_books
    [on_the_shelf; refactoring]
  = Returned
      (mkOutcome false 0
         ["Line 2: Book with ISBN 9780132350884 already exists";
          "Line 4: Book with ISBN 9780201485677 already exists"])
      [on_the_shelf; refactoring].
Proof. vm_compute. reflexivity. Qed.

(** ** One record per natural key *)

Lemma isbn_exists_in objs x :
  isbn_exists objs x = true <-> In x (map isbn objs).
Proof.
  unfold isbn_exists. rewrite existsb_exists, in_map_iff.
  split; intros (b & H1 & H2); exists b.
  - apply String.eqb_eq in H2. auto.
  - split; [assumption|]. now apply String.eqb_eq.
Qed.

Lemma registration_exists_in objs x :
  registration_exists objs x = true <-> In x (map registration_number objs).
Proof.
  unfold registration_exists. rewrite existsb_exists, in_map_iff.
  split; intros (b & H1 & H2); exists b.
  - apply String.eqb_eq in H2. auto.
  - split; [assumption|]. now apply String.eqb_eq.
Qed.

Lemma email_exists_in objs x :
  email_exists objs x = true <-> In x (map email objs).
Proof.
  unfold email_exists. rewrite existsb_exists, in_map_iff.
  split; intros (b & H1 & H2); exists b.
  - apply String.eqb_eq in H2. auto.
  - split; [assumption|]. now apply String.eqb_eq.
Qed.

Lemma book_conflict_fresh where_ idx objs r :
  BookRows.conflict where_ idx objs r = None -> ~ In (isbn r) (map isbn objs).
Proof.
  unfold BookRows.conflict. intros H Hin. apply isbn_exists_in in Hin.
  rewrite Hin in H. discriminate.
Qed.

Lemma user_conflict_fresh_registration where_ idx objs r :
  UserRows.conflict where_ idx objs r = None ->
  ~ In (registration_number r) (map registration_number objs).
Proof.
  unfold UserRows.conflict. intros H Hin. apply registration_exists_in in Hin.
  rewrite Hin in H. discriminate.
Qed.

Lemma user_conflict_fresh_email where_ idx objs r :
  UserRows.conflict where_ idx objs r = None ->
  ~ In (email r) (map email objs).
Proof.
  unfold UserRows.conflict. intros H Hin. apply email_exists_in in Hin.
  rewrite Hin in H.
  destruct (registration_exists objs (registration_number r)); discriminate.
Qed.

Section Earlier.
Context {Row T : Type}.
Variable decode : nat -> Row -> Decoded T.
Variable conflict : nat -> list T -> T -> option string.
Variable refuses : list T -> T -> bool.

(** The record of a row committed earlier is in the collection now. *)
Lemma committed_earlier_in row between now :
  committed_earlier (shaped decode conflict refuses) row between now ->
  exists idx r, decode idx row = Data r /\ In r (objects now).
Proof.
  intros (idx & s1 & s2 & idx' & Hb & Hc & Hloop).
  apply step_inv in Hb.
  inversion Hb as [Hd|msg Hd|r msg Hd Hcf|r Hd Hcf Hrf]; subst s2;
    cbn in Hc; try lia.
  exists idx, r. split; [assumption|].
  eapply loop_keeps; [exact Hloop|]. cbn. apply in_or_app. right. now left.
Qed.
End Earlier.

Lemma committed_earlier_ext {Row T : Type}
    (f g : nat -> Row -> Session T -> Exc (Session T)) row between now :
  (forall idx r st, f idx r st = g idx r st) ->
  committed_earlier f row between now -> committed_earlier g row between now.
Proof.
  intros Hfg (idx & s1 & s2 & idx' & Hb & Hc & Hloop).
  exists idx, s1, s2, idx'. rewrite <- Hfg.
  rewrite <- (for_each_ext f g Hfg). auto.
Qed.

Lemma book_txt_data_key idx line r :
  BookRows.txt_decode idx line = Data r -> isbn r = BookRows.txt_key line.
Proof.
  intros Hd. destruct (BookRows.txt_candidate line) eqn:Hc.
  - pose proof (book_txt_decoded idx line Hc) as H.
    destruct (_ && _); [destruct H as (x & H & ?)|destruct H as (x & H)];
      congruence.
  - rewrite (book_txt_skip idx line Hc) in Hd. discriminate.
Qed.

Lemma book_excel_data_key cols idx row r :
  Cells.missing BookFileProcessor.expected_columns cols = [] ->
  BookRows.excel_decode cols idx row = Data r ->
  isbn r = BookRows.excel_key cols row.
Proof.
  intros Hcols Hd. destruct (BookRows.excel_candidate cols row) eqn:Hc.
  - pose proof (book_excel_decoded cols idx row Hcols Hc) as H.
    destruct (BookRows.excel_coerces cols row).
    + destruct H as (x & H & ?). congruence.
    + destruct H as [[x H]|[x H]]; congruence.
  - rewrite (book_excel_skip cols idx row Hcols Hc) in Hd. discriminate.
Qed.

Lemma user_txt_data_key idx line u :
  UserRows.txt_decode idx line = Data u ->
  UserRows.key_of u = UserRows.txt_key line.
Proof.
  intros Hd. destruct (UserRows.txt_candidate line) eqn:Hc.
  - pose proof (user_txt_decoded idx line Hc) as H.
    destruct (UserRows.txt_decodes line);
      [destruct H as (x & H & ?)|destruct H as (x & H)]; congruence.
  - rewrite (user_txt_skip idx line Hc) in Hd. discriminate.
Qed.

Lemma user_excel_data_key cols idx row u :
  Cells.missing UserFileProcessor.expected_columns cols = [] ->
  UserRows.excel_decode cols idx row = Data u ->
  UserRows.key_of u = UserRows.excel_key cols row.
Proof.
  intros Hcols Hd. destruct (UserRows.excel_candidate cols row) eqn:Hc.
  - destruct (user_excel_decoded cols idx row Hcols Hc) as (x & H & ?).
    congruence.
  - rewrite (user_excel_skip cols idx row Hcols Hc) in Hd. discriminate.
Qed.

Lemma finish_unique {Row T K : Type} (decode : nat -> Row -> Decoded T)
    conflict refuses (key_of : T -> K) idx rows before :
  (forall i objs r,
     conflict i objs r = None -> ~ In (key_of r) (map key_of objs)) ->
  NoDup (map key_of before) ->
  NoDup (map key_of
           (persisted before
              (finish (for_each (shaped decode conflict refuses) idx rows
                                (start before))))).
Proof.
  intros Hfresh Hnd.
  destruct (for_each _ idx rows (start before)) as [st'|e] eqn:H;
    cbn [finish persisted]; [|assumption].
  eapply loop_unique; eauto.
Qed.

Section Keys.
Context {backend : Backend}.

Lemma book_txt_later_duplicate row1 between now n row2 :
  committed_earlier BookFileProcessor.txt_row row1 between now ->
  BookRows.txt_candidate row2 = true ->
  BookRows.txt_decodes row2 && BookRows.txt_coerces row2 = true ->
  BookRows.txt_key row2 = BookRows.txt_key row1 ->
  BookFileProcessor.txt_row n row2 now =
  Ok (append_error now
        (BookFileProcessor.already_exists (line_no n) (BookRows.txt_key row2))).
Proof.
  intros Hce Hc Hs Hk.
  apply (committed_earlier_ext _ _ _ _ _ book_txt_row_shaped) in Hce.
  destruct (committed_earlier_in _ _ _ _ _ _ Hce) as (idx & r & Hd & Hin).
  apply book_txt_data_key in Hd.
  pose proof (book_txt_decoded n row2 Hc) as H. rewrite Hs in H.
  destruct H as (r2 & Hd2 & Hk2).
  rewrite (book_txt_row_data n row2 now r2 Hd2). unfold BookRows.conflict.
  assert (isbn_exists (objects now) (isbn r2) = true) as ->.
  { apply isbn_exists_in. rewrite Hk2, Hk, <- Hd. now apply in_map. }
  now rewrite Hk2.
Qed.

Lemma book_excel_later_duplicate cols row1 between now n row2 :
  Cells.missing BookFileProcessor.expected_columns cols = [] ->
  committed_earlier (BookFileProcessor.excel_row cols) row1 between now ->
  BookRows.excel_candidate cols row2 = true ->
  BookRows.excel_coerces cols row2 = true ->
  BookRows.excel_key cols row2 = BookRows.excel_key cols row1 ->
  BookFileProcessor.excel_row cols n row2 now =
  Ok (append_error now
        (BookFileProcessor.already_exists (row_no n)
           (BookRows.excel_key cols row2))).
Proof.
  intros Hcols Hce Hc Hs Hk.
  apply (committed_earlier_ext _ _ _ _ _ (book_excel_row_shaped cols)) in Hce.
  destruct (committed_earlier_in _ _ _ _ _ _ Hce) as (idx & r & Hd & Hin).
  apply (book_excel_data_key cols idx row1 r Hcols) in Hd.
  pose proof (book_excel_decoded cols n row2 Hcols Hc) as H. rewrite Hs in H.
  destruct H as (r2 & Hd2 & Hk2).
  rewrite (book_excel_row_data cols n row2 now r2 Hd2). unfold BookRows.conflict.
  assert (isbn_exists (objects now) (isbn r2) = true) as ->.
  { apply isbn_exists_in. rewrite Hk2, Hk, <- Hd. now apply in_map. }
  now rewrite Hk2.
Qed.

Lemma user_later_duplicate where_ n now (u1 u2 : LibraryUser) :
  In u1 (objects now) ->
  (registration_number u2 = registration_number u1 ->
   UserRows.conflict where_ n (objects now) u2
   = Some (UserFileProcessor.registration_taken (where_ n)
             (registration_number u2)))
  /\ (email u2 = email u1 ->
      registration_exists (objects now) (registration_number u2) = false ->
      UserRows.conflict where_ n (objects now) u2
      = Some (UserFileProcessor.email_taken (where_ n) (email u2)))
  /\ (registration_exists (objects now) (registration_number u2) = true ->
      UserRows.conflict where_ n (objects now) u2
      = Some (UserFileProcessor.registration_taken (where_ n)
                (registration_number u2))).
Proof.
  intros Hin. unfold UserRows.conflict. split; [|split].
  - intros Hr.
    assert (registration_exists (objects now) (registration_number u2) = true)
      as ->; [|reflexivity].
    apply registration_exists_in. rewrite Hr. now apply in_map.
  - intros He ->.
    assert (email_exists (objects now) (email u2) = true) as ->; [|reflexivity].
    apply email_exists_in. rewrite He. now apply in_map.
  - intros ->. reflexivity.
Qed.

Lemma user_txt_later_duplicate row1 between now n row2 :
  committed_earlier UserFileProcessor.txt_row row1 between now ->
  UserRows.txt_candidate row2 = true ->
  UserRows.txt_decodes row2 = true ->
  (fst (UserRows.txt_key row2) = fst (UserRows.txt_key row1) ->
   UserFileProcessor.txt_row n row2 now =
   Ok (append_error now
         (UserFileProcessor.registration_taken (line_no n)
            (fst (UserRows.txt_key row2)))))
  /\ (snd (UserRows.txt_key row2) = snd (UserRows.txt_key row1) ->
      registration_exists (objects now) (fst (UserRows.txt_key row2)) = false ->
      UserFileProcessor.txt_row n row2 now =
      Ok (append_error now
            (UserFileProcessor.email_taken (line_no n)
               (snd (UserRows.txt_key row2)))))
  /\ (registration_exists (objects now) (fst (UserRows.txt_key row2)) = true ->
      UserFileProcessor.txt_row n row2 now =
      Ok (append_error now
            (UserFileProcessor.registration_taken (line_no n)
               (fst (UserRows.txt_key row2))))).
Proof.
  intros Hce Hc Hs.
  apply (committed_earlier_ext _ _ _ _ _ user_txt_row_shaped) in Hce.
  destruct (committed_earlier_in _ _ _ _ _ _ Hce) as (idx & u1 & Hd & Hin).
  apply user_txt_data_key in Hd.
  pose proof (user_txt_decoded n row2 Hc) as H. rewrite Hs in H.
  destruct H as (u2 & Hd2 & Hk2).
  rewrite (user_txt_row_data n row2 now u2 Hd2).
  rewrite <- Hk2, <- Hd. unfold UserRows.key_of. cbn [fst snd].
  destruct (user_later_duplicate line_no n now u1 u2 Hin) as (H1 & H2 & H3).
  split; [intros E; now rewrite (H1 E)|].
  split; [intros E F; now rewrite (H2 E F)|intros E; now rewrite (H3 E)].
Qed.

Lemma user_excel_later_duplicate cols row1 between now n row2 :
  Cells.missing UserFileProcessor.expected_columns cols = [] ->
  committed_earlier (UserFileProcessor.excel_row cols) row1 between now ->
  UserRows.excel_candidate cols row2 = true ->
  (fst (UserRows.excel_key cols row2) = fst (UserRows.excel_key cols row1) ->
   UserFileProcessor.excel_row cols n row2 now =
   Ok (append_error now
         (UserFileProcessor.registration_taken (row_no n)
            (fst (UserRows.excel_key cols row2)))))
  /\ (snd (UserRows.excel_key cols row2) = snd (UserRows.excel_key cols row1) ->
      registration_exists (objects now) (fst (UserRows.excel_key cols row2))
      = false ->
      UserFileProcessor.excel_row cols n row2 now =
      Ok (append_error now
            (UserFileProcessor.email_taken (row_no n)
               (snd (UserRows.excel_key cols row2)))))
  /\ (registration_exists (objects now) (fst (UserRows.excel_key cols row2))
      = true ->
      UserFileProcessor.excel_row cols n row2 now =
      Ok (append_error now
            (UserFileProcessor.registration_taken (row_no n)
               (fst (UserRows.excel_key cols row2))))).
Proof.
  intros Hcols Hce Hc.
  apply (committed_earlier_ext _ _ _ _ _ (user_excel_row_shaped cols)) in Hce.
  destruct (committed_earlier_in _ _ _ _ _ _ Hce) as (idx & u1 & Hd & Hin).
  apply (user_excel_data_key cols idx row1 u1 Hcols) in Hd.
  destruct (user_excel_decoded cols n row2 Hcols Hc) as (u2 & Hd2 & Hk2).
  rewrite (user_excel_row_data cols n row2 now u2 Hd2).
  rewrite <- Hk2, <- Hd. unfold UserRows.key_of. cbn [fst snd].
  destruct (user_later_duplicate row_no n now u1 u2 Hin) as (H1 & H2 & H3).
  split; [intros E; now rewrite (H1 E)|].
  split; [intros E F; now rewrite (H2 E F)|intros E; now rewrite (H3 E)].
Qed.

Lemma book_process_file_unique file file_type before :
  NoDup (map isbn before) ->
  NoDup (map isbn
           (persisted before
              (BookFileProcessor.process_file file file_type before))).
Proof.
  intros Hnd.
  unfold BookFileProcessor.process_file, BookFileProcessor.process_txt_file,
    BookFileProcessor.process_excel_file.
  destruct (String.eqb file_type "txt").
  - destruct (decoded file) as [content|]; [|exact Hnd].
    destruct (_ <? 2)%nat; [exact Hnd|].
    destruct (negb _); [exact Hnd|].
    rewrite (for_each_ext _ _ book_txt_row_shaped).
    apply finish_unique; [apply book_conflict_fresh|exact Hnd].
  - destruct (String.eqb file_type "excel"); [|exact Hnd].
    destruct (read_excel file) as [e|df]; [exact Hnd|].
    frame_labels df; [exact Hnd|].
    destruct (Cells.missing _ _); [|exact Hnd].
    rewrite (for_each_ext _ _ (book_excel_row_shaped _)).
    apply finish_unique; [apply book_conflict_fresh|exact Hnd].
Qed.

Lemma user_process_file_unique file file_type before :
  NoDup (map registration_number before) ->
  NoDup (map email before) ->
  NoDup (map registration_number
           (persisted before
              (UserFileProcessor.process_file file file_type before)))
  /\ NoDup (map email
              (persisted before
                 (UserFileProcessor.process_file file file_type before))).
Proof.
  intros Hr He.
  unfold UserFileProcessor.process_file, UserFileProcessor.process_txt_file,
    UserFileProcessor.process_excel_file.
  destruct (String.eqb file_type "txt").
  - destruct (decoded file) as [content|]; [|split; assumption].
    destruct (_ <? 2)%nat; [split; assumption|].
    destruct (negb _); [split; assumption|].
    rewrite (for_each_ext _ _ user_txt_row_shaped).
    split;
      (apply finish_unique;
       [first [apply user_conflict_fresh_registration
              |apply user_conflict_fresh_email]
       |assumption]).
  - destruct (String.eqb file_type "excel"); [|split; assumption].
    destruct (read_excel file) as [e|df]; [split; assumption|].
    frame_labels df; [split; assumption|].
    destruct (Cells.missing _ _); [|split; assumption].
    rewrite (for_each_ext _ _ (user_excel_row_shaped _)).
    split;
      (apply finish_unique;
       [first [apply user_conflict_fresh_registration
              |apply user_conflict_fresh_email]
       |assumption]).
Qed.

End Keys.

(** C9, as the code has it.  Within one import, a later row that passes
    decoding and coercion and whose natural key is that of a row committed
    earlier in the same import is not persisted: its handler appends the
    'already exists' error of the uniqueness check and leaves the collection
    and the count as they are.  For a book the key is the ISBN; a user row
    with the registration number of an earlier one gets the registration
    error, and one with only the e-mail of an earlier one gets the e-mail
    error, unless its registration number is persisted as that of another
    record, which the registration error then reports.  The labels of a
    sheet are taken to be distinct.  Whatever the upload, the declared type and the backend, if the
    persisted collection had at most one record per ISBN (per registration
    number and per e-mail) before an import, it has so after it. *)
Theorem natural_keys_stay_unique (backend : Backend) :
  (forall row1 between now n row2,
     committed_earlier BookFileProcessor.txt_row row1 between now ->
     BookRows.txt_candidate row2 = true ->
     BookRows.txt_decodes row2 && BookRows.txt_coerces row2 = true ->
     BookRows.txt_key row2 = BookRows.txt_key row1 ->
     BookFileProcessor.txt_row n row2 now =
     Ok (mkSession (objects now) (created_count now)
           (errors_acc now
            ++ [("Line " ++ Py.str_of_nat n ++ ": Book with ISBN "
                 ++ BookRows.txt_key row2 ++ " already exists")%string])))
  /\ (forall cols row1 between now n row2,
        NoDup cols ->
        Cells.missing BookFileProcessor.expected_columns cols = [] ->
        committed_earlier (BookFileProcessor.excel_row cols) row1 between now ->
        BookRows.excel_candidate cols row2 = true ->
        BookRows.excel_coerces cols row2 = true ->
        BookRows.excel_key cols row2 = BookRows.excel_key cols row1 ->
        BookFileProcessor.excel_row cols n row2 now =
        Ok (mkSession (objects now) (created_count now)
              (errors_acc now
               ++ [("Row " ++ Py.str_of_nat (n + 2) ++ ": Book with ISBN "
                    ++ BookRows.excel_key cols row2 ++ " already exists")%string])))
  /\ (forall row1 between now n row2,
        committed_earlier UserFileProcessor.txt_row row1 between now ->
        UserRows.txt_candidate row2 = true ->
        UserRows.txt_decodes row2 = true ->
        (field row2 4 = field row1 4 ->
         UserFileProcessor.txt_row n row2 now =
         Ok (mkSession (objects now) (created_count now)
               (errors_acc now
                ++ [("Line " ++ Py.str_of_nat n ++ ": User with registration "
                     ++ field row2 4 ++ " already exists")%string])))
        /\ (field row2 1 = field row1 1 ->
            registration_exists (objects now) (field row2 4) = false ->
            UserFileProcessor.txt_row n row2 now =
            Ok (mkSession (objects now) (created_count now)
                  (errors_acc now
                   ++ [("Line " ++ Py.str_of_nat n ++ ": User with email "
                        ++ field row2 1 ++ " already exists")%string])))
        /\ (field row2 1 = field row1 1 ->
            registration_exists (objects now) (field row2 4) = true ->
            UserFileProcessor.txt_row n row2 now =
            Ok (mkSession (objects now) (created_count now)
                  (errors_acc now
                   ++ [("Line " ++ Py.str_of_nat n ++ ": User with registration "
                        ++ field row2 4 ++ " already exists")%string]))))
  /\ (forall cols row1 between now n row2,
        NoDup cols ->
        Cells.missing UserFileProcessor.expected_columns cols = [] ->
        committed_earlier (UserFileProcessor.excel_row cols) row1 between now ->
        UserRows.excel_candidate cols row2 = true ->
        (fst (UserRows.excel_key cols row2) = fst (UserRows.excel_key cols row1) ->
         UserFileProcessor.excel_row cols n row2 now =
         Ok (mkSession (objects now) (created_count now)
               (errors_acc now
                ++ [("Row " ++ Py.str_of_nat (n + 2) ++ ": User with registration "
                     ++ fst (UserRows.excel_key cols row2)
                     ++ " already exists")%string])))
        /\ (snd (UserRows.excel_key cols row2) = snd (UserRows.excel_key cols row1) ->
            registration_exists (objects now) (fst (UserRows.excel_key cols row2))
            = false ->
            UserFileProcessor.excel_row cols n row2 now =
            Ok (mkSession (objects now) (created_count now)
                  (errors_acc now
                   ++ [("Row " ++ Py.str_of_nat (n + 2) ++ ": User with email "
                        ++ snd (UserRows.excel_key cols row2)
                        ++ " already exists")%string])))
        /\ (snd (UserRows.excel_key cols row2) = snd (UserRows.excel_key cols row1) ->
            registration_exists (objects now) (fst (UserRows.excel_key cols row2))
            = true ->
            UserFileProcessor.excel_row cols n row2 now =
            Ok (mkSession (objects now) (created_count now)
                  (errors_acc now
                   ++ [("Row " ++ Py.str_of_nat (n + 2)
                        ++ ": User with registration "
                        ++ fst (UserRows.excel_key cols row2)
                        ++ " already exists")%string]))))
  /\ (forall file file_type before,
        NoDup (map isbn before) ->
        NoDup (map isbn
                 (persisted before
                    (BookFileProcessor.process_file file file_type before))))
  /\ (forall file file_type before,
        NoDup (map registration_number before) ->
        NoDup (map email before) ->
        NoDup (map registration_number
                 (persisted before
                    (UserFileProcessor.process_file file file_type before)))
        /\ NoDup (map email
                    (persisted before
                       (UserFileProcessor.process_file file file_type before)))).
Proof.
  split; [|split; [|split; [|split; [|split]]]].
  - intros. now apply book_txt_later_duplicate with row1 between.
  - intros. now apply book_excel_later_duplicate with row1 between.
  - intros row1 between now n row2 Hce Hc Hd.
    destruct (user_txt_later_duplicate row1 between now n row2 Hce Hc Hd)
      as (H1 & H2 & H3).
    split; [exact H1|]. split; [exact H2|]. intros _. exact H3.
  - intros cols row1 between now n row2 _ Hcols Hce Hc.
    destruct (user_excel_later_duplicate cols row1 between now n row2
                Hcols Hce Hc) as (H1 & H2 & H3).
    split; [exact H1|]. split; [exact H2|]. intros _. exact H3.
  - intros. now apply book_process_file_unique.
  - intros. now apply user_process_file_unique.
Qed.

Lemma clean_code_committed :
  committed_earlier (@BookFileProcessor.txt_row schema_backend)
    clean_code_line [] (mkSession [on_the_shelf] 1 []).
Proof.
  exists 2, (start []), (mkSession [on_the_shelf] 1 []), 3.
  split; [vm_compute; reflexivity|]. split; reflexivity.
Defined.

Lemma natural_keys_stay_unique_witness :
  committed_earlier (@BookFileProcessor.txt_row schema_backend)
    clean_code_line [] (mkSession [on_the_shelf] 1 [])
  /\ BookRows.txt_candidate clean_coder_line = true
  /\ BookRows.txt_decodes clean_coder_line
     && BookRows.txt_coerces clean_coder_line = true
  /\ BookRows.txt_key clean_coder_line = BookRows.txt_key clean_code_line
  /\ @BookFileProcessor.txt_row schema_backend 3 clean_coder_line
       (mkSession [on_the_shelf] 1 [])
     = Ok (mkSession [on_the_shelf] 1
             ["Line 3: Book with ISBN 9780132350884 already exists"]).
Proof.
  split; [exact clean_code_committed|].
  split; [vm_compute; reflexivity|]. split; [vm_compute; reflexivity|].
  split; [vm_compute; reflexivity|].
  exact (proj1 (natural_keys_stay_unique schema_backend)
           clean_code_line [] (mkSession [on_the_shelf] 1 []) 3 clean_coder_line
           clean_code_committed eq_refl eq_refl eq_refl).
Defined.

(** C9 as stated fails on a later row that repeats the ISBN of a committed
    row and does not coerce: the row is refused, but with the error of the
    coercion, which comes before the uniqueness check. *)
Lemma duplicate_that_does_not_coerce_counterexample :
  BookRows.txt_key clean_coder_bad_line = BookRows.txt_key clean_code_line
  /\ @BookFileProcessor.process_txt_file schema_backend
       (txt (book_header ++ nl ++ clean_code_line ++ nl ++ clean_coder_bad_line))
       []
     = Returned
         (mkOutcome true 1
            ["Line 3: invalid literal for int() with base 10: 'two'"])
         [on_the_shelf]
  /\ @BookFileProcessor.txt_row schema_backend 3 clean_coder_bad_line
       (mkSession [on_the_shelf] 1 [])
     <> Ok (mkSession [on_the_shelf] 1
              ["Line 3: Book with ISBN 9780132350884 already exists"]).
Proof.
  split; [vm_compute; reflexivity|].
  split; [vm_compute; reflexivity|vm_compute; discriminate].
Qed.

(** ** Empty author and e-mail cells *)

(** C10, as the code has it.  In the tabular variant, under labels that
    are distinct, a row with its
    primary identifying cells present and its author cell (Book) or e-mail
    cell (User) empty is not skipped, and the empty cell raises nothing: the
    record built from the row has the string 'nan' in that field, whereas an
    empty publisher, category, phone or address cell gives the empty string.
    The row is persisted with that record when the rest of it coerces
    (publication year and quantity of a book), the uniqueness check finds
    neither its key nor -- for a user -- the e-mail 'nan' itself in the
    collection, and the backend accepts the insert. *)
Theorem empty_author_or_email_is_nan (backend : Backend)
    (cols : list string) (idx : nat) (row : list Cell) :
  (forall st : Session Book,
     NoDup cols ->
     Cells.missing BookFileProcessor.expected_columns cols = [] ->
     BookRows.excel_candidate cols row = true ->
     Cells.isna (cell cols row "author") = true ->
     BookRows.excel_coerces cols row = true ->
     exists data,
       BookFileProcessor.excel_data cols row = Ok data
       /\ author data = "nan"
       /\ title data = Py.strip (Cells.str (cell cols row "title"))
       /\ isbn data = Py.strip (Cells.str (cell cols row "isbn"))
       /\ publisher data
          = (if Cells.isna (cell cols row "publisher") then ""
             else Py.strip (Cells.str (cell cols row "publisher")))
       /\ category data
          = (if Cells.isna (cell cols row "category") then ""
             else Py.strip (Cells.str (cell cols row "category")))
       /\ (isbn_exists (objects st) (isbn data) = false ->
           refuses_book (objects st) data = false ->
           BookFileProcessor.excel_row cols idx row st =
           Ok (mkSession (objects st ++ [data]) (S (created_count st))
                         (errors_acc st))))
  /\ (forall st : Session LibraryUser,
        NoDup cols ->
        Cells.missing UserFileProcessor.expected_columns cols = [] ->
        UserRows.excel_candidate cols row = true ->
        Cells.isna (cell cols row "email") = true ->
        exists data,
          UserFileProcessor.excel_data cols row = Ok data
          /\ email data = "nan"
          /\ full_name data = Py.strip (Cells.str (cell cols row "full_name"))
          /\ registration_number data
             = Py.strip (Cells.str (cell cols row "registration_number"))
          /\ phone data
             = (if Cells.isna (cell cols row "phone") then ""
                else Py.strip (Cells.str (cell cols row "phone")))
          /\ address data
             = (if Cells.isna (cell cols row "address") then ""
                else Py.strip (Cells.str (cell cols row "address")))
          /\ (registration_exists (objects st) (registration_number data) = false ->
              email_exists (objects st) "nan" = false ->
              refuses_user (objects st) data = false ->
              UserFileProcessor.excel_row cols idx row st =
              Ok (mkSession (objects st ++ [data]) (S (created_count st))
                            (errors_acc st)))).
Proof.
  split.
  - intros st _ Hcols Hc Ha Hco.
    pose proof (book_excel_decoded cols idx row Hcols Hc) as H.
    rewrite Hco in H. destruct H as (data & Hd & _).
    assert (BookFileProcessor.excel_data cols row = Ok data) as Hdata.
    { unfold BookRows.excel_decode in Hd. revert Hd. known_columns Hcols.
      unfold BookRows.excel_candidate, Cells.notna in Hc.
      destruct (Cells.isna (cell cols row "title")); [discriminate|].
      destruct (Cells.isna (cell cols row "isbn")); [discriminate|].
      destruct (BookFileProcessor.excel_data cols row) as [d|e];
        cbn [decoded_of]; [congruence|].
      destruct (caught_excel e); discriminate. }
    exists data. split; [exact Hdata|].
    rewrite (book_excel_data cols row Hcols) in Hdata.
    unfold BookRows.excel_coerces, converts in Hco. unfold Cells.notna in Hdata.
    destruct (cell cols row "author"); try discriminate.
    destruct (Cells.int (cell cols row "quantity")) as [q|e];
      [|rewrite andb_false_r in Hco; discriminate].
    assert (exists year,
              data = mkBook (Py.strip (Cells.str (cell cols row "title")))
                       (Py.strip (Cells.str NaN))
                       (Py.strip (Cells.str (cell cols row "isbn")))
                       (if negb (Cells.isna (cell cols row "publisher"))
                        then Py.strip (Cells.str (cell cols row "publisher"))
                        else "")
                       year
                       (if negb (Cells.isna (cell cols row "category"))
                        then Py.strip (Cells.str (cell cols row "category"))
                        else "")
                       q q) as (year & ->).
    { destruct (Cells.isna (cell cols row "publication_year")); cbn in Hdata.
      - inversion Hdata. eauto.
      - destruct (Cells.int (cell cols row "publication_year")); cbn in Hdata;
          [inversion Hdata; eauto|discriminate]. }
    cbn [author title isbn publisher category].
    split; [reflexivity|]. split; [reflexivity|]. split; [reflexivity|].
    split; [now destruct (Cells.isna (cell cols row "publisher"))|].
    split; [now destruct (Cells.isna (cell cols row "category"))|].
    intros Hfree Hacc.
    rewrite (book_excel_row_data cols idx row st _ Hd).
    unfold BookRows.conflict. cbn [isbn]. cbn [isbn] in Hfree.
    rewrite Hfree, Hacc. reflexivity.
  - intros st _ Hcols Hc Ha.
    destruct (user_excel_decoded cols idx row Hcols Hc) as (data & Hd & _).
    assert (UserFileProcessor.excel_data cols row = Ok data) as Hdata.
    { unfold UserRows.excel_decode in Hd. revert Hd. known_columns Hcols.
      unfold UserRows.excel_candidate, Cells.notna in Hc.
      destruct (Cells.isna (cell cols row "full_name")); [discriminate|].
      destruct (Cells.isna (cell cols row "registration_number"));
        [discriminate|].
      destruct (UserFileProcessor.excel_data cols row) as [d|e];
        cbn [decoded_of]; [congruence|].
      destruct (caught_excel e); discriminate. }
    exists data. split; [exact Hdata|].
    rewrite (user_excel_data cols row Hcols) in Hdata.
    inversion Hdata as [Hdef]. clear Hdata. subst data.
    unfold Cells.notna in *.
    destruct (cell cols row "email"); try discriminate.
    cbn [email full_name registration_number phone address].
    split; [reflexivity|]. split; [reflexivity|]. split; [reflexivity|].
    split; [now destruct (Cells.isna (cell cols row "phone"))|].
    split; [now destruct (Cells.isna (cell cols row "address"))|].
    intros Hfree Hmail Hacc.
    rewrite (user_excel_row_data cols idx row st _ Hd).
    unfold UserRows.conflict. cbn [registration_number email].
    change (Py.strip (Cells.str NaN)) with "nan" in *.
    rewrite Hfree, Hmail, Hacc. reflexivity.
Qed.

Lemma empty_author_or_email_is_nan_witness :
  NoDup book_sheet_columns
  /\ Cells.missing BookFileProcessor.expected_columns book_sheet_columns = []
  /\ BookRows.excel_candidate book_sheet_columns anonymous_row = true
  /\ Cells.isna (cell book_sheet_columns anonymous_row "author") = true
  /\ BookRows.excel_coerces book_sheet_columns anonymous_row = true
  /\ exists data,
       BookFileProcessor.excel_data book_sheet_columns anonymous_row = Ok data
       /\ author data = "nan"
       /\ title data
          = Py.strip (Cells.str (cell book_sheet_columns anonymous_row "title"))
       /\ isbn data
          = Py.strip (Cells.str (cell book_sheet_columns anonymous_row "isbn"))
       /\ publisher data
          = (if Cells.isna (cell book_sheet_columns anonymous_row "publisher")
             then ""
             else Py.strip
                    (Cells.str (cell book_sheet_columns anonymous_row "publisher")))
       /\ category data
          = (if Cells.isna (cell book_sheet_columns anonymous_row "category")
             then ""
             else Py.strip
                    (Cells.str (cell book_sheet_columns anonymous_row "category")))
       /\ (isbn_exists (objects (start [refactoring])) (isbn data) = false ->
           @refuses_book schema_backend (objects (start [refactoring])) data
           = false ->
           @BookFileProcessor.excel_row schema_backend book_sheet_columns 0
             anonymous_row (start [refactoring])
           = Ok (mkSession (objects (start [refactoring]) ++ [data])
                           (S (created_count (start [refactoring])))
                           (errors_acc (start [refactoring])))).
Proof.
  assert (NoDup book_sheet_columns) as Hnd
    by (apply distinct_NoDup; vm_compute; reflexivity).
  split; [exact Hnd|].
  split; [vm_compute; reflexivity|]. split; [vm_compute; reflexivity|].
  split; [vm_compute; reflexivity|]. split; [vm_compute; reflexivity|].
  apply (proj1 (empty_author_or_email_is_nan schema_backend book_sheet_columns
                  0 anonymous_row) (start [refactoring]) Hnd);
    vm_compute; reflexivity.
Defined.

(** That row, computed: it is persisted with the author 'nan', an empty
    publisher and an empty category. *)
Example anonymous_row_persisted :
  @BookFileProcessor.excel_row schema_backend book_sheet_columns 0
    anonymous_row (start [refactoring])
  = Ok (mkSession
          [refactoring;
           mkBook "Clean Code" "nan" "9780132350884" "" (Some 2008%Z) "" 5 5]
          1 []).
Proof. vm_compute. reflexivity. Qed.

(** C10 as stated fails on the second of two user rows without an e-mail:
    its primary cells are present and its e-mail cell is empty, yet it is
    reported as an error and not persisted, because the first row took the
    e-mail 'nan'. *)
Lemma second_empty_email_counterexample :
  UserRows.excel_candidate (columns two_without_email)
    [CStr "Bia Reis"; NaN; NaN; NaN; CStr "REG002"; NaN] = true
  /\ Cells.isna (cell (columns two_without_email)
                   [CStr "Bia Reis"; NaN; NaN; NaN; CStr "REG002"; NaN] "email")
     = true
  /\ @UserFileProcessor.process_excel_file schema_backend
       (sheet two_without_email) []
     = Returned
         (mkOutcome true 1 ["Row 3: User with email nan already exists"])
         [mkLibraryUser "Ana Lima" "nan" "" "" "REG001" true].
Proof.
  split; [vm_compute; reflexivity|].
  split; vm_compute; reflexivity.
Qed.

(** ** What [created] and [errors] count *)

(** Every candidate row is counted once, as passing or as failing; the
    other rows are not counted. *)
Lemma tally_total {Row K : Type} (candidate sound : Row -> bool)
    (key : Row -> K) (clash : K -> K -> bool) (rows : list Row) :
  forall seen,
    fst (tally candidate sound key clash seen rows)
    + snd (tally candidate sound key clash seen rows)
    = List.length (filter candidate rows).
Proof.
  induction rows as [|row rest IH]; intros seen; cbn [tally filter];
    [reflexivity|].
  destruct (candidate row); [|apply IH].
  destruct (passes sound key clash seen row).
  - specialize (IH (seen ++ [key row])).
    destruct (tally _ _ _ _ _ rest) as [p f]. cbn in *. lia.
  - specialize (IH seen).
    destruct (tally _ _ _ _ _ rest) as [p f]. cbn in *. lia.
Qed.

Section Counts.
Context {backend : Backend}.






End Counts.



(** The two counts of that upload, computed: one row passes, two fail. *)
Example mixed_books_tally :
  book_txt_tally []
    [clean_code_line; clean_coder_line; "Refactoring|Martin Fowler"] = (1, 2).
Proof. vm_compute. reflexivity. Qed.

(** ** An import returns when the backend refuses nothing *)

Section Returns.
Context {Row T : Type}.
Variable decode : nat -> Row -> Decoded T.
Variable conflict : nat -> list T -> T -> option string.
Variable refuses : list T -> T -> bool.

Hypothesis never_refuses : forall objs r, refuses objs r = false.

Lemma loop_returns rows :
  Forall (fun row => forall idx e, decode idx row <> Crash e) rows ->
  forall idx st,
    exists st', for_each (shaped decode conflict refuses) idx rows st = Ok st'.
Proof.
  induction 1 as [|row rest Hrow Hrest IH]; intros idx st; cbn [for_each];
    [eauto|].
  unfold shaped at 1.
  destruct (decode idx row) as [|msg|e|r] eqn:Hd; cbn [bind]; auto.
  - now apply Hrow in Hd.
  - destruct (conflict idx (objects st) r); cbn [bind]; auto.
    rewrite never_refuses. cbn [bind]. auto.
Qed.
End Returns.

Lemma book_txt_never_crashes idx line e : BookRows.txt_decode idx line <> Crash e.
Proof.
  destruct (BookRows.txt_candidate line) eqn:Hc.
  - pose proof (book_txt_decoded idx line Hc) as H.
    destruct (_ && _); [destruct H as (x & H & _)|destruct H as (x & H)];
      rewrite H; discriminate.
  - rewrite (book_txt_skip idx line Hc). discriminate.
Qed.

Lemma user_txt_never_crashes idx line e : UserRows.txt_decode idx line <> Crash e.
Proof.
  destruct (UserRows.txt_candidate line) eqn:Hc.
  - pose proof (user_txt_decoded idx line Hc) as H.
    destruct (UserRows.txt_decodes line);
      [destruct H as (x & H & _)|destruct H as (x & H)];
      rewrite H; discriminate.
  - rewrite (user_txt_skip idx line Hc). discriminate.
Qed.

Lemma user_excel_never_crashes cols idx row e :
  Cells.missing UserFileProcessor.expected_columns cols = [] ->
  UserRows.excel_decode cols idx row <> Crash e.
Proof.
  intros Hcols. destruct (UserRows.excel_candidate cols row) eqn:Hc.
  - destruct (user_excel_decoded cols idx row Hcols Hc) as (u & H & _).
    rewrite H. discriminate.
  - rewrite (user_excel_skip cols idx row Hcols Hc). discriminate.
Qed.

(** The only exception of [int] on a cell that a spreadsheet row does not
    catch comes from a cell that is neither text nor a number. *)
Lemma int_type_error c msg :
  Cells.int c = Raise (TypeError msg) ->
  exists type_name shown, c = CObject type_name shown.
Proof.
  destruct c; cbn [Cells.int]; intros H; try discriminate; eauto.
  destruct (of_str_raises _ _ H) as (m & Hm). discriminate.
Qed.

Lemma book_excel_crash cols idx row e :
  Cells.missing BookFileProcessor.expected_columns cols = [] ->
  BookRows.excel_decode cols idx row = Crash e ->
  (exists ty shown, cell cols row "publication_year" = CObject ty shown)
  \/ (exists ty shown, cell cols row "quantity" = CObject ty shown).
Proof.
  intros Hcols. unfold BookRows.excel_decode.
  rewrite (book_excel_data cols row Hcols). unfold Cells.notna.
  known_columns Hcols.
  destruct (Cells.isna (cell cols row "title")); [discriminate|].
  destruct (Cells.isna (cell cols row "isbn")); [discriminate|].
  destruct (Cells.isna (cell cols row "publication_year"));
    cbn [negb bind];
    [|destruct (Cells.int (cell cols row "publication_year")) as [y|e1] eqn:Hy;
      cbn [bind decoded_of]];
    try (destruct (Cells.int (cell cols row "quantity")) as [q|e2] eqn:Hq;
         cbn [bind decoded_of]);
    try discriminate;
    match goal with
    | H : Cells.int ?c = Raise ?x |- context [caught_excel ?x] =>
        destruct (int_raises _ _ H) as [[m ->]|[m ->]]; cbn;
        [discriminate|apply int_type_error in H; eauto]
    end.
Qed.

(** Whatever the text, the import of a decoded upload returns a dict when
    the backend accepts every insert the processor attempts; so does the
    import of a sheet that has labels, distinct once normalised, for users
    always and for books when no publication-year or quantity cell holds an
    object that [int] refuses. *)
Lemma imports_return (backend : Backend) file :
  (forall objs b, refuses_book objs b = false) ->
  (forall objs u, refuses_user objs u = false) ->
  (forall content,
     decoded file = Some content ->
     (forall before,
        exists o after,
          BookFileProcessor.process_txt_file file before = Returned o after)
     /\ (forall before,
           exists o after,
             UserFileProcessor.process_txt_file file before = Returned o after))
  /\ (forall df before,
        read_excel file = inr df ->
        columns df <> [] ->
        NoDup (Cells.normalize (columns df)) ->
        exists o after,
          UserFileProcessor.process_excel_file file before = Returned o after)
  /\ (forall df before,
        read_excel file = inr df ->
        columns df <> [] ->
        NoDup (Cells.normalize (columns df)) ->
        Forall (fun row =>
                  forall ty shown,
                    cell (Cells.normalize (columns df)) row "publication_year"
                    <> CObject ty shown
                    /\ cell (Cells.normalize (columns df)) row "quantity"
                       <> CObject ty shown)
               (rows df) ->
        exists o after,
          BookFileProcessor.process_excel_file file before = Returned o after).
Proof.
  intros Hb Hu. split; [|split].
  - intros content Hd. split; intros before.
    + unfold BookFileProcessor.process_txt_file. rewrite Hd.
      destruct (_ <? 2)%nat; [unfold rejected; eauto|].
      destruct (negb _); [unfold rejected; eauto|].
      rewrite (for_each_ext _ _ book_txt_row_shaped).
      destruct (loop_returns BookRows.txt_decode (BookRows.conflict line_no) _
                  Hb (tl (Py.split newline (Py.strip content))))
        with (idx := 2) (st := start before) as (st' & ->).
      * apply Forall_forall. intros. apply book_txt_never_crashes.
      * cbn [finish]. eauto.
    + unfold UserFileProcessor.process_txt_file. rewrite Hd.
      destruct (_ <? 2)%nat; [unfold rejected; eauto|].
      destruct (negb _); [unfold rejected; eauto|].
      rewrite (for_each_ext _ _ user_txt_row_shaped).
      destruct (loop_returns UserRows.txt_decode (UserRows.conflict line_no) _
                  Hu (tl (Py.split newline (Py.strip content))))
        with (idx := 2) (st := start before) as (st' & ->).
      * apply Forall_forall. intros. apply user_txt_never_crashes.
      * cbn [finish]. eauto.
  - intros df before Hr Hne _. unfold UserFileProcessor.process_excel_file.
    rewrite Hr. frame_labels df; [contradiction|].
    destruct (Cells.missing _ _) eqn:Hcols; [|unfold rejected; eauto].
    rewrite (for_each_ext _ _ (user_excel_row_shaped _)).
    destruct (loop_returns (UserRows.excel_decode (Cells.normalize (columns df)))
                (UserRows.conflict row_no) _ Hu (rows df))
      with (idx := 0) (st := start before) as (st' & ->).
    + apply Forall_forall. intros. now apply user_excel_never_crashes.
    + cbn [finish]. eauto.
  - intros df before Hr Hne _ Hcells.
    unfold BookFileProcessor.process_excel_file.
    rewrite Hr. frame_labels df; [contradiction|].
    destruct (Cells.missing _ _) eqn:Hcols; [|unfold rejected; eauto].
    rewrite (for_each_ext _ _ (book_excel_row_shaped _)).
    destruct (loop_returns (BookRows.excel_decode (Cells.normalize (columns df)))
                (BookRows.conflict row_no) _ Hb (rows df))
      with (idx := 0) (st := start before) as (st' & ->).
    + eapply Forall_impl; [|exact Hcells]. intros row Hrow idx e Hd.
      destruct (book_excel_crash _ _ _ _ Hcols Hd) as [(ty & s & Hs)|(ty & s & Hs)];
        destruct (Hrow ty s) as [H1 H2]; contradiction.
    + cbn [finish]. eauto.
Qed.

(** With the backend of the schema, a negative quantity passes [int] and the
    ISBN check and is refused by the database: the exception leaves the
    import and nothing of the upload is persisted, the first row included. *)
Example negative_quantity_propagates :
  let upload :=
    txt (book_header ++ nl ++ clean_code_line ++ nl
         ++ "Refactoring|Martin Fowler|9780201485677|Addison-Wesley|1999|Software Engineering|-3") in
  @BookFileProcessor.process_txt_file schema_backend upload []
  = Propagated DatabaseError
  /\ persisted [] (@BookFileProcessor.process_txt_file schema_backend upload [])
     = [].
Proof. split; vm_compute; reflexivity. Qed.

(* ===================================================================== *)
(** * What an import leaves behind *)
(* ===================================================================== *)

Section Added.
Context {Row T : Type}.
Variable decode : nat -> Row -> Decoded T.
Variable conflict : nat -> list T -> T -> option string.
Variable refuses : list T -> T -> bool.

(** The records a loop has added are [data] dicts of its rows, one for each
    unit of [created_count]. *)
Lemma loop_added rows :
  forall idx st st',
    for_each (shaped decode conflict refuses) idx rows st = Ok st' ->
    exists added,
      objects st' = objects st ++ added
      /\ created_count st' = created_count st + List.length added
      /\ Forall (fun r => exists i row, decode i row = Data r) added.
Proof.
  induction rows as [|row rest IH]; intros idx st st' H; cbn [for_each] in H.
  - inversion H; subst. exists []. rewrite app_nil_r, Nat.add_0_r. auto.
  - destruct (shaped decode conflict refuses idx row st) as [s1|e] eqn:Hb;
      [|discriminate].
    cbn [bind] in H. apply IH in H. destruct H as (added & Ho & Hc & Hf).
    unfold shaped in Hb.
    destruct (decode idx row) as [|msg|e|r] eqn:Hd.
    + inversion Hb; subst. eauto.
    + inversion Hb; subst. cbn in *. eauto.
    + discriminate.
    + destruct (conflict idx (objects st) r) as [msg|].
      * inversion Hb; subst. cbn in *. eauto.
      * destruct (refuses (objects st) r); [discriminate|].
        inversion Hb; subst. cbn in *.
        exists (r :: added). rewrite <- app_assoc in Ho. cbn in *.
        repeat split; auto; [lia|]. constructor; eauto.
Qed.

Lemma finish_added idx rows before :
  exists added,
    persisted before
      (finish (for_each (shaped decode conflict refuses) idx rows (start before)))
    = before ++ added
    /\ (forall o,
          returned (finish (for_each (shaped decode conflict refuses) idx rows
                                     (start before))) = Some o ->
          created o = List.length added)
    /\ Forall (fun r => exists i row, decode i row = Data r) added.
Proof.
  destruct (for_each _ idx rows (start before)) as [st'|e] eqn:H;
    cbn [finish persisted returned].
  - apply loop_added in H. destruct H as (added & Ho & Hc & Hf).
    exists added. cbn in *. repeat split; auto.
    intros o Ho'. inversion Ho'; subst. cbn. exact Hc.
  - exists []. rewrite app_nil_r. repeat split; auto. discriminate.
Qed.

Lemma rejected_added (P : T -> Prop) before msg :
  exists added,
    persisted before (rejected before msg) = before ++ added
    /\ (forall o, returned (rejected before msg) = Some o ->
                  created o = List.length added)
    /\ Forall P added.
Proof.
  exists []. cbn. rewrite app_nil_r. repeat split; auto.
  intros o H; inversion H; reflexivity.
Qed.

End Added.

Ltac split_binds :=
  repeat match goal with
         | H : context [bind ?m _] |- _ =>
             let E := fresh "E" in destruct m eqn:E; cbn [bind] in H
         | H : Raise _ = Ok _ |- _ => discriminate H
         end.

(** Both quantities of a [data] dict are the one [int(...)] of the row. *)
Lemma book_txt_data_whole fields b :
  BookFileProcessor.txt_data fields = Ok b ->
  available_quantity b = quantity b.
Proof.
  unfold BookFileProcessor.txt_data. intros H. split_binds.
  all: inversion H; subst; reflexivity.
Qed.

Lemma book_excel_data_whole cols row b :
  BookFileProcessor.excel_data cols row = Ok b ->
  available_quantity b = quantity b.
Proof.
  unfold BookFileProcessor.excel_data. intros H. split_binds.
  all: inversion H; subst; reflexivity.
Qed.

Lemma decoded_of_data {T : Type} caught where_ (r : Exc T) d :
  decoded_of caught where_ r = Data d -> r = Ok d.
Proof.
  destruct r as [x|e]; cbn.
  - intros H; now inversion H.
  - destruct (caught e); discriminate.
Qed.

Lemma book_txt_decode_whole idx line b :
  BookRows.txt_decode idx line = Data b -> available_quantity b = quantity b.
Proof.
  unfold BookRows.txt_decode.
  destruct (is_blank line); [discriminate|].
  destruct (negb _); [discriminate|].
  intros H. apply decoded_of_data in H. eapply book_txt_data_whole; eauto.
Qed.

Lemma book_excel_decode_whole cols idx row b :
  BookRows.excel_decode cols idx row = Data b ->
  available_quantity b = quantity b.
Proof.
  unfold BookRows.excel_decode.
  destruct (Cells.get cols row "title") as [t|e];
    [|intros H; apply decoded_of_data in H; discriminate].
  destruct (Cells.isna t); [discriminate|].
  destruct (Cells.get cols row "isbn") as [i|e];
    [|intros H; apply decoded_of_data in H; discriminate].
  destruct (Cells.isna i); [discriminate|].
  intros H. apply decoded_of_data in H. eapply book_excel_data_whole; eauto.
Qed.

Section Appends.
Context {backend : Backend}.

Lemma book_process_file_added file file_type before :
  exists added,
    persisted before (BookFileProcessor.process_file file file_type before)
    = before ++ added
    /\ (forall o,
          returned (BookFileProcessor.process_file file file_type before)
          = Some o -> created o = List.length added)
    /\ Forall (fun b => available_quantity b = quantity b) added.
Proof.
  unfold BookFileProcessor.process_file, BookFileProcessor.process_txt_file,
    BookFileProcessor.process_excel_file.
  destruct (String.eqb file_type "txt").
  - destruct (decoded file) as [content|].
    + destruct (_ <? 2)%nat; [apply rejected_added|].
      destruct (negb _); [apply rejected_added|].
      rewrite (for_each_ext _ _ book_txt_row_shaped).
      destruct (finish_added BookRows.txt_decode (BookRows.conflict line_no)
                  refuses_book 2 (tl (Py.split newline (Py.strip content)))
                  before) as (added & H1 & H2 & H3).
      exists added. repeat split; auto.
      eapply Forall_impl; [|exact H3].
      intros b (i & row & Hd). eapply book_txt_decode_whole; eauto.
    + exists []. cbn. rewrite app_nil_r. repeat split; auto. discriminate.
  - destruct (String.eqb file_type "excel"); [|apply rejected_added].
    destruct (read_excel file) as [e|df]; [apply rejected_added|].
    frame_labels df;
      [exists []; cbn; rewrite app_nil_r; repeat split; auto; discriminate|].
    destruct (Cells.missing _ _); [|apply rejected_added].
    rewrite (for_each_ext _ _ (book_excel_row_shaped _)).
    destruct (finish_added (BookRows.excel_decode (Cells.normalize (columns df)))
                (BookRows.conflict row_no)
                refuses_book 0 (rows df) before) as (added & H1 & H2 & H3).
    exists added. repeat split; auto.
    eapply Forall_impl; [|exact H3].
    intros b (i & row & Hd). eapply book_excel_decode_whole; eauto.
Qed.

Lemma user_process_file_added file file_type before :
  exists added,
    persisted before (UserFileProcessor.process_file file file_type before)
    = before ++ added
    /\ (forall o,
          returned (UserFileProcessor.process_file file file_type before)
          = Some o -> created o = List.length added).
Proof.
  unfold UserFileProcessor.process_file, UserFileProcessor.process_txt_file,
    UserFileProcessor.process_excel_file.
  destruct (String.eqb file_type "txt").
  - destruct (decoded file) as [content|].
    + destruct (_ <? 2)%nat;
        [destruct (rejected_added (fun _ => True) before too_short)
           as (a & ? & ? & _); eauto|].
      destruct (negb _);
        [destruct (rejected_added (fun _ => True) before
                     UserFileProcessor.invalid_header)
           as (a & ? & ? & _); eauto|].
      rewrite (for_each_ext _ _ user_txt_row_shaped).
      destruct (finish_added UserRows.txt_decode (UserRows.conflict line_no)
                  refuses_user 2 (tl (Py.split newline (Py.strip content)))
                  before) as (added & H1 & H2 & H3).
      eauto.
    + exists []. cbn. rewrite app_nil_r. repeat split; auto. discriminate.
  - destruct (String.eqb file_type "excel");
      [|destruct (rejected_added (fun _ => True) before
                    ("Unsupported file type: " ++ file_type))
          as (a & ? & ? & _); eauto].
    destruct (read_excel file) as [e|df];
      [destruct (rejected_added (fun _ => True) before
                   ("Error reading Excel file: " ++ e))
         as (a & ? & ? & _); eauto|].
    frame_labels df;
      [exists []; cbn; rewrite app_nil_r; repeat split; auto; discriminate|].
    destruct (Cells.missing _ _) as [|m ms] eqn:Em;
      [|destruct (rejected_added (fun _ => True) before
                    ("Missing required columns: "
                     ++ Py.join ", " (set_order (m :: ms))))
          as (a & ? & ? & _); eauto].
    rewrite (for_each_ext _ _ (user_excel_row_shaped _)).
    destruct (finish_added (UserRows.excel_decode (Cells.normalize (columns df)))
                (UserRows.conflict row_no)
                refuses_user 0 (rows df) before) as (added & H1 & H2 & H3).
    eauto.
Qed.

End Appends.

(** X1.  An import only appends.  Whatever the upload and the file type,
    the collection after a call of [process_file] is the collection before
    it followed by the records the call added: no record is changed,
    removed or moved.  When the call returns its dict, [created] is the
    number of records added; when an exception leaves it, nothing is added.
    Every book that is added has all its copies available. *)
Theorem import_only_appends (backend : Backend) (file : UploadedFile)
    (file_type : string) :
  (forall before,
     exists added,
       persisted before (BookFileProcessor.process_file file file_type before)
       = before ++ added
       /\ (forall o,
             returned (BookFileProcessor.process_file file file_type before)
             = Some o -> created o = List.length added)
       /\ (returned (BookFileProcessor.process_file file file_type before)
           = None -> added = [])
       /\ Forall (fun b => available_quantity b = quantity b) added)
  /\ (forall before,
        exists added,
          persisted before (UserFileProcessor.process_file file file_type before)
          = before ++ added
          /\ (forall o,
                returned (UserFileProcessor.process_file file file_type before)
                = Some o -> created o = List.length added)
          /\ (returned (UserFileProcessor.process_file file file_type before)
              = None -> added = [])).
Proof.
  split; intros before.
  - destruct (book_process_file_added file file_type before)
      as (added & H1 & H2 & H3).
    exists added. repeat split; auto.
    destruct (BookFileProcessor.process_file file file_type before);
      [discriminate|].
    intros _. cbn in H1. rewrite <- (app_nil_r before) in H1 at 1.
    now apply app_inv_head in H1.
  - destruct (user_process_file_added file file_type before)
      as (added & H1 & H2).
    exists added. repeat split; auto.
    destruct (UserFileProcessor.process_file file file_type before);
      [discriminate|].
    intros _. cbn in H1. rewrite <- (app_nil_r before) in H1 at 1.
    now apply app_inv_head in H1.
Qed.

(** ** Lookups by a unique key *)

Section Lookup.
Context {A : Type}.
Variable key : A -> string.

Lemma filter_absent x objs :
  ~ In x (map key objs) ->
  filter (fun a => String.eqb (key a) x) objs = [].
Proof.
  induction objs as [|a rest IH]; cbn; [reflexivity|].
  intros H. destruct (String.eqb (key a) x) eqn:E.
  - apply String.eqb_eq in E. tauto.
  - apply IH. tauto.
Qed.

Lemma filter_unique x objs :
  NoDup (map key objs) ->
  filter (fun a => String.eqb (key a) x) objs = []
  \/ exists a, filter (fun a => String.eqb (key a) x) objs = [a].
Proof.
  induction objs as [|a rest IH]; cbn; [auto|].
  intros H. inversion H as [|k ks Hnin Hnd]; subst.
  destruct (String.eqb (key a) x) eqn:E.
  - apply String.eqb_eq in E. subst x.
    rewrite (filter_absent _ _ Hnin). eauto.
  - auto.
Qed.

Lemma filter_exists x objs :
  existsb (fun a => String.eqb (key a) x) objs = false <->
  filter (fun a => String.eqb (key a) x) objs = [].
Proof.
  induction objs as [|a rest IH]; cbn; [tauto|].
  destruct (String.eqb (key a) x); cbn; [split; discriminate|exact IH].
Qed.

(** On a collection without two rows of one key, a lookup by key is never
    ambiguous; it gives a row of that key, or nothing when the collection
    has none. *)
Lemma lookup_unique x objs :
  NoDup (map key objs) ->
  exists found,
    or_none (objects_get (fun a => String.eqb (key a) x) objs) = Gave found
    /\ (found = None <->
        existsb (fun a => String.eqb (key a) x) objs = false)
    /\ (forall a, found = Some a -> In a objs /\ key a = x).
Proof.
  intros Hnd. unfold objects_get.
  destruct (filter_unique x objs Hnd) as [E|[a E]].
  - rewrite E. exists None. cbn. split; [reflexivity|]. split.
    + split; [intros _; now apply filter_exists|reflexivity].
    + discriminate.
  - pose proof (filter_exists x objs) as Hx.
    assert (In a (filter (fun a => String.eqb (key a) x) objs)) as Hin
        by (rewrite E; now left).
    apply filter_In in Hin. destruct Hin as [Hin Hk].
    apply String.eqb_eq in Hk.
    rewrite E in *. exists (Some a). cbn. split; [reflexivity|]. split.
    + split; [discriminate|].
      intros H. apply Hx in H. discriminate.
    + intros a' H. inversion H; subst. now split.
Qed.

(** What a lookup found is what it finds after rows were added, as long as
    no two rows have one key. *)
Lemma lookup_kept x objs added a :
  NoDup (map key (objs ++ added)) ->
  or_none (objects_get (fun a => String.eqb (key a) x) objs) = Gave (Some a) ->
  or_none (objects_get (fun a => String.eqb (key a) x) (objs ++ added))
  = Gave (Some a).
Proof.
  intros Hnd H. unfold objects_get in *. rewrite filter_app.
  destruct (filter (fun a => String.eqb (key a) x) objs) as [|b [|c rest]] eqn:E;
    cbn in H; try discriminate.
  inversion H; subst b.
  assert (In a (filter (fun a => String.eqb (key a) x) objs)) as Hin
      by (rewrite E; now left).
  apply filter_In in Hin. destruct Hin as [Hin Hk].
  apply String.eqb_eq in Hk.
  rewrite filter_absent; [reflexivity|].
  rewrite map_app in Hnd. intros Hx.
  revert Hnd. clear - Hin Hk Hx. intros Hnd.
  induction objs as [|o objs IH]; [contradiction|].
  cbn in Hnd. inversion Hnd as [|k ks Hn Hnd']; subst.
  destruct Hin as [->|Hin].
  - apply Hn. apply in_or_app. now right.
  - auto.
Qed.

End Lookup.

(** X2.  [BookRepository.get_by_isbn] after an import.  When no two books
    of the collection share an ISBN before an import, the lookup of any ISBN
    in the collection the import leaves never raises
    [MultipleObjectsReturned]: it returns [None] exactly when no book has
    that ISBN, and otherwise a book of the collection with that ISBN.  A
    book that the lookup found before the import is the one it finds after
    it. *)
Theorem lookup_after_import (backend : Backend) (file : UploadedFile)
    (file_type : string) (before : list Book) (x : string) :
  NoDup (map isbn before) ->
  exists found,
    BookRepository.get_by_isbn
      (persisted before (BookFileProcessor.process_file file file_type before))
      x = Gave found
    /\ (found = None <->
        isbn_exists
          (persisted before
             (BookFileProcessor.process_file file file_type before)) x = false)
    /\ (forall b,
          found = Some b ->
          In b (persisted before
                  (BookFileProcessor.process_file file file_type before))
          /\ isbn b = x)
    /\ (forall b,
          BookRepository.get_by_isbn before x = Gave (Some b) ->
          found = Some b).
Proof.
  intros Hnd.
  pose proof (book_process_file_unique file file_type before Hnd) as Hu.
  destruct (lookup_unique isbn x _ Hu) as (found & Hf & Hn & Hs).
  exists found. split; [exact Hf|]. split; [exact Hn|]. split; [exact Hs|].
  intros b Hb. unfold BookRepository.get_by_isbn in *.
  destruct (book_process_file_added file file_type before) as (added & Hp & _).
  rewrite Hp in Hu, Hf.
  rewrite (lookup_kept isbn x before added b Hu Hb) in Hf. congruence.
Qed.

Lemma lookup_after_import_witness :
  NoDup (map isbn [on_the_shelf])
  /\ exists found,
       BookRepository.get_by_isbn
         (persisted [on_the_shelf]
            (@BookFileProcessor.process_file schema_backend two_books "txt"
               [on_the_shelf]))
         "9780201485677" = Gave found
       /\ (found = None <->
           isbn_exists
             (persisted [on_the_shelf]
                (@BookFileProcessor.process_file schema_backend two_books "txt"
                   [on_the_shelf])) "9780201485677" = false)
       /\ (forall b,
             found = Some b ->
             In b (persisted [on_the_shelf]
                     (@BookFileProcessor.process_file schema_backend two_books
                        "txt" [on_the_shelf]))
             /\ isbn b = "9780201485677")
       /\ (forall b,
             BookRepository.get_by_isbn [on_the_shelf] "9780201485677"
             = Gave (Some b) ->
             found = Some b).
Proof.
  assert (NoDup (map isbn [on_the_shelf])) as H
    by (simpl; constructor; [intros []|constructor]).
  split; [exact H|].
  exact (lookup_after_import schema_backend two_books "txt" [on_the_shelf]
           "9780201485677" H).
Defined.

(** X3.  [UserRepository.get_by_registration_number] and
    [UserRepository.get_by_email] after an import.  When no two users of
    the collection share a registration number and no two share an e-mail
    before an import, neither lookup raises [MultipleObjectsReturned] on
    the collection the import leaves: each returns [None] exactly when no
    user has the key, and a user that it found before the import is the one
    it finds after it. *)
Theorem user_lookup_after_import (backend : Backend) (file : UploadedFile)
    (file_type : string) (before : list LibraryUser) (x : string) :
  NoDup (map registration_number before) ->
  NoDup (map email before) ->
  (exists found,
     UserRepository.get_by_registration_number
       (persisted before (UserFileProcessor.process_file file file_type before))
       x = Gave found
     /\ (found = None <->
         registration_exists
           (persisted before
              (UserFileProcessor.process_file file file_type before)) x = false)
     /\ (forall u,
           UserRepository.get_by_registration_number before x = Gave (Some u) ->
           found = Some u))
  /\ (exists found,
        UserRepository.get_by_email
          (persisted before (UserFileProcessor.process_file file file_type before))
          x = Gave found
        /\ (found = None <->
            email_exists
              (persisted before
                 (UserFileProcessor.process_file file file_type before)) x = false)
        /\ (forall u,
              UserRepository.get_by_email before x = Gave (Some u) ->
              found = Some u)).
Proof.
  intros Hr He.
  destruct (user_process_file_unique file file_type before Hr He) as [Ur Ue].
  destruct (user_process_file_added file file_type before) as (added & Hp & _).
  split.
  - destruct (lookup_unique registration_number x _ Ur) as (found & Hf & Hn & _).
    exists found. split; [exact Hf|]. split; [exact Hn|].
    intros u Hu. unfold UserRepository.get_by_registration_number in *.
    rewrite Hp in Ur, Hf.
    rewrite (lookup_kept registration_number x before added u Ur Hu) in Hf.
    congruence.
  - destruct (lookup_unique email x _ Ue) as (found & Hf & Hn & _).
    exists found. split; [exact Hf|]. split; [exact Hn|].
    intros u Hu. unfold UserRepository.get_by_email in *.
    rewrite Hp in Ue, Hf.
    rewrite (lookup_kept email x before added u Ue Hu) in Hf.
    congruence.
Qed.

Lemma user_lookup_after_import_witness :
  NoDup (map registration_number [joao])
  /\ NoDup (map email [joao])
  /\ (exists found,
        UserRepository.get_by_registration_number
          (persisted [joao]
             (@UserFileProcessor.process_file schema_backend
                (sheet two_without_email) "excel" [joao]))
          "REG001" = Gave found
        /\ (found = None <->
            registration_exists
              (persisted [joao]
                 (@UserFileProcessor.process_file schema_backend
                    (sheet two_without_email) "excel" [joao])) "REG001" = false)
        /\ (forall u,
              UserRepository.get_by_registration_number [joao] "REG001"
              = Gave (Some u) ->
              found = Some u))
  /\ (exists found,
        UserRepository.get_by_email
          (persisted [joao]
             (@UserFileProcessor.process_file schema_backend
                (sheet two_without_email) "excel" [joao]))
          "REG001" = Gave found
        /\ (found = None <->
            email_exists
              (persisted [joao]
                 (@UserFileProcessor.process_file schema_backend
                    (sheet two_without_email) "excel" [joao])) "REG001" = false)
        /\ (forall u,
              UserRepository.get_by_email [joao] "REG001" = Gave (Some u) ->
              found = Some u)).
Proof.
  assert (NoDup (map registration_number [joao])) as Hr
    by (simpl; constructor; [intros []|constructor]).
  assert (NoDup (map email [joao])) as He
    by (simpl; constructor; [intros []|constructor]).
  split; [exact Hr|]. split; [exact He|].
  exact (user_lookup_after_import schema_backend (sheet two_without_email)
           "excel" [joao] "REG001" Hr He).
Defined.

(** ** The upload views *)

Lemma upload_response_inv noun o response :
  upload_response noun o = response ->
  success o = (0 <? created o)%nat ->
  upload_created response = created o
  /\ upload_errors response = errors o
  /\ (http_status response = 201 <-> 0 < created o)
  /\ (http_status response = 400 <-> created o = 0)
  /\ (0 < created o ->
      upload_message response =
      ("Successfully imported " ++ Py.str_of_nat (created o) ++ " " ++ noun)%string).
Proof.
  intros <- Hs. unfold upload_response. rewrite Hs.
  destruct (0 <? created o)%nat eqn:E; cbn.
  - apply Nat.ltb_lt in E. repeat split; auto; try lia; discriminate.
  - apply Nat.ltb_ge in E. repeat split; auto; try lia; discriminate.
Qed.

(** X4.  The response of a bulk upload.  When [BookViewSet.bulk_upload] or
    [LibraryUserViewSet.bulk_upload] answers, the collection is the one
    from before the request followed by the records added, and [created] in
    the body is their number.  The status is 201 exactly when a record was
    added, with the message that gives that number, and 400 exactly when
    none was: a 400 answer has left the collection as it was. *)
Theorem upload_response_follows_import (backend : Backend)
    (file : UploadedFile) (file_type : string) :
  (forall before response after,
     book_bulk_upload file file_type before = Responded response after ->
     exists added,
       after = before ++ added
       /\ upload_created response = List.length added
       /\ (http_status response = 201 <-> added <> [])
       /\ (http_status response = 400 <-> added = [])
       /\ (added <> [] ->
           upload_message response =
           ("Successfully imported " ++ Py.str_of_nat (List.length added)
            ++ " books")%string))
  /\ (forall before response after,
        user_bulk_upload file file_type before = Responded response after ->
        exists added,
          after = before ++ added
          /\ upload_created response = List.length added
          /\ (http_status response = 201 <-> added <> [])
          /\ (http_status response = 400 <-> added = [])
          /\ (added <> [] ->
              upload_message response =
              ("Successfully imported " ++ Py.str_of_nat (List.length added)
               ++ " users")%string)).
Proof.
  split; intros before response after H.
  - unfold book_bulk_upload, serve in H.
    destruct (book_process_file_added file file_type before)
      as (added & Hp & Hc & _).
    pose proof (book_process_file_success file file_type before) as Hs.
    destruct (BookFileProcessor.process_file file file_type before)
      as [o objs|e]; [|discriminate].
    inversion H; subst. cbn in Hp, Hc, Hs.
    specialize (Hc o eq_refl). specialize (Hs o eq_refl).
    destruct (upload_response_inv "books" o _ eq_refl Hs)
      as (H1 & _ & H3 & H4 & H5).
    exists added. rewrite Hc in *.
    assert (0 < List.length added <-> added <> [])
      by (destruct added; cbn; split; intros; try lia; congruence).
    assert (List.length added = 0 <-> added = [])
      by (destruct added; cbn; split; intros; try lia; congruence).
    repeat split; try tauto.
  - unfold user_bulk_upload, serve in H.
    destruct (user_process_file_added file file_type before)
      as (added & Hp & Hc).
    pose proof (user_process_file_success file file_type before) as Hs.
    destruct (UserFileProcessor.process_file file file_type before)
      as [o objs|e]; [|discriminate].
    inversion H; subst. cbn in Hp, Hc, Hs.
    specialize (Hc o eq_refl). specialize (Hs o eq_refl).
    destruct (upload_response_inv "users" o _ eq_refl Hs)
      as (H1 & _ & H3 & H4 & H5).
    exists added. rewrite Hc in *.
    assert (0 < List.length added <-> added <> [])
      by (destruct added; cbn; split; intros; try lia; congruence).
    assert (List.length added = 0 <-> added = [])
      by (destruct added; cbn; split; intros; try lia; congruence).
    repeat split; try tauto.
Qed.

(** ** Line ends *)

Lemma lstrip_crlf s : Py.lstrip (crlf s) = crlf (Py.lstrip s).
Proof.
  induction s as [|c s IH]; [reflexivity|].
  cbn [crlf]. destruct (Ascii.eqb c newline) eqn:E.
  - apply Ascii.eqb_eq in E. subst c. cbn. exact IH.
  - cbn [Py.lstrip]. destruct (Py.is_space c); [exact IH|].
    cbn [crlf]. now rewrite E.
Qed.

Lemma rstrip_crlf s : Py.rstrip (crlf s) = crlf (Py.rstrip s).
Proof.
  induction s as [|c s IH]; [reflexivity|].
  cbn [crlf]. destruct (Ascii.eqb c newline) eqn:E.
  - apply Ascii.eqb_eq in E. subst c.
    cbn [Py.rstrip]. rewrite IH.
    destruct (Py.rstrip s) as [|d r]; [reflexivity|].
    cbn [crlf]. destruct (Ascii.eqb d newline); reflexivity.
  - cbn [Py.rstrip]. rewrite IH.
    destruct (Py.rstrip s) as [|d r].
    + cbn [crlf]. destruct (Py.is_space c); cbn [crlf]; [reflexivity|].
      now rewrite E.
    + cbn [crlf]. rewrite E.
      destruct (Ascii.eqb d newline); reflexivity.
Qed.

Lemma strip_crlf s : Py.strip (crlf s) = crlf (Py.strip s).
Proof. unfold Py.strip. now rewrite lstrip_crlf, rstrip_crlf. Qed.

(** The lines of a text with CR LF line ends are the lines of the text,
    each but the last with a carriage return at its end. *)
Lemma split_crlf s :
  Py.split newline (crlf s) = add_cr (Py.split newline s).
Proof.
  induction s as [|c s IH]; [reflexivity|].
  cbn [crlf]. destruct (Ascii.eqb c newline) eqn:E.
  - apply Ascii.eqb_eq in E. subst c.
    rewrite (split_cons newline "013"), (split_cons newline newline (crlf s)).
    rewrite (split_cons newline newline s).
    cbn [Ascii.eqb Bool.eqb newline hd tl]. rewrite IH.
    destruct (Py.split newline s) eqn:Es; [now apply split_nonempty in Es|].
    reflexivity.
  - rewrite !split_cons, E, IH.
    destruct (Py.split newline s) as [|h t] eqn:Es;
      [now apply split_nonempty in Es|].
    destruct t; reflexivity.
Qed.

Lemma rstrip_cr l : Py.rstrip (l ++ String "013" EmptyString) = Py.rstrip l.
Proof.
  induction l as [|c l IH]; [reflexivity|].
  cbn [String.append Py.rstrip]. now rewrite IH.
Qed.

Lemma strip_cr l : Py.strip (l ++ String "013" EmptyString) = Py.strip l.
Proof.
  unfold Py.strip. rewrite <- !lstrip_rstrip. now rewrite rstrip_cr.
Qed.

Lemma add_cr_length ls : List.length (add_cr ls) = List.length ls.
Proof.
  induction ls as [|l [|l2 rest] IH]; cbn [add_cr List.length] in *; auto.
Qed.

Lemma add_cr_hd ls : Py.strip (hd "" (add_cr ls)) = Py.strip (hd "" ls).
Proof.
  destruct ls as [|l [|l2 rest]]; cbn [add_cr hd]; auto using strip_cr.
Qed.

Lemma add_cr_tl ls : tl (add_cr ls) = add_cr (tl ls).
Proof.
  destruct ls as [|l [|l2 rest]]; reflexivity.
Qed.

Lemma for_each_add_cr {T : Type}
    (body : nat -> string -> Session T -> Exc (Session T)) :
  (forall idx l l' st, Py.strip l = Py.strip l' -> body idx l st = body idx l' st) ->
  forall ls idx st,
    for_each body idx (add_cr ls) st = for_each body idx ls st.
Proof.
  intros H. induction ls as [|l [|l2 rest] IH]; intros idx st; try reflexivity.
  cbn [add_cr for_each] in *.
  rewrite (H idx _ l st (strip_cr l)).
  destruct (body idx l st); cbn [bind]; auto.
Qed.

(** X5.  Line ends.  A text upload in which every line feed is preceded by
    a carriage return is imported as the same text with bare line feeds:
    [process_txt_file] gives the same result, with the same records, the
    same messages and the same line numbers, for books and for users. *)
Theorem carriage_returns_make_no_difference (backend : Backend)
    (file : UploadedFile) (content : string) :
  decoded file = Some content ->
  (forall before,
     BookFileProcessor.process_txt_file (with_text file (crlf content)) before
     = BookFileProcessor.process_txt_file file before)
  /\ (forall before,
        UserFileProcessor.process_txt_file (with_text file (crlf content)) before
        = UserFileProcessor.process_txt_file file before).
Proof.
  intros Hd. split; intros before.
  - unfold BookFileProcessor.process_txt_file. rewrite Hd.
    cbn [with_text decoded].
    rewrite strip_crlf, split_crlf, add_cr_length, add_cr_hd, add_cr_tl.
    rewrite (for_each_add_cr _ book_txt_row_strip). reflexivity.
  - unfold UserFileProcessor.process_txt_file. rewrite Hd.
    cbn [with_text decoded].
    rewrite strip_crlf, split_crlf, add_cr_length, add_cr_hd, add_cr_tl.
    rewrite (for_each_add_cr _ user_txt_row_strip). reflexivity.
Qed.

Lemma carriage_returns_make_no_difference_witness :
  decoded two_books = Some two_books_content
  /\ (forall before,
        @BookFileProcessor.process_txt_file schema_backend
          (with_text two_books (crlf two_books_content)) before
        = @BookFileProcessor.process_txt_file schema_backend two_books before)
  /\ (forall before,
        @UserFileProcessor.process_txt_file schema_backend
          (with_text two_books (crlf two_books_content)) before
        = @UserFileProcessor.process_txt_file schema_backend two_books before).
Proof.
  split; [reflexivity|].
  exact (carriage_returns_make_no_difference schema_backend two_books
           two_books_content eq_refl).
Defined.

(** ** The labels and the columns of a sheet *)

Lemma lower_char_space c : Py.is_space (Py.lower_char c) = Py.is_space c.
Proof.
  destruct c as [[] [] [] [] [] [] [] []]; vm_compute; reflexivity.
Qed.

Lemma lower_char_idem c : Py.lower_char (Py.lower_char c) = Py.lower_char c.
Proof.
  destruct c as [[] [] [] [] [] [] [] []]; vm_compute; reflexivity.
Qed.

Lemma lower_idem s : Py.lower (Py.lower s) = Py.lower s.
Proof.
  induction s as [|c s IH]; cbn; [reflexivity|].
  now rewrite lower_char_idem, IH.
Qed.

Lemma lower_lstrip s : Py.lower (Py.lstrip s) = Py.lstrip (Py.lower s).
Proof.
  induction s as [|c s IH]; cbn; [reflexivity|].
  rewrite lower_char_space. destruct (Py.is_space c); [exact IH|reflexivity].
Qed.

Lemma lower_rstrip s : Py.lower (Py.rstrip s) = Py.rstrip (Py.lower s).
Proof.
  induction s as [|c s IH]; cbn [Py.lower Py.rstrip]; [reflexivity|].
  rewrite <- IH, lower_char_space.
  destruct (Py.rstrip s); cbn [Py.lower]; [|reflexivity].
  destruct (Py.is_space c); reflexivity.
Qed.

Lemma lower_strip s : Py.lower (Py.strip s) = Py.strip (Py.lower s).
Proof. unfold Py.strip. now rewrite lower_rstrip, lower_lstrip. Qed.

Lemma strip_idem s : Py.strip (Py.strip s) = Py.strip s.
Proof.
  unfold Py.strip. rewrite lstrip_rstrip, lstrip_idem. apply rstrip_idem.
Qed.

Lemma normalize_lower cols :
  Cells.normalize (map Py.lower cols) = Cells.normalize cols.
Proof.
  unfold Cells.normalize. rewrite map_map. apply map_ext.
  intros c. now rewrite lower_idem.
Qed.

Lemma normalize_strip cols :
  Cells.normalize (map Py.strip cols) = Cells.normalize cols.
Proof.
  unfold Cells.normalize. rewrite map_map. apply map_ext.
  intros c. now rewrite lower_strip, strip_idem.
Qed.

Lemma normalize_idem cols :
  Cells.normalize (Cells.normalize cols) = Cells.normalize cols.
Proof.
  unfold Cells.normalize. rewrite map_map. apply map_ext.
  intros c. now rewrite lower_strip, lower_idem, strip_idem.
Qed.

(** X6.  The labels of a sheet count in lower case and without the white
    space around them.  Take a sheet whose labels are distinct once they
    are in lower case and stripped, none of them blank.  The sheet with
    all its labels put in lower case, or all stripped, or both, has
    distinct labels too, and it is imported as the sheet itself:
    [process_excel_file] gives the same result, for books and for users. *)
Theorem sheet_labels_match_in_normal_form (backend : Backend)
    (file : UploadedFile) (df : DataFrame) (f : string -> string) :
  read_excel file = inr df ->
  NoDup (Cells.normalize (columns df)) ->
  Forall (fun c => is_blank c = false) (columns df) ->
  f = Py.lower \/ f = Py.strip \/ f = (fun c => Py.strip (Py.lower c)) ->
  NoDup (columns (relabel f df))
  /\ NoDup (Cells.normalize (columns (relabel f df)))
  /\ (forall before,
     BookFileProcessor.process_excel_file (with_frame file (relabel f df)) before
     = BookFileProcessor.process_excel_file file before)
  /\ (forall before,
        UserFileProcessor.process_excel_file (with_frame file (relabel f df)) before
        = UserFileProcessor.process_excel_file file before).
Proof.
  intros Hr Hnd _ Hf.
  assert (Cells.normalize (map f (columns df)) = Cells.normalize (columns df))
    as Hn.
  { destruct Hf as [->|[->| ->]].
    - apply normalize_lower.
    - apply normalize_strip.
    - apply normalize_idem. }
  assert (forall (A : Type) (x y : A),
            match map f (columns df) with [] => x | _ :: _ => y end
            = match columns df with [] => x | _ :: _ => y end) as Hm
    by (intros; destruct (columns df); reflexivity).
  cbn [relabel columns]. rewrite Hn.
  split; [|split; [exact Hnd|split; intros before]].
  - apply (NoDup_map_inv (fun c => Py.strip (Py.lower c))).
    fold (Cells.normalize (map f (columns df))). now rewrite Hn.
  - unfold BookFileProcessor.process_excel_file. rewrite Hr.
    cbn [with_frame read_excel relabel columns rows]. now rewrite Hn, Hm.
  - unfold UserFileProcessor.process_excel_file. rewrite Hr.
    cbn [with_frame read_excel relabel columns rows]. now rewrite Hn, Hm.
Qed.

Lemma sheet_labels_match_in_normal_form_witness :
  read_excel (sheet two_without_email) = inr two_without_email
  /\ NoDup (Cells.normalize (columns two_without_email))
  /\ Forall (fun c => is_blank c = false) (columns two_without_email)
  /\ NoDup (columns (relabel Py.strip two_without_email))
  /\ NoDup (Cells.normalize (columns (relabel Py.strip two_without_email)))
  /\ (forall before,
        @BookFileProcessor.process_excel_file schema_backend
          (with_frame (sheet two_without_email)
                      (relabel Py.strip two_without_email)) before
        = @BookFileProcessor.process_excel_file schema_backend
            (sheet two_without_email) before)
  /\ (forall before,
        @UserFileProcessor.process_excel_file schema_backend
          (with_frame (sheet two_without_email)
                      (relabel Py.strip two_without_email)) before
        = @UserFileProcessor.process_excel_file schema_backend
            (sheet two_without_email) before).
Proof.
  assert (NoDup (Cells.normalize (columns two_without_email))) as Hnd
    by (apply distinct_NoDup; vm_compute; reflexivity).
  assert (Forall (fun c => is_blank c = false) (columns two_without_email))
    as Hnb by (repeat constructor).
  split; [reflexivity|]. split; [exact Hnd|]. split; [exact Hnb|].
  exact (sheet_labels_match_in_normal_form schema_backend
           (sheet two_without_email) two_without_email Py.strip eq_refl
           Hnd Hnb (or_intror (or_introl eq_refl))).
Defined.






Section Column.
Context {backend : Backend}.



End Column.





(** X8.  The two formats do not read [is_active] alike.  A text that is
    not empty and is none of true, 1 and yes once stripped and put in lower
    case (the word no, say, or false) makes the user inactive in a text
    row, and active in a row of a sheet, where any text that is not empty
    is true; and an empty field makes the user inactive in a text row,
    where an empty cell makes it active. *)
Theorem is_active_text_and_sheet_disagree (fields : list string)
    (cols : list string) (row : list Cell) (s : string) (c : Cell)
    (from_text from_sheet : LibraryUser) :
  nth_error fields 5 = Some s ->
  Cells.get cols row "is_active" = Ok c ->
  (c = NaN /\ s = "") \/ (c = CStr s /\ s <> "") ->
  Py.mem (Py.lower (Py.strip s)) ["true"; "1"; "yes"] = false ->
  UserFileProcessor.txt_data fields = Ok from_text ->
  UserFileProcessor.excel_data cols row = Ok from_sheet ->
  is_active from_text = false /\ is_active from_sheet = true.
Proof.
  intros Hs Hc Hor Hm Ht Hx. split.
  - unfold UserFileProcessor.txt_data, item in Ht. rewrite Hs in Ht.
    split_binds. inversion Ht; subst. cbn [is_active]. exact Hm.
  - unfold UserFileProcessor.excel_data in Hx. rewrite Hc in Hx.
    split_binds. inversion Hx; subst. cbn [is_active].
    destruct Hor as [[-> _]|[-> Hne]]; cbn; [reflexivity|].
    destruct (String.eqb_spec s ""); [contradiction|reflexivity].
Qed.

Lemma is_active_text_and_sheet_disagree_witness :
  is_active (mkLibraryUser "Ana Lima" "ana@test.com" "" "" "REG001" false)
  = false
  /\ is_active (mkLibraryUser "Ana Lima" "ana@test.com" "" "" "REG001" true)
     = true.
Proof.
  apply (is_active_text_and_sheet_disagree ana_fields
           UserFileProcessor.expected_columns ana_row "no" (CStr "no")).
  - reflexivity.
  - reflexivity.
  - right. split; [reflexivity|discriminate].
  - reflexivity.
  - reflexivity.
  - reflexivity.
Defined.

(** ** The quantities of a book that the serializer accepts *)

(** X9.  [BookSerializer.validate] on quantities that are not negative: it
    accepts exactly when the available quantity is at most the quantity, or
    the quantity is zero.  So a book with a quantity of zero is accepted
    with any number of available copies. *)
Theorem validated_quantities_in_range (instance : option Book)
    (given_quantity given_available : option Z) (q a : Z) :
  BookSerializer.entry given_quantity instance quantity = Some q ->
  BookSerializer.entry given_available instance available_quantity = Some a ->
  (0 <= a)%Z ->
  (0 <= q)%Z ->
  (BookSerializer.validate instance given_quantity given_available = false <->
   (a <= q)%Z \/ q = 0%Z).
Proof.
  intros Hq Ha Ha0 Hq0. unfold BookSerializer.validate.
  rewrite Hq, Ha. cbn [BookSerializer.truthy].
  destruct (Z.eqb_spec a 0), (Z.eqb_spec q 0), (Z.ltb_spec q a); cbn;
    split; intros; try discriminate; try reflexivity; lia.
Qed.

Lemma validated_quantities_in_range_witness :
  BookSerializer.validate (Some on_the_shelf) (Some 0%Z) None = false <->
  (5 <= 0)%Z \/ 0%Z = 0%Z.
Proof.
  apply (validated_quantities_in_range (Some on_the_shelf) (Some 0%Z) None).
  - reflexivity.
  - reflexivity.
  - lia.
  - lia.
Defined.

(* ===================================================================== *)
(** * Loans *)
(* ===================================================================== *)

Lemma save_inv (self saved : Loans.Loan) :
  Loans.save self = Loans.Fine saved ->
  Loans.loan_date saved = Loans.loan_date self
  /\ Loans.return_date saved = Loans.return_date self
  /\ Loans.status saved = Loans.status self
  /\ Loans.notes saved = Loans.notes self
  /\ exists due,
       Loans.due_date saved = Some due
       /\ (Loans.due_date self = Some due
           \/ Loans.due_date self = None
              /\ due = (Loans.loan_date self + 14)%Z
              /\ (due <= Loans.max_ordinal)%Z).
Proof.
  unfold Loans.save, Loans.plus_days.
  destruct (Loans.due_date self) as [d|] eqn:Ed.
  - intros H; inversion H; subst. repeat split; eauto.
  - destruct (_ && _) eqn:Er; [|discriminate].
    intros H; inversion H; subst; cbn.
    apply andb_true_iff in Er. destruct Er as [_ Er]. apply Z.leb_le in Er.
    repeat split. eexists; split; [reflexivity|]. right. auto.
Qed.

(** X10.  A loan that [Loan.save] has saved has a due date: the one it was
    given, or else the fourteenth day after the loan date, which is then a
    date of the calendar.  The other fields are as they were, and saving
    the loan once more changes nothing. *)
Theorem saved_loan_has_due_date (self saved : Loans.Loan) :
  Loans.save self = Loans.Fine saved ->
  Loans.due_date saved =
    Some (match Loans.due_date self with
          | Some due => due
          | None => (Loans.loan_date self + 14)%Z
          end)
  /\ Loans.loan_date saved = Loans.loan_date self
  /\ Loans.return_date saved = Loans.return_date self
  /\ Loans.status saved = Loans.status self
  /\ Loans.notes saved = Loans.notes self
  /\ Loans.save saved = Loans.Fine saved.
Proof.
  intros H. destruct (save_inv _ _ H) as (Hl & Hr & Hs & Hn & due & Hd & Hor).
  repeat split; auto.
  - rewrite Hd. destruct Hor as [->|(-> & -> & _)]; reflexivity.
  - unfold Loans.save. now rewrite Hd.
Qed.

Lemma saved_loan_has_due_date_witness :
  Loans.save lent_in_january = Loans.Fine due_in_january
  /\ Loans.due_date due_in_january = Some 739275%Z
  /\ Loans.save due_in_january = Loans.Fine due_in_january.
Proof.
  destruct (saved_loan_has_due_date lent_in_january due_in_january eq_refl)
    as (H1 & _ & _ & _ & _ & H2).
  split; [reflexivity|]. split; [exact H1|exact H2].
Defined.

(** X11.  [Loan.days_overdue] agrees with [Loan.is_overdue] on loans whose
    date fields hold dates: loans given dates, or read back from the
    table.  On such a loan, once saved, neither method raises, whatever
    the day; the number of days is never negative, it is positive exactly
    when the loan is overdue, it is zero for a returned loan, and for an
    overdue loan it is the number of days since the due date.  (The clock
    is read twice; the second reading is not before the first.  Nothing is
    said of an instance that still holds the datetime of the default
    [loan_date]: there the comparison raises [TypeError].) *)
Theorem days_overdue_agrees_with_is_overdue (today later : Z)
    (self saved : Loans.Loan) :
  Loans.save self = Loans.Fine saved ->
  (today <= later)%Z ->
  exists overdue days,
    Loans.is_overdue today saved = Loans.Fine overdue
    /\ Loans.days_overdue today later saved = Loans.Fine days
    /\ (0 <= days)%Z
    /\ (overdue = true <-> 0 < days)%Z
    /\ (Loans.status saved = Loans.RETURNED -> days = 0%Z)
    /\ (overdue = true ->
        forall due, Loans.due_date saved = Some due -> days = (later - due)%Z).
Proof.
  intros H Hle. destruct (save_inv _ _ H) as (_ & _ & _ & _ & due & Hd & _).
  unfold Loans.days_overdue, Loans.is_overdue. rewrite Hd.
  destruct (Loans.is_returned (Loans.status saved)) eqn:Er.
  - exists false, 0%Z. repeat split; try lia; try discriminate.
  - destruct (due <? today)%Z eqn:El.
    + apply Z.ltb_lt in El. exists true, (later - due)%Z.
      repeat split; try lia.
      * intros Hs. rewrite Hs in Er. discriminate.
      * intros _ due' Hd'. congruence.
    + apply Z.ltb_ge in El. exists false, 0%Z.
      repeat split; try lia; try discriminate.
Qed.

Lemma days_overdue_agrees_with_is_overdue_witness :
  Loans.save lent_in_january = Loans.Fine due_in_january
  /\ (739278 <= 739278)%Z
  /\ exists overdue days,
       Loans.is_overdue 739278%Z due_in_january = Loans.Fine overdue
       /\ Loans.days_overdue 739278%Z 739278%Z due_in_january = Loans.Fine days
       /\ (0 <= days)%Z
       /\ (overdue = true <-> 0 < days)%Z
       /\ (Loans.status due_in_january = Loans.RETURNED -> days = 0%Z)
       /\ (overdue = true ->
           forall due,
             Loans.due_date due_in_january = Some due ->
             days = (739278 - due)%Z).
Proof.
  split; [reflexivity|]. split; [lia|].
  apply (days_overdue_agrees_with_is_overdue 739278%Z 739278%Z lent_in_january).
  - reflexivity.
  - lia.
Defined.

(** X12.  The loans that [LoanRepository.get_overdue_loans] lists on a day
    are the loans that [get_active_loans] lists and that [Loan.is_overdue]
    calls overdue on that day. *)
Theorem overdue_listing_is_active_and_overdue (today : Z)
    (objects : list Loans.Loan) (l : Loans.Loan) :
  In l (Loans.get_overdue_loans today objects) <->
  In l (Loans.get_active_loans objects)
  /\ Loans.is_overdue today l = Loans.Fine true.
Proof.
  unfold Loans.get_overdue_loans, Loans.get_active_loans, Loans.is_overdue.
  rewrite !filter_In.
  destruct (Loans.status l) eqn:Es; cbn;
    destruct (Loans.due_date l) as [due|]; cbn;
    split; intros H; try tauto;
    try (destruct H as [[_ H] _]; discriminate);
    try (destruct H as [_ H]; discriminate).
  - destruct H as [Hin H]. rewrite H. auto.
  - destruct H as [[Hin _] H]. inversion H. auto.
Qed.

(** X13.  A loan with the status renewed or overdue that is past its due
    date is overdue for [Loan.is_overdue], and yet
    [LoanRepository.get_overdue_loans] never lists it. *)
Theorem renewed_loans_are_never_listed_overdue (today : Z)
    (objects : list Loans.Loan) (l : Loans.Loan) (due : Z) :
  Loans.status l = Loans.RENEWED \/ Loans.status l = Loans.OVERDUE ->
  Loans.due_date l = Some due ->
  (due < today)%Z ->
  Loans.is_overdue today l = Loans.Fine true
  /\ ~ In l (Loans.get_overdue_loans today objects).
Proof.
  intros Hs Hd Hlt. split.
  - unfold Loans.is_overdue. rewrite Hd.
    apply Z.ltb_lt in Hlt. rewrite Hlt.
    destruct Hs as [-> | ->]; reflexivity.
  - unfold Loans.get_overdue_loans. rewrite filter_In. intros [_ H].
    destruct Hs as [Hs|Hs]; rewrite Hs in H; discriminate.
Qed.

Lemma renewed_loans_are_never_listed_overdue_witness :
  Loans.is_overdue 739278%Z renewed_in_january = Loans.Fine true
  /\ ~ In renewed_in_january
         (Loans.get_overdue_loans 739278%Z [due_in_january; renewed_in_january]).
Proof.
  apply (renewed_loans_are_never_listed_overdue 739278%Z
           [due_in_january; renewed_in_january] renewed_in_january 739275%Z).
  - left. reflexivity.
  - reflexivity.
  - lia.
Defined.

Lemma validate_available book user :
  Loans.validate None (Some book) user = None ->
  (0 < available_quantity book)%Z.
Proof.
  unfold Loans.validate, Loans.is_available.
  destruct (0 <? available_quantity book)%Z eqn:E; cbn; [|discriminate].
  intros _. now apply Z.ltb_lt.
Qed.

Lemma create_inv today book fields loan book' :
  Loans.create today book fields = Loans.Fine (loan, book') ->
  book' = snd (reserve_copy book)
  /\ Loans.status loan =
     match Loans.given_status fields with Some s => s | None => Loans.ACTIVE end.
Proof.
  unfold Loans.create, Loans.objects_create.
  destruct (Loans.save _) as [l| |] eqn:Es; try discriminate.
  intros H; inversion H; subst. split; [reflexivity|].
  apply save_inv in Es. now destruct Es as (_ & _ & -> & _).
Qed.

(** X14.  A loan that passed validation takes a copy.  When
    [LoanSerializer.validate] accepts the data of a new loan, the
    [reserve_copy] of [LoanSerializer.create] finds a copy: it returns
    [True], the book has one available copy less, not below zero, and the
    same quantity. *)
Theorem validated_loan_takes_a_copy (today : Z) (book book' : Book)
    (user : option LibraryUser) (fields : Loans.LoanFields) (loan : Loans.Loan) :
  Loans.validate None (Some book) user = None ->
  Loans.create today book fields = Loans.Fine (loan, book') ->
  reserve_copy book = (true, book')
  /\ available_quantity book' = (available_quantity book - 1)%Z
  /\ (0 <= available_quantity book')%Z
  /\ quantity book' = quantity book.
Proof.
  intros Hv Hc. apply validate_available in Hv.
  apply create_inv in Hc. destruct Hc as [-> _].
  unfold reserve_copy. apply Z.ltb_lt in Hv as Hv'. rewrite Hv'. cbn.
  repeat split; lia.
Qed.

Lemma validated_loan_takes_a_copy_witness :
  Loans.validate None (Some last_copy) (Some joao) = None
  /\ Loans.create 739261%Z last_copy for_two_weeks
     = Loans.Fine (due_in_january, all_lent)
  /\ reserve_copy last_copy = (true, all_lent)
  /\ available_quantity all_lent = (available_quantity last_copy - 1)%Z
  /\ (0 <= available_quantity all_lent)%Z
  /\ quantity all_lent = quantity last_copy.
Proof.
  split; [reflexivity|]. split; [reflexivity|].
  exact (validated_loan_takes_a_copy 739261%Z last_copy all_lent (Some joao)
           for_two_weeks due_in_january eq_refl eq_refl).
Defined.

(** X15.  [LoanSerializer.create] itself does not ask for a copy.  Called
    for a book without an available copy it still creates the loan, with
    the status it was given or else active, and leaves the book as it is:
    what [reserve_copy] returns is not looked at. *)
Theorem unavailable_book_is_lent_as_is (today : Z) (book : Book)
    (fields : Loans.LoanFields) :
  (available_quantity book <= 0)%Z ->
  exists loan,
    Loans.create today book fields = Loans.Fine (loan, book)
    /\ Loans.due_date loan = Some (Loans.given_due_date fields)
    /\ Loans.status loan =
       match Loans.given_status fields with
       | Some s => s
       | None => Loans.ACTIVE
       end.
Proof.
  intros Hq. unfold Loans.create, Loans.objects_create, Loans.save.
  cbn [Loans.due_date]. unfold reserve_copy.
  apply Z.ltb_ge in Hq. rewrite Hq. cbn [snd].
  eexists. split; [reflexivity|]. split; reflexivity.
Qed.

Lemma unavailable_book_is_lent_as_is_witness :
  (available_quantity all_lent <= 0)%Z
  /\ exists loan,
       Loans.create 739261%Z all_lent for_two_weeks = Loans.Fine (loan, all_lent)
       /\ Loans.due_date loan = Some (Loans.given_due_date for_two_weeks)
       /\ Loans.status loan =
          match Loans.given_status for_two_weeks with
          | Some s => s
          | None => Loans.ACTIVE
          end.
Proof.
  assert (available_quantity all_lent <= 0)%Z as H by (simpl; lia).
  split; [exact H|].
  exact (unavailable_book_is_lent_as_is 739261%Z all_lent for_two_weeks H).
Defined.

(** X16.  The listings and the validation agree.  A book that
    [BookRepository.get_available_books] lists and a user that
    [UserRepository.get_active_users] lists pass [LoanSerializer.validate]
    for a new loan. *)
Theorem listed_rows_pass_validation (books : list Book)
    (users : list LibraryUser) (book : Book) (user : LibraryUser) :
  In book (BookRepository.get_available_books books) ->
  In user (UserRepository.get_active_users users) ->
  Loans.validate None (Some book) (Some user) = None.
Proof.
  unfold BookRepository.get_available_books, UserRepository.get_active_users.
  rewrite !filter_In. intros [_ Hb] [_ Hu].
  unfold Loans.validate, Loans.is_available, Loans.can_borrow.
  now rewrite Hb, Hu.
Qed.

Lemma listed_rows_pass_validation_witness :
  In last_copy (BookRepository.get_available_books [all_lent; last_copy])
  /\ In joao (UserRepository.get_active_users [joao])
  /\ Loans.validate None (Some last_copy) (Some joao) = None.
Proof.
  assert (In last_copy (BookRepository.get_available_books [all_lent; last_copy]))
    as Hb by (simpl; left; reflexivity).
  assert (In joao (UserRepository.get_active_users [joao]))
    as Hu by (simpl; left; reflexivity).
  split; [exact Hb|]. split; [exact Hu|].
  exact (listed_rows_pass_validation [all_lent; last_copy] [joao] last_copy joao
           Hb Hu).
Defined.

Lemma mark_as_returned_inv today loan book loan' book' :
  Loans.mark_as_returned today loan book = Loans.Fine (loan', book') ->
  Loans.status loan' = Loans.RETURNED
  /\ Loans.return_date loan' = Some today
  /\ book' = snd (return_copy book).
Proof.
  unfold Loans.mark_as_returned.
  destruct (Loans.save _) as [l| |] eqn:Es; try discriminate.
  intros H; inversion H; subst.
  apply save_inv in Es. destruct Es as (_ & Hr & Hs & _). cbn in *. auto.
Qed.

(** X17.  A loan is returned once through the API.  A call of
    [LoanViewSet.return_loan] that gets past the guard, the loan not being
    returned yet, saves the loan as returned, with the day as its return
    date, and the book after [return_copy]; it then raises
    [AssertionError] instead of answering 200.  Another [return_loan] on
    that loan, on any later day, answers 400 with its message and changes
    neither the loan nor the book.  So the view answers 400 or nothing. *)
Theorem loan_is_returned_once (today later : Z) (loan loan' : Loans.Loan)
    (book book' : Book) (reply : Loans.Reply) :
  Loans.return_loan today loan book = Loans.Fine (reply, loan', book') ->
  Loans.status loan <> Loans.RETURNED ->
  reply = Loans.AssertionError
  /\ Loans.status loan' = Loans.RETURNED
  /\ Loans.return_date loan' = Some today
  /\ book' = snd (return_copy book)
  /\ Loans.return_loan later loan' book' =
     Loans.Fine (Loans.Answers
                   (Loans.mkResponse 400 "This loan has already been returned"),
                 loan', book').
Proof.
  unfold Loans.return_loan at 1.
  destruct (Loans.is_returned (Loans.status loan)) eqn:Er.
  - intros _ H. destruct (Loans.status loan); try discriminate. congruence.
  - destruct (Loans.mark_as_returned today loan book) as [[l b]| |] eqn:Em;
      try discriminate.
    intros H _; inversion H; subst.
    apply mark_as_returned_inv in Em. destruct Em as (Hs & Hr & Hb).
    repeat split; auto. unfold Loans.return_loan. now rewrite Hs.
Qed.

Lemma loan_is_returned_once_witness :
  Loans.return_loan 739270%Z due_in_january all_lent
  = Loans.Fine (Loans.AssertionError, returned_in_january, last_copy)
  /\ Loans.status due_in_january <> Loans.RETURNED
  /\ Loans.status returned_in_january = Loans.RETURNED
  /\ Loans.return_date returned_in_january = Some 739270%Z
  /\ last_copy = snd (return_copy all_lent)
  /\ Loans.return_loan 739278%Z returned_in_january last_copy =
     Loans.Fine (Loans.Answers
                   (Loans.mkResponse 400 "This loan has already been returned"),
                 returned_in_january, last_copy).
Proof.
  assert (Loans.status due_in_january <> Loans.RETURNED) as Hs
    by (simpl; discriminate).
  split; [reflexivity|]. split; [exact Hs|].
  exact (proj2 (loan_is_returned_once 739270%Z 739278%Z due_in_january
                  returned_in_january all_lent last_copy Loans.AssertionError
                  eq_refl Hs)).
Defined.

(** X18.  [Loan.mark_as_returned] itself has no such guard.  Called on a
    loan that is already returned, as the admin action does for every
    selected loan, it sets the return date anew and, when the book has a
    copy out, puts one more copy back. *)
Theorem mark_as_returned_has_no_guard (today due : Z) (loan : Loans.Loan)
    (book : Book) :
  Loans.status loan = Loans.RETURNED ->
  Loans.due_date loan = Some due ->
  (available_quantity book < quantity book)%Z ->
  exists loan' book',
    Loans.mark_as_returned today loan book = Loans.Fine (loan', book')
    /\ Loans.return_date loan' = Some today
    /\ Loans.status loan' = Loans.RETURNED
    /\ available_quantity book' = (available_quantity book + 1)%Z.
Proof.
  intros _ Hd Hlt. unfold Loans.mark_as_returned, Loans.save.
  cbn [Loans.due_date]. rewrite Hd. unfold return_copy.
  apply Z.ltb_lt in Hlt. rewrite Hlt. cbn [snd].
  eexists. eexists. split; [reflexivity|]. cbn. auto.
Qed.

Lemma mark_as_returned_has_no_guard_witness :
  Loans.status returned_in_january = Loans.RETURNED
  /\ (available_quantity one_lent < quantity one_lent)%Z
  /\ exists loan' book',
       Loans.mark_as_returned 739278%Z returned_in_january one_lent
       = Loans.Fine (loan', book')
       /\ Loans.return_date loan' = Some 739278%Z
       /\ Loans.status loan' = Loans.RETURNED
       /\ available_quantity book' = (available_quantity one_lent + 1)%Z.
Proof.
  assert (available_quantity one_lent < quantity one_lent)%Z as H
    by (simpl; lia).
  split; [reflexivity|]. split; [exact H|].
  exact (mark_as_returned_has_no_guard 739278%Z 739275%Z returned_in_january
           one_lent eq_refl eq_refl H).
Defined.

(** ** Copies and open loans *)

Lemma open_loans_app loans l :
  Loans.open_loans (loans ++ [l]) =
  (Loans.open_loans loans
   + if Loans.is_returned (Loans.status l) then 0 else 1)%Z.
Proof.
  unfold Loans.open_loans. rewrite filter_app, length_app. cbn.
  destruct (Loans.is_returned (Loans.status l)); cbn; lia.
Qed.

Lemma open_loans_cons l loans :
  Loans.open_loans (l :: loans) =
  ((if Loans.is_returned (Loans.status l) then 0 else 1)
   + Loans.open_loans loans)%Z.
Proof.
  unfold Loans.open_loans. cbn.
  destruct (Loans.is_returned (Loans.status l)); cbn [negb List.length]; lia.
Qed.

Lemma open_loans_nonneg loans : (0 <= Loans.open_loans loans)%Z.
Proof. unfold Loans.open_loans. lia. Qed.

Lemma open_loans_replace loans :
  forall pk l l',
    nth_error loans pk = Some l ->
    Loans.open_loans (Loans.replace_row pk l' loans) =
    (Loans.open_loans loans
     - (if Loans.is_returned (Loans.status l) then 0 else 1)
     + (if Loans.is_returned (Loans.status l') then 0 else 1))%Z.
Proof.
  induction loans as [|x rest IH]; intros pk l l' H.
  - destruct pk; discriminate.
  - destruct pk as [|pk]; cbn in H.
    + inversion H; subst. cbn [Loans.replace_row].
      rewrite !open_loans_cons. lia.
    + cbn [Loans.replace_row]. rewrite !open_loans_cons.
      rewrite (IH _ _ l' H). lia.
Qed.

Lemma open_loans_has loans :
  forall pk l,
    nth_error loans pk = Some l ->
    Loans.is_returned (Loans.status l) = false ->
    (1 <= Loans.open_loans loans)%Z.
Proof.
  induction loans as [|x rest IH]; intros pk l Hn Er.
  - destruct pk; discriminate.
  - rewrite open_loans_cons. destruct pk as [|pk]; cbn in Hn.
    + inversion Hn; subst. rewrite Er.
      pose proof (open_loans_nonneg rest). lia.
    + pose proof (IH _ _ Hn Er).
      destruct (Loans.is_returned (Loans.status x)); lia.
Qed.

Lemma replace_row_same {A : Type} (rows : list A) :
  forall pk x, nth_error rows pk = Some x -> Loans.replace_row pk x rows = rows.
Proof.
  induction rows as [|r rest IH]; intros pk x H.
  - now destruct pk.
  - destruct pk as [|pk]; cbn in *.
    + now inversion H.
    + now rewrite IH.
Qed.

Lemma step_accounted s s' :
  Loans.accounted s -> Loans.step s s' -> Loans.accounted s'.
Proof.
  unfold Loans.accounted.
  intros [Hpos Hsum] Hstep.
  destruct Hstep as [today user fields book loans loan book' Hv Hst Hc
                    |today pk loan book loans reply loan' book' Hn Hr];
    cbn [fst snd] in *.
  - apply validate_available in Hv.
    apply create_inv in Hc. destruct Hc as [-> Hs].
    rewrite open_loans_app.
    assert (Loans.is_returned (Loans.status loan) = false) as ->.
    { rewrite Hs. destruct (Loans.given_status fields) as [[]|];
        try reflexivity. congruence. }
    unfold reserve_copy. apply Z.ltb_lt in Hv as Hv'. rewrite Hv'. cbn.
    lia.
  - unfold Loans.return_loan in Hr.
    destruct (Loans.is_returned (Loans.status loan)) eqn:Er.
    + inversion Hr; subst. rewrite (replace_row_same _ _ _ Hn). auto.
    + destruct (Loans.mark_as_returned today loan book) as [[l b]| |] eqn:Em;
        try discriminate.
      inversion Hr; subst.
      apply mark_as_returned_inv in Em. destruct Em as (Hs & _ & ->).
      rewrite (open_loans_replace _ _ _ loan' Hn), Er, Hs. cbn.
      pose proof (open_loans_has _ _ _ Hn Er).
      unfold return_copy.
      assert ((available_quantity book <? quantity book)%Z = true) as ->
          by (apply Z.ltb_lt; lia).
      cbn. lia.
Qed.

(** X19.  Every copy is on the shelf or out on an open loan.  Start from a
    book and its loans such that the available copies and the loans that
    are not returned add up to the quantity of the book.  Then they still
    do after any sequence of loans created through the serializer (not
    with the status returned) and of calls of [return_loan], those that
    answer 400 and those that save the return and then raise; the
    available quantity stays between zero and the quantity. *)
Theorem copies_and_open_loans_add_up (s s' : Book * list Loans.Loan) :
  Loans.accounted s -> Loans.steps s s' ->
  Loans.accounted s' /\ in_range (fst s').
Proof.
  intros Ha Hs.
  assert (Loans.accounted s') as H.
  { induction Hs as [s|s1 s2 s3 _ IH Hstep]; [assumption|].
    exact (step_accounted _ _ (IH Ha) Hstep). }
  split; [assumption|].
  destruct H as [H0 H1]. unfold in_range.
  pose proof (open_loans_nonneg (snd s')). lia.
Qed.

Lemma copies_and_open_loans_add_up_witness :
  Loans.accounted (refactoring, [])
  /\ Loans.steps (refactoring, []) (refactoring, [returned_in_january])
  /\ Loans.accounted (refactoring, [returned_in_january])
  /\ in_range refactoring.
Proof.
  assert (Loans.accounted (refactoring, [])) as Ha
    by (unfold Loans.accounted; simpl; lia).
  assert (Loans.steps (refactoring, []) (refactoring, [returned_in_january]))
    as Hs.
  { apply Loans.steps_more with (s2 := (one_lent, [due_in_january])).
    - apply Loans.steps_more with (s2 := (refactoring, [])).
      + apply Loans.steps_none.
      + exact (Loans.step_create 739261%Z joao for_two_weeks refactoring []
                 due_in_january one_lent eq_refl
                 (fun H => eq_ind None
                             (fun o => match o with
                                       | None => True
                                       | Some _ => False
                                       end) I _ H)
                 eq_refl).
    - exact (Loans.step_return 739270%Z 0 due_in_january one_lent
               [due_in_january] Loans.AssertionError
               returned_in_january refactoring eq_refl eq_refl). }
  split; [exact Ha|]. split; [exact Hs|].
  exact (copies_and_open_loans_add_up (refactoring, [])
           (refactoring, [returned_in_january]) Ha Hs).
Defined.

(** ** The copy counter, there and back *)

(** X20.  On a book whose available quantity is between zero and its
    quantity, [Book.return_copy] undoes a [Book.reserve_copy] that returned
    [True], and [reserve_copy] undoes a [return_copy] that returned [True]:
    the book is again as it was.  A call that returns [False] has changed
    nothing, and it does so only at the end of the range: [reserve_copy]
    with no copy available, [return_copy] with every copy available. *)
Theorem reserve_then_return_restores (b b' : Book) :
  in_range b ->
  (reserve_copy b = (true, b') -> return_copy b' = (true, b))
  /\ (return_copy b = (true, b') -> reserve_copy b' = (true, b))
  /\ (fst (reserve_copy b) = false ->
      snd (reserve_copy b) = b /\ available_quantity b = 0%Z)
  /\ (fst (return_copy b) = false ->
      snd (return_copy b) = b /\ available_quantity b = quantity b).
Proof.
  destruct b as [t a i p y c q av]. unfold in_range, reserve_copy, return_copy.
  cbn [available_quantity quantity title author isbn publisher
       publication_year category].
  intros [H0 H1].
  destruct (Z.ltb_spec 0 av) as [Hr|Hr], (Z.ltb_spec av q) as [Ht|Ht];
    cbn [fst snd];
    repeat split; try discriminate; try lia;
    intros H; inversion H; subst;
    cbn [available_quantity quantity title author isbn publisher
         publication_year category].
  all: try match goal with
           | |- context [(?x <? ?y)%Z] =>
               destruct (Z.ltb_spec x y); [|lia]
           end.
  all: repeat f_equal; lia.
Qed.

Lemma reserve_then_return_restores_witness :
  in_range last_copy
  /\ (reserve_copy last_copy = (true, all_lent) ->
      return_copy all_lent = (true, last_copy))
  /\ (return_copy last_copy = (true, all_lent) ->
      reserve_copy all_lent = (true, last_copy))
  /\ (fst (reserve_copy last_copy) = false ->
      snd (reserve_copy last_copy) = last_copy
      /\ available_quantity last_copy = 0%Z)
  /\ (fst (return_copy last_copy) = false ->
      snd (return_copy last_copy) = last_copy
      /\ available_quantity last_copy = quantity last_copy).
Proof.
  assert (in_range last_copy) as H by (unfold in_range; simpl; lia).
  split; [exact H|].
  exact (reserve_then_return_restores last_copy all_lent H).
Defined.
